(** * QuavixAI: reasoning orchestration engine

    A shallow embedding of the Go packages [llm], [prompt], [vector] and
    [chat] (generation engine and policy, bracket extraction of structured
    payloads, the pgvector store, the memory engine and the 5-Why
    orchestrator), followed by the properties of the specification; and
    of the manager, the repository, the service and the handlers of
    [chat] and the packages [response] and [router], followed by further
    properties of the code.

    Conventions.
    - Go [string] is a sequence of bytes: [String.string]; [len] is its
      byte length as an integer.
    - Go [int] is [Z]; no operation of the modelled code can overflow.
    - A Go result pair [(v, err)] is the pair [(v, option error)], with
      [None] for [nil]; a nilable pointer result is an [option].
    - [float64] values appear only as decimal literals and as decoded JSON
      numbers; they are the rationals ([Q]) those literals denote.
    - Everything outside the process (provider, SQL database, key/value
      store, wall clock) acts on an abstract world, threaded explicitly;
      the [context.Context] handed down every call is part of that world.
    - Receivers and interface-valued fields are the non-nil values the
      constructors leave, except where the code tests for nil (the
      manager's stores), which are options. *)

From Stdlib Require Import ZArith QArith Ascii String DecimalString List Lia.
From stdpp Require Import base option gmap strings list fin_maps.

Local Open Scope string_scope.
Local Open Scope Z_scope.

(** ** Go primitives *)

Record error := errors_New { Error : string }.

Definition len (s : string) : Z := Z.of_nat (String.length s).

(** [fmt.Sprintf("%d", n)] *)
Definition itoa (n : Z) : string := NilZero.string_of_int (Z.to_int n).

Definition nl : string := String (ascii_of_nat 10) "".
Definition tab : string := String (ascii_of_nat 9) "".
Definition quote : string := String (ascii_of_nat 34) "".

(** [float32] is opaque to the model: the code only converts to it,
    divides and prints. *)
Class Float32 := {
  float32 : Type;
  float32_zero : float32;
  float32_of_int : Z -> float32;
  float32_div : float32 -> float32 -> float32;
  (** [fmt.Sprintf("%f", v)] *)
  fmt_f : float32 -> string
}.

(** ** Package llm: modes and policy (engine.go) *)

Definition Mode := string.

Definition ModeReasoning : Mode := "reasoning".
Definition ModeAnalysis : Mode := "analysis".
Definition ModeDiagnosis : Mode := "diagnosis".
Definition ModePlanning : Mode := "planning".
Definition ModeDefault : Mode := "default".

(** [PolicyEngine.SelectProvider] *)
Definition SelectProvider (mode : Mode) : string * option error :=
  if String.eqb mode ModeReasoning then ("primary", None)
  else if String.eqb mode ModeAnalysis then ("primary", None)
  else if String.eqb mode ModeDiagnosis then ("primary", None)
  else if String.eqb mode ModePlanning then ("primary", None)
  else ("primary", None).

(** [PolicyEngine.EstimateConfidence] *)
Definition EstimateConfidence (mode : Mode) (text : string) : Q :=
  let l := len text in
  if (1500 <? l)%Z then 0.95%Q
  else if (800 <? l)%Z then 0.85%Q
  else if (300 <? l)%Z then 0.7%Q
  else 0.5%Q.

(** ** Package strings (Go standard library), as far as [extractJSON]
    uses it *)

Definition bytes (l : list Z) : string :=
  fold_right (fun n s => String (ascii_of_N (Z.to_N n)) s) "" l.

(** The UTF-8 encodings of the runes for which [unicode.IsSpace] holds:
    tab, LF, VT, FF, CR, space, U+0085, U+00A0, U+1680, U+2000..U+200A,
    U+2028, U+2029, U+202F, U+205F, U+3000. *)
Definition space_runes : list string :=
  map bytes
    (app [ [9]; [10]; [11]; [12]; [13]; [32]; [194; 133]; [194; 160];
           [225; 154; 128] ]
    (app (map (fun k => [226; 128; 128 + k]) (seqZ 0 11))
         [ [226; 128; 168]; [226; 128; 169]; [226; 128; 175];
           [226; 129; 159]; [227; 128; 128] ])).

Fixpoint drop_string (n : nat) (s : string) : string :=
  match n, s with
  | S n', String _ s' => drop_string n' s'
  | _, _ => s
  end.

Fixpoint rev_string (s : string) : string :=
  match s with
  | "" => ""
  | String c s' => rev_string s' +:+ String c ""
  end.

(** Strips, at most [fuel] times, one rune of [runes] from the front. *)
Fixpoint trim_front (runes : list string) (fuel : nat) (s : string) : string :=
  match fuel with
  | O => s
  | S fuel' =>
      match find (fun r => String.prefix r s) runes with
      | Some r => trim_front runes fuel' (drop_string (String.length r) s)
      | None => s
      end
  end.

(** [strings.TrimSpace]: leading space runes are removed first, then the
    trailing ones (found by decoding the last rune, which for the valid
    encodings above is a suffix test). *)
Definition strings_TrimSpace (s : string) : string :=
  let l := trim_front space_runes (String.length s) s in
  rev_string
    (trim_front (map rev_string space_runes) (String.length l) (rev_string l)).

(** [strings.Index]: byte offset of the first occurrence, or -1. *)
Fixpoint strings_Index (s substr : string) : Z :=
  if String.prefix substr s then 0
  else match s with
       | "" => -1
       | String _ s' =>
           let i := strings_Index s' substr in
           if i =? -1 then -1 else i + 1
       end.

(** [strings.LastIndex]: byte offset of the last occurrence, or -1. *)
Fixpoint strings_LastIndex (s substr : string) : Z :=
  match s with
  | "" => if String.prefix substr "" then 0 else -1
  | String _ s' =>
      let i := strings_LastIndex s' substr in
      if i =? -1 then (if String.prefix substr s then 0 else -1) else i + 1
  end.

(** The slice expression [s[lo:hi]], for [0 <= lo <= hi <= len(s)]. *)
Definition slice (s : string) (lo hi : Z) : string :=
  String.substring (Z.to_nat lo) (Z.to_nat (hi - lo)) s.

(** ** Package types *)

Record FiveWhyStep := mkFiveWhyStep {
  Level : Z;
  Question : string;
  Answer : string;
  Analysis : string
}.

Record RootCauseResult := mkRootCauseResult {
  RootCause : string;
  Confidence : Q;
  Evidence : list string;
  Category : string;
  ImpactScope : string
}.

Record SolutionResult := mkSolutionResult {
  Immediate : list string;
  Strategic : list string;
  Preventive : list string;
  Automation : list string;
  Owner : string;
  Complexity : string;
  TimeHorizon : string
}.

Record ReframedQuestion := mkReframedQuestion {
  Original : string;
  Reframed : string;
  Intent : string;
  Goal : string
}.

(** Zero values, as left by [var x T]. *)
Definition RootCauseResult_zero : RootCauseResult :=
  mkRootCauseResult "" 0%Q [] "" "".
Definition SolutionResult_zero : SolutionResult :=
  mkSolutionResult [] [] [] [] "" "" "".
Definition ReframedQuestion_zero : ReframedQuestion :=
  mkReframedQuestion "" "" "" "".

(** ** Package chat: session memory records (memory engine) *)

Record MemoryMessage := mkMemoryMessage {
  Role : string;
  Content : string;
  Timestamp : Z
}.

Record SessionMemory := mkSessionMemory {
  SessionMemory_SessionID : string;
  SessionMemory_Messages : list MemoryMessage;
  SessionMemory_UpdatedAt : Z
}.

Definition SessionMemory_zero : SessionMemory := mkSessionMemory "" [] 0.

(** ** Packages encoding/json and text/template (Go standard library)

    [json.Unmarshal(data, &v)] mutates [v] and returns an error; the model
    returns the value [v] holds afterwards together with the error. Which
    texts decode is left to the instance. *)
Class Json := {
  (** target [map[string]interface{}]; only the error is looked at *)
  json_Unmarshal_object : string -> option error;
  json_Unmarshal_RootCauseResult :
    string -> RootCauseResult -> RootCauseResult * option error;
  json_Unmarshal_SolutionResult :
    string -> SolutionResult -> SolutionResult * option error;
  json_Unmarshal_ReframedQuestion :
    string -> ReframedQuestion -> ReframedQuestion * option error;
  json_Unmarshal_SessionMemory :
    string -> SessionMemory -> SessionMemory * option error;
  (** [string(b)] for [b, _ := json.Marshal(v)] *)
  json_Marshal_SessionMemory : SessionMemory -> string
}.

Inductive TemplateValue :=
| TInt (n : Z)
| TString (s : string).

Class TextTemplate := {
  Template : Type;
  (** [template.New("prompt").Parse(tpl)], [None] on a parse error *)
  template_Parse : string -> option Template;
  (** contents of the buffer after [t.Execute(&buf, data)] *)
  template_Execute : Template -> gmap string TemplateValue -> string
}.

(** The template texts of package prompt; their file is not part of the
    verified sources, so they are parameters. *)
Class Templates := {
  FiveWhyTemplate : string;
  EvaluationTemplate : string;
  NextWhyTemplate : string;
  RootCauseTemplate : string;
  SolutionTemplate : string;
  ReframeTemplate : string
}.

(** ** Package prompt (builder.go) *)

Record Builder := mkBuilder {
  BuildFiveWhyPrompt : Z -> string -> string;
  BuildEvaluationPrompt : string -> string -> string;
  BuildNextWhyPrompt : string -> string;
  BuildRootCausePrompt : list FiveWhyStep -> string;
  BuildSolutionPrompt : RootCauseResult -> list FiveWhyStep -> string;
  BuildReframePrompt : string -> RootCauseResult -> string;
  ParseRootCause : string -> RootCauseResult -> RootCauseResult * option error;
  ParseSolution : string -> SolutionResult -> SolutionResult * option error;
  ParseReframe :
    string -> ReframedQuestion -> ReframedQuestion * option error
}.

Section Prompt.
Context {JS : Json} {TT : TextTemplate} {TP : Templates}.

Definition render (tpl : string) (data : gmap string TemplateValue) : string :=
  match template_Parse tpl with
  | None => tpl
  | Some t => template_Execute t data
  end.

Definition extractJSON (raw : string) : string * option error :=
  let raw := strings_TrimSpace raw in
  let start := strings_Index raw "{" in
  let end_ := strings_LastIndex raw "}" in
  if (start =? -1) || (end_ =? -1) || (end_ <=? start) then
    ("", Some (errors_New "no json found in llm output"))
  else
    let jsonStr := slice raw start (end_ + 1) in
    match json_Unmarshal_object jsonStr with
    | Some _ => ("", Some (errors_New "invalid json structure"))
    | None => (jsonStr, None)
    end.

Definition PromptBuilder_BuildFiveWhyPrompt (level : Z) (question : string) :=
  render FiveWhyTemplate
    (<["Level" := TInt level]> (<["Question" := TString question]> ∅)).

Definition PromptBuilder_BuildEvaluationPrompt (question answer : string) :=
  render EvaluationTemplate
    (<["Question" := TString question]> (<["Answer" := TString answer]> ∅)).

Definition PromptBuilder_BuildNextWhyPrompt (answer : string) :=
  render NextWhyTemplate (<["Answer" := TString answer]> ∅).

Definition PromptBuilder_BuildRootCausePrompt (steps : list FiveWhyStep) :=
  let chain :=
    fold_left
      (fun acc s =>
         acc +:+ "WHY " +:+ itoa (Level s) +:+ ":" +:+ nl
             +:+ "Q: " +:+ Question s +:+ nl
             +:+ "A: " +:+ Answer s +:+ nl
             +:+ "ANALYSIS: " +:+ Analysis s +:+ nl +:+ nl)
      steps "" in
  render RootCauseTemplate (<["Chain" := TString chain]> ∅).

Definition PromptBuilder_BuildSolutionPrompt
    (rc : RootCauseResult) (steps : list FiveWhyStep) :=
  let ev :=
    fold_left (fun acc s => acc +:+ "- " +:+ Analysis s +:+ nl) steps "" in
  render SolutionTemplate
    (<["RootCause" := TString (RootCause rc)]>
       (<["Evidence" := TString ev]> ∅)).

Definition PromptBuilder_BuildReframePrompt
    (original : string) (rc : RootCauseResult) :=
  render ReframeTemplate
    (<["Original" := TString original]>
       (<["RootCause" := TString (RootCause rc)]> ∅)).

Definition PromptBuilder_ParseRootCause (raw : string) (out : RootCauseResult)
  : RootCauseResult * option error :=
  match extractJSON raw with
  | (_, Some err) => (out, Some err)
  | (jsonStr, None) => json_Unmarshal_RootCauseResult jsonStr out
  end.

Definition PromptBuilder_ParseSolution (raw : string) (out : SolutionResult)
  : SolutionResult * option error :=
  match extractJSON raw with
  | (_, Some err) => (out, Some err)
  | (jsonStr, None) => json_Unmarshal_SolutionResult jsonStr out
  end.

Definition PromptBuilder_ParseReframe (raw : string) (out : ReframedQuestion)
  : ReframedQuestion * option error :=
  match extractJSON raw with
  | (_, Some err) => (out, Some err)
  | (jsonStr, None) => json_Unmarshal_ReframedQuestion jsonStr out
  end.

(** [NewBuilder] *)
Definition NewBuilder : Builder :=
  mkBuilder
    PromptBuilder_BuildFiveWhyPrompt PromptBuilder_BuildEvaluationPrompt
    PromptBuilder_BuildNextWhyPrompt PromptBuilder_BuildRootCausePrompt
    PromptBuilder_BuildSolutionPrompt PromptBuilder_BuildReframePrompt
    PromptBuilder_ParseRootCause PromptBuilder_ParseSolution
    PromptBuilder_ParseReframe.

End Prompt.

(** ** The world outside the process

    Calls that leave the process (a provider, the SQL database, the
    key/value store) and reads of the wall clock transform an abstract
    [World]. *)
Class Runtime := {
  World : Type;
  (** [time.Now()], in nanoseconds *)
  time_Now : World -> Z * World;
  (** [t.Format("20060102150405.000000000")] *)
  time_Format : Z -> string
}.

Section Effects.
Context {RT : Runtime}.

Definition M (A : Type) : Type := World -> A * World.

Definition ret {A} (a : A) : M A := fun w => (a, w).

Definition bind {A B} (c : M A) (k : A -> M B) : M B :=
  fun w => let (a, w') := c w in k a w'.

End Effects.

Notation "'let*' x ':=' c 'in' k" := (bind c (fun x => k))
  (at level 10, x pattern, c at level 100, k at level 200).

(** ** Package llm: engine (engine.go) *)

Section Engine.
Context {F32 : Float32} {RT : Runtime}.

Record Request := mkRequest {
  Request_Mode : Mode;
  Request_Prompt : string;
  Request_Temperature : float32;
  Request_MaxTokens : Z;
  Request_Metadata : gmap string string
}.

Record Response := mkResponse {
  Response_Text : string;
  Response_Tokens : Z;
  Response_Latency : Z;
  Response_Provider : string;
  Response_Model : string;
  Response_Confidence : Q
}.

(** [Response{}] *)
Definition Response_zero : Response := mkResponse "" 0 0 "" "" 0%Q.

Record ProviderRequest := mkProviderRequest {
  ProviderRequest_Prompt : string;
  ProviderRequest_Temperature : float32;
  ProviderRequest_MaxTokens : Z;
  ProviderRequest_Model : string
}.

Record ProviderResponse := mkProviderResponse {
  ProviderResponse_Text : string;
  ProviderResponse_Tokens : Z;
  ProviderResponse_Model : string;
  ProviderResponse_Metadata : gmap string string
}.

(** The [Provider] interface. *)
Record Provider := mkProvider {
  Provider_Name : string;
  Provider_Generate : ProviderRequest -> M (ProviderResponse * option error)
}.

Record Engine := mkEngine {
  Engine_providers : gmap string Provider;
  Engine_modelMap : gmap string string
}.

Definition NewEngine : Engine :=
  mkEngine ∅
    (<[ModeReasoning := "reasoning-model"]>
    (<[ModeAnalysis := "analysis-model"]>
    (<[ModeDiagnosis := "diagnosis-model"]>
    (<[ModePlanning := "planning-model"]>
    (<[ModeDefault := "default-model"]> ∅))))).

Definition RegisterProvider (e : Engine) (p : Provider) : Engine :=
  mkEngine (<[Provider_Name p := p]> (Engine_providers e)) (Engine_modelMap e).

(** [m[k]] on a [map[_]string]: the zero value when absent. *)
Definition map_index (m : gmap string string) (k : string) : string :=
  default "" (m !! k).

Definition Engine_Generate (e : Engine) (req : Request)
  : M (Response * option error) :=
  let* start := time_Now in
  if String.eqb (Request_Prompt req) "" then
    ret (Response_zero, Some (errors_New "empty prompt"))
  else
    let mode :=
      if String.eqb (Request_Mode req) "" then ModeDefault
      else Request_Mode req in
    let '(providerName, err) := SelectProvider mode in
    match err with
    | Some err => ret (Response_zero, Some err)
    | None =>
        match Engine_providers e !! providerName with
        | None =>
            ret (Response_zero,
                 Some (errors_New
                         ("llm provider not registered: " +:+ providerName)))
        | Some provider =>
            let model := map_index (Engine_modelMap e) mode in
            let model :=
              if String.eqb model "" then
                map_index (Engine_modelMap e) ModeDefault
              else model in
            let maxTokens :=
              if Request_MaxTokens req =? 0 then 1024
              else Request_MaxTokens req in
            let pReq :=
              mkProviderRequest (Request_Prompt req) (Request_Temperature req)
                maxTokens model in
            let* (pResp, err) := Provider_Generate provider pReq in
            match err with
            | Some err => ret (Response_zero, Some err)
            | None =>
                let* now := time_Now in
                let latency := now - start in
                ret (mkResponse (ProviderResponse_Text pResp)
                       (ProviderResponse_Tokens pResp) latency
                       (Provider_Name provider)
                       (ProviderResponse_Model pResp)
                       (EstimateConfidence mode (ProviderResponse_Text pResp)),
                     None)
            end
        end
    end.

End Engine.

(** ** Package strings, as far as package vector uses it *)

Definition in_cutset (cutset : string) (c : ascii) : bool :=
  existsb (Ascii.eqb c) (list_ascii_of_string cutset).

Fixpoint trim_left_cutset (cutset s : string) : string :=
  match s with
  | String c s' => if in_cutset cutset c then trim_left_cutset cutset s' else s
  | "" => ""
  end.

(** [strings.Trim(s, cutset)] for a cutset of ASCII bytes. *)
Definition strings_Trim (s cutset : string) : string :=
  rev_string (trim_left_cutset cutset (rev_string (trim_left_cutset cutset s))).

(** [strings.Split(s, sep)] for a separator [sep] of one byte. *)
Fixpoint strings_Split (s : string) (sep : ascii) : list string :=
  match s with
  | "" => [""]
  | String c s' =>
      if Ascii.eqb c sep then "" :: strings_Split s' sep
      else match strings_Split s' sep with
           | x :: r => String c x :: r
           | [] => [String c ""]
           end
  end.

(** [strings.SplitN(s, sep, 2)] for a separator of one byte. *)
Fixpoint strings_SplitN2 (s : string) (sep : ascii) : list string :=
  match s with
  | "" => [""]
  | String c s' =>
      if Ascii.eqb c sep then [""; s']
      else match strings_SplitN2 s' sep with
           | x :: r => String c x :: r
           | [] => [String c ""]
           end
  end.

(** [strings.Join] *)
Fixpoint strings_Join (elems : list string) (sep : string) : string :=
  match elems with
  | [] => ""
  | [x] => x
  | x :: r => x +:+ sep +:+ strings_Join r sep
  end.

(** ** Package vector (pgvector.go) *)

Section Vector.
Context {F32 : Float32} {RT : Runtime}.

Record Document := mkDocument {
  Document_ID : string;
  Document_Content : string;
  Document_Vector : list float32;
  Document_Meta : gmap string string
}.

(** The [Store] interface. *)
Record Store := mkStore {
  Store_Init : M (option error);
  Store_Store : Document -> M (option error);
  Store_Search : list float32 -> Z -> M (list Document * option error);
  Store_Delete : string -> M (option error)
}.

(** One row of a result set as [rows.Scan(&id, &content, &metaJSON)]
    reads it: the three columns and the error of the scan. *)
Definition Row : Type := (string * string * string) * option error.

(** [*sql.DB], as far as the store uses it. *)
Record DB := mkDB {
  (** [db.ExecContext(ctx, query, args...)]: the error *)
  DB_ExecContext : string -> list string -> M (option error);
  (** [db.QueryContext(ctx, query)]: the rows that [rows.Next] walks *)
  DB_QueryContext : string -> M (list Row * option error)
}.

Record PgVectorStore := mkPgVectorStore {
  PgVectorStore_db : DB;
  PgVectorStore_dimension : Z;
  PgVectorStore_table : string
}.

Definition NewPgVectorStore (db : DB) (dimension : Z) : PgVectorStore :=
  mkPgVectorStore db dimension "vector_memory".

Definition vectorToSQL (vec : list float32) : string :=
  "ARRAY[" +:+ strings_Join (map fmt_f vec) "," +:+ "]".

(** Go ranges over the map in an unspecified order; the model takes the
    order of [map_to_list]. *)
Definition mapToJSON (m : gmap string string) : string :=
  "{" +:+ strings_Join
            (map (fun kv : string * string =>
                    quote +:+ kv.1 +:+ quote +:+ ":" +:+ quote +:+ kv.2
                    +:+ quote)
                 (map_to_list m)) ","
      +:+ "}".

Definition jsonToMap (b : string) : gmap string string :=
  if len b =? 0 then ∅
  else
    let s := strings_Trim b "{}" in
    if String.eqb s "" then ∅
    else
      fold_left
        (fun res p =>
           match strings_SplitN2 p ":" with
           | [k; v] => <[strings_Trim k quote := strings_Trim v quote]> res
           | _ => res
           end)
        (strings_Split s ",") ∅.

Fixpoint exec_all (db : DB) (queries : list string) : M (option error) :=
  match queries with
  | [] => ret None
  | q :: rest =>
      let* err := DB_ExecContext db q [] in
      match err with
      | Some err => ret (Some err)
      | None => exec_all db rest
      end
  end.

Definition PgVectorStore_Init (p : PgVectorStore) : M (option error) :=
  let table := PgVectorStore_table p in
  exec_all (PgVectorStore_db p)
    [ "CREATE EXTENSION IF NOT EXISTS vector;";
      "CREATE TABLE IF NOT EXISTS " +:+ table +:+ " (" +:+ nl
        +:+ tab +:+ tab +:+ tab +:+ "id TEXT PRIMARY KEY," +:+ nl
        +:+ tab +:+ tab +:+ tab +:+ "content TEXT," +:+ nl
        +:+ tab +:+ tab +:+ tab +:+ "embedding VECTOR("
        +:+ itoa (PgVectorStore_dimension p) +:+ ")," +:+ nl
        +:+ tab +:+ tab +:+ tab +:+ "metadata JSONB," +:+ nl
        +:+ tab +:+ tab +:+ tab +:+ "created_at TIMESTAMPTZ DEFAULT NOW()" +:+ nl
        +:+ tab +:+ tab +:+ ");";
      "CREATE INDEX IF NOT EXISTS " +:+ table +:+ "_embedding_idx" +:+ nl
        +:+ tab +:+ tab +:+ tab +:+ "ON " +:+ table
        +:+ " USING ivfflat (embedding vector_l2_ops)" +:+ nl
        +:+ tab +:+ tab +:+ tab +:+ "WITH (lists = 100);" ].

(** The statement text of [Store]. *)
Definition upsertQuery (table vecStr : string) : string :=
  "INSERT INTO " +:+ table +:+ " (id, content, embedding, metadata)" +:+ nl
  +:+ tab +:+ tab +:+ "VALUES ($1, $2, " +:+ vecStr +:+ ", $3)" +:+ nl
  +:+ tab +:+ tab +:+ "ON CONFLICT (id)" +:+ nl
  +:+ tab +:+ tab +:+ "DO UPDATE SET" +:+ nl
  +:+ tab +:+ tab +:+ tab +:+ "content = EXCLUDED.content," +:+ nl
  +:+ tab +:+ tab +:+ tab +:+ "embedding = EXCLUDED.embedding," +:+ nl
  +:+ tab +:+ tab +:+ tab +:+ "metadata = EXCLUDED.metadata;".

Definition PgVectorStore_Store (p : PgVectorStore) (doc : Document)
  : M (option error) :=
  if String.eqb (Document_ID doc) "" then
    ret (Some (errors_New "missing document id"))
  else if Z.of_nat (length (Document_Vector doc)) =? 0 then
    ret (Some (errors_New "missing embedding vector"))
  else
    let vecStr := vectorToSQL (Document_Vector doc) in
    let query := upsertQuery (PgVectorStore_table p) vecStr in
    let metaJSON := mapToJSON (Document_Meta doc) in
    DB_ExecContext (PgVectorStore_db p) query
      [Document_ID doc; Document_Content doc; metaJSON].

(** The statement text of [Search]. *)
Definition searchQuery (table vecStr : string) (limit : Z) : string :=
  "SELECT id, content, metadata" +:+ nl
  +:+ tab +:+ tab +:+ "FROM " +:+ table +:+ nl
  +:+ tab +:+ tab +:+ "ORDER BY embedding <-> " +:+ vecStr +:+ nl
  +:+ tab +:+ tab +:+ "LIMIT " +:+ itoa limit +:+ ";".

(** The loop [for rows.Next() { ... }] of [Search]. *)
Fixpoint scan_rows (rows : list Row) (results : list Document)
  : list Document * option error :=
  match rows with
  | [] => (results, None)
  | ((id, content, metaJSON), err) :: rest =>
      match err with
      | Some err => ([], Some err)
      | None =>
          scan_rows rest
            (results ++ [mkDocument id content [] (jsonToMap metaJSON)])
      end
  end.

Definition PgVectorStore_Search (p : PgVectorStore)
    (vector : list float32) (limit : Z) : M (list Document * option error) :=
  if Z.of_nat (length vector) =? 0 then
    ret ([], Some (errors_New "empty query vector"))
  else
    let limit := if limit <=? 0 then 5 else limit in
    let vecStr := vectorToSQL vector in
    let query := searchQuery (PgVectorStore_table p) vecStr limit in
    let* (rows, err) := DB_QueryContext (PgVectorStore_db p) query in
    match err with
    | Some err => ret ([], Some err)
    | None => ret (scan_rows rows [])
    end.

Definition PgVectorStore_Delete (p : PgVectorStore) (id : string)
  : M (option error) :=
  DB_ExecContext (PgVectorStore_db p)
    ("DELETE FROM " +:+ PgVectorStore_table p +:+ " WHERE id = $1;") [id].

(** [*PgVectorStore] as a [Store]. *)
Definition PgVectorStore_as_Store (p : PgVectorStore) : Store :=
  mkStore (PgVectorStore_Init p) (PgVectorStore_Store p)
    (PgVectorStore_Search p) (PgVectorStore_Delete p).

End Vector.

(** ** Package db: the key/value client (redis.go) *)

Section Redis.
Context {RT : Runtime}.

(** [*db.RedisClient]; durations are nanoseconds. *)
Record RedisClient := mkRedisClient {
  RedisClient_Set : string -> string -> Z -> M (option error);
  RedisClient_Get : string -> M (string * option error)
}.

End Redis.

Definition time_Minute : Z := 60 * 1000000000.
Definition time_Hour : Z := 60 * time_Minute.

(** ** Package llm: manager *)

Section Manager.
Context {F32 : Float32} {RT : Runtime}.

Record Manager := mkManager {
  Manager_engine : Engine;
  Manager_vector : option Store;
  Manager_redis : option RedisClient;
  Manager_model : string;
  Manager_embed : string;
  Manager_provider : string
}.

Definition generateID : M string :=
  let* t := time_Now in ret (time_Format t).

Definition storeMemory (m : Manager) (req : Request) (resp : Response)
  : M (option error) :=
  let* _ :=
    match Manager_redis m with
    | Some redis =>
        let* _ := RedisClient_Set redis "llm:last_response"
                    (Response_Text resp) (30 * time_Minute) in
        ret tt
    | None => ret tt
    end in
  let* _ :=
    match Manager_vector m with
    | Some vector =>
        let* id := generateID in
        let doc :=
          mkDocument id (Response_Text resp) []
            (<["mode" := Request_Mode req]>
            (<["provider" := Response_Provider resp]>
            (<["model" := Response_Model resp]> ∅))) in
        let* _ := Store_Store vector doc in
        ret tt
    | None => ret tt
    end in
  ret None.

Definition Manager_Generate (m : Manager) (req : Request)
  : M (Response * option error) :=
  let* (resp, err) := Engine_Generate (Manager_engine m) req in
  match err with
  | Some err => ret (Response_zero, Some err)
  | None =>
      let* _ := storeMemory m req resp in
      ret (resp, None)
  end.

(** [Manager.Embed]: a stub embedding of dimension 384. *)
Definition Manager_Embed (m : Manager) (text : string)
  : list float32 * option error :=
  if String.eqb text "" then ([], Some (errors_New "empty text"))
  else
    (map (fun i => float32_div (float32_of_int (len text))
                     (float32_of_int (i + 1)))
         (seqZ 0 384),
     None).

(** The provider stubs; all three answer under the name [primary]. *)
Definition stubProvider (banner : string) : Provider :=
  mkProvider "primary"
    (fun req =>
       ret (mkProviderResponse
              (banner +:+ nl +:+ ProviderRequest_Prompt req) 128
              (ProviderRequest_Model req) ∅,
            None)).

Definition NewOllamaProvider (model : string) : Provider :=
  stubProvider "[OLLAMA RESPONSE PLACEHOLDER]".

Definition NewLocalProvider : Provider :=
  stubProvider "[LOCAL MODEL RESPONSE PLACEHOLDER]".

End Manager.

(** ** Package chat: memory engine *)

Section Memory.
Context {F32 : Float32} {JS : Json} {RT : Runtime}.

Record RetrievedMemory := mkRetrievedMemory {
  RetrievedMemory_Documents : list Document;
  RetrievedMemory_Context : string
}.

Record MemoryEngine := mkMemoryEngine {
  MemoryEngine_redis : RedisClient;
  MemoryEngine_vector : Store;
  MemoryEngine_llm : Manager
}.

Definition AppendSession (m : MemoryEngine) (sessionID role content : string)
  : M (option error) :=
  if String.eqb sessionID "" then ret (Some (errors_New "missing session id"))
  else
    let key := "session:" +:+ sessionID in
    let* now := time_Now in
    let msg := mkMemoryMessage role content now in
    let session := SessionMemory_zero in
    let* (data, _) := RedisClient_Get (MemoryEngine_redis m) key in
    let session :=
      if negb (String.eqb data "") then
        fst (json_Unmarshal_SessionMemory data session)
      else session in
    let* updatedAt := time_Now in
    let session :=
      mkSessionMemory sessionID (SessionMemory_Messages session ++ [msg])
        updatedAt in
    let b := json_Marshal_SessionMemory session in
    let* _ := RedisClient_Set (MemoryEngine_redis m) key b (24 * time_Hour) in
    ret None.

Definition GetSession (m : MemoryEngine) (sessionID : string)
  : M (option SessionMemory * option error) :=
  let key := "session:" +:+ sessionID in
  let* (data, err) := RedisClient_Get (MemoryEngine_redis m) key in
  if bool_decide (err ≠ None) || String.eqb data "" then
    ret (None, Some (errors_New "session not found"))
  else
    match json_Unmarshal_SessionMemory data SessionMemory_zero with
    | (_, Some err) => ret (None, Some err)
    | (session, None) => ret (Some session, None)
    end.

Definition Recall (m : MemoryEngine) (query : string) (limit : Z)
  : M (option RetrievedMemory * option error) :=
  if String.eqb query "" then ret (None, Some (errors_New "empty query"))
  else
    match Manager_Embed (MemoryEngine_llm m) query with
    | (_, Some err) => ret (None, Some err)
    | (emb, None) =>
        let* (docs, err) := Store_Search (MemoryEngine_vector m) emb limit in
        match err with
        | Some err => ret (None, Some err)
        | None =>
            let ctxStr :=
              fold_left (fun acc d => acc +:+ Document_Content d +:+ nl)
                docs "" in
            ret (Some (mkRetrievedMemory docs ctxStr), None)
        end
    end.

(** The section header of the recalled context. *)
Definition semanticHeader : string :=
  nl +:+ "--- Semantic Memory ---" +:+ nl.

(** The transcript lines [role: content] of a session. *)
Definition transcript (msgs : list MemoryMessage) (contextStr : string)
  : string :=
  fold_left (fun acc msg => acc +:+ Role msg +:+ ": " +:+ Content msg +:+ nl)
    msgs contextStr.

Definition HybridContext (m : MemoryEngine) (sessionID query : string)
    (limit : Z) : M (string * option error) :=
  let contextStr := "" in
  let* (session, _) := GetSession m sessionID in
  let contextStr :=
    match session with
    | Some session => transcript (SessionMemory_Messages session) contextStr
    | None => contextStr
    end in
  let* (recall, err) := Recall m query limit in
  let contextStr :=
    match err, recall with
    | None, Some recall =>
        contextStr +:+ semanticHeader +:+ RetrievedMemory_Context recall
    | _, _ => contextStr
    end in
  ret (contextStr, None).

End Memory.

(** ** Package chat: orchestrator (orchestrator.go) *)

Section Orchestrator.
Context {F32 : Float32} {RT : Runtime}.

Record FiveWhySession := mkFiveWhySession {
  FiveWhySession_SessionID : string;
  FiveWhySession_Steps : list FiveWhyStep;
  FiveWhySession_RootCause : RootCauseResult;
  FiveWhySession_Solution : SolutionResult;
  FiveWhySession_Reframed : ReframedQuestion;
  FiveWhySession_CreatedAt : Z
}.

Record Orchestrator := mkOrchestrator {
  Orchestrator_llm : Manager;
  Orchestrator_vector : Store;
  Orchestrator_prompt : Builder
}.

Definition NewOrchestrator (llmMgr : Manager) (vstore : Store) (pb : Builder)
  : Orchestrator := mkOrchestrator llmMgr vstore pb.

(** [llm.Request{Mode: mode, Prompt: prompt}] *)
Definition request (mode : Mode) (prompt : string) : Request :=
  mkRequest mode prompt float32_zero 0 ∅.

(** The Go idiom [v, err := call; if err != nil { return nil, err }] of a
    function whose results are a pointer and an error. *)
Notation "'try*' x ':=' c 'in' k" :=
  (bind c (fun '(x, err) =>
             match err with
             | Some err => ret (None, Some err)
             | None => k
             end))
  (at level 10, x pattern, c at level 100, k at level 200).

(** The loop [for i := 1; i <= 5; i++] of [RunFiveWhy], entered at [i]
    with [n] iterations to go. A failed generation leaves the function with
    its error ([inl]); otherwise the loop ends with the steps collected and
    the question reached ([inr]). *)
Fixpoint whyLoop (o : Orchestrator) (n : nat) (i : Z)
    (steps : list FiveWhyStep) (currentQuestion : string)
  : M (error + list FiveWhyStep * string) :=
  match n with
  | O => ret (inr (steps, currentQuestion))
  | S n' =>
      let llm := Orchestrator_llm o in
      let prompt := Orchestrator_prompt o in
      let whyPrompt := BuildFiveWhyPrompt prompt i currentQuestion in
      let* (resp, err) :=
        Manager_Generate llm (request ModeReasoning whyPrompt) in
      match err with
      | Some err => ret (inl err)
      | None =>
          let analysisPrompt :=
            BuildEvaluationPrompt prompt currentQuestion (Response_Text resp) in
          let* (analysisResp, err) :=
            Manager_Generate llm (request ModeAnalysis analysisPrompt) in
          match err with
          | Some err => ret (inl err)
          | None =>
              let step :=
                mkFiveWhyStep i currentQuestion (Response_Text resp)
                  (Response_Text analysisResp) in
              let steps := (steps ++ [step])%list in
              let nextWhyPrompt :=
                BuildNextWhyPrompt prompt (Response_Text resp) in
              let* (nextResp, err) :=
                Manager_Generate llm (request ModeReasoning nextWhyPrompt) in
              match err with
              | Some err => ret (inl err)
              | None => whyLoop o n' (i + 1) steps (Response_Text nextResp)
              end
          end
      end
  end.

Definition RunFiveWhy (o : Orchestrator) (sessionID userQuestion : string)
  : M (option FiveWhySession * option error) :=
  let llm := Orchestrator_llm o in
  let prompt := Orchestrator_prompt o in
  let vector := Orchestrator_vector o in
  if String.eqb userQuestion "" then
    ret (None, Some (errors_New "empty question"))
  else
    let* createdAt := time_Now in
    let* looped := whyLoop o 5 1 [] userQuestion in
    match looped with
    | inl err => ret (None, Some err)
    | inr (steps, _) =>
        (* root cause extraction *)
        let rcaPrompt := BuildRootCausePrompt prompt steps in
        try* rcaResp :=
          Manager_Generate llm (request ModeDiagnosis rcaPrompt) in
        try* rootCause :=
          ret (ParseRootCause prompt (Response_Text rcaResp)
                 RootCauseResult_zero) in
        (* solution synthesis *)
        let solutionPrompt := BuildSolutionPrompt prompt rootCause steps in
        try* solResp :=
          Manager_Generate llm (request ModePlanning solutionPrompt) in
        try* solution :=
          ret (ParseSolution prompt (Response_Text solResp)
                 SolutionResult_zero) in
        (* question reframing *)
        let reframePrompt :=
          BuildReframePrompt prompt userQuestion rootCause in
        try* reframeResp :=
          Manager_Generate llm (request ModeReasoning reframePrompt) in
        try* reframed :=
          ret (ParseReframe prompt (Response_Text reframeResp)
                 ReframedQuestion_zero) in
        (* memory storage (vector db) *)
        let* _ :=
          Store_Store vector
            (mkDocument sessionID userQuestion []
               (<["type" := "question"]> ∅)) in
        let* _ :=
          Store_Store vector
            (mkDocument (sessionID +:+ "_rca") (RootCause rootCause) []
               (<["type" := "root_cause"]> ∅)) in
        let* _ :=
          Store_Store vector
            (mkDocument (sessionID +:+ "_solution") (Response_Text solResp) []
               (<["type" := "solution"]> ∅)) in
        ret (Some (mkFiveWhySession sessionID steps rootCause solution
                     reframed createdAt),
             None)
    end.

End Orchestrator.

(** ** Package llm: construction of the manager *)

Section ManagerConstruction.
Context {F32 : Float32} {RT : Runtime}.

(** [ManagerConfig]; its field [Postgres], of type [any], is never read
    and is left out. *)
Record ManagerConfig := mkManagerConfig {
  ManagerConfig_Provider : string;
  ManagerConfig_APIKey : string;
  ManagerConfig_Model : string;
  ManagerConfig_Embedding : string;
  ManagerConfig_Vector : option Store;
  ManagerConfig_Redis : option RedisClient;
  ManagerConfig_FiveWhy : bool;
  ManagerConfig_RootCause : bool
}.

Definition NewOpenAIProvider (key : string) : option Provider * option error :=
  if String.eqb key "" then (None, Some (errors_New "missing openai api key"))
  else (Some (stubProvider "[OPENAI RESPONSE PLACEHOLDER]"), None).

Definition NewManager (cfg : ManagerConfig) : option Manager * option error :=
  let eng := NewEngine in
  let m := fun eng : Engine =>
    mkManager eng (ManagerConfig_Vector cfg) (ManagerConfig_Redis cfg)
      (ManagerConfig_Model cfg) (ManagerConfig_Embedding cfg)
      (ManagerConfig_Provider cfg) in
  if String.eqb (ManagerConfig_Provider cfg) "openai" then
    match NewOpenAIProvider (ManagerConfig_APIKey cfg) with
    | (_, Some err) => (None, Some err)
    | (None, None) => (None, None)
    | (Some p, None) => (Some (m (RegisterProvider eng p)), None)
    end
  else if String.eqb (ManagerConfig_Provider cfg) "ollama" then
    (Some (m (RegisterProvider eng
                (NewOllamaProvider (ManagerConfig_Model cfg)))), None)
  else if String.eqb (ManagerConfig_Provider cfg) "local" then
    (Some (m (RegisterProvider eng NewLocalProvider)), None)
  else (None, Some (errors_New "unsupported llm provider")).

End ManagerConstruction.

(** ** Package chat: the partial entry points of the orchestrator *)

Section OrchestratorPartial.
Context {F32 : Float32} {RT : Runtime}.

Definition ExtractRootCause (o : Orchestrator) (steps : list FiveWhyStep)
  : M (option RootCauseResult * option error) :=
  let rcaPrompt := BuildRootCausePrompt (Orchestrator_prompt o) steps in
  let* (rcaResp, err) :=
    Manager_Generate (Orchestrator_llm o) (request ModeDiagnosis rcaPrompt) in
  match err with
  | Some err => ret (None, Some err)
  | None =>
      match ParseRootCause (Orchestrator_prompt o) (Response_Text rcaResp)
              RootCauseResult_zero with
      | (_, Some err) => ret (None, Some err)
      | (rootCause, None) => ret (Some rootCause, None)
      end
  end.

Definition ReframeQuestion (o : Orchestrator) (question : string)
    (rc : RootCauseResult) : M (option ReframedQuestion * option error) :=
  let reframePrompt := BuildReframePrompt (Orchestrator_prompt o) question rc in
  let* (reframeResp, err) :=
    Manager_Generate (Orchestrator_llm o) (request ModeReasoning reframePrompt) in
  match err with
  | Some err => ret (None, Some err)
  | None =>
      match ParseReframe (Orchestrator_prompt o) (Response_Text reframeResp)
              ReframedQuestion_zero with
      | (_, Some err) => ret (None, Some err)
      | (reframed, None) => ret (Some reframed, None)
      end
  end.

End OrchestratorPartial.

(** ** Package encoding/json: the encoders the memory engine and the
    repository use *)

(** [string(b)] for [b, _ := json.Marshal(v)], per type of [v]. *)
Class JsonMarshal := {
  json_Marshal_Messages : list MemoryMessage -> string;
  json_Marshal_Steps : list FiveWhyStep -> string;
  json_Marshal_RootCauseResult : RootCauseResult -> string;
  json_Marshal_SolutionResult : SolutionResult -> string;
  json_Marshal_ReframedQuestion : ReframedQuestion -> string
}.

(** ** Package chat: memory engine, compression and long-term store *)

Section MemoryLongTerm.
Context {F32 : Float32} {JS : Json} {JM : JsonMarshal} {RT : Runtime}.

Definition generateMemoryID : M string :=
  let* t := time_Now in ret (time_Format t).

Definition CompressSession (m : MemoryEngine) (sessionID : string)
  : M (string * option error) :=
  let* looked := GetSession m sessionID in
  match looked with
  | (_, Some err) => ret ("", Some err)
  | (None, None) =>
      (* not reached: [GetSession] returns a session or an error *)
      ret ("", None)
  | (Some session, None) =>
      let b := json_Marshal_Messages (SessionMemory_Messages session) in
      let summaryPrompt :=
        "Summarize the following conversation into long-term semantic memory:"
        +:+ nl +:+ b in
      let* (resp, err) :=
        Manager_Generate (MemoryEngine_llm m)
          (request ModeAnalysis summaryPrompt) in
      match err with
      | Some err => ret ("", Some err)
      | None =>
          let emb :=
            fst (Manager_Embed (MemoryEngine_llm m) (Response_Text resp)) in
          let* _ :=
            Store_Store (MemoryEngine_vector m)
              (mkDocument (sessionID +:+ "_summary") (Response_Text resp) emb
                 (<["type" := "session_summary"]>
                 (<["sessionID" := sessionID]> ∅))) in
          ret (Response_Text resp, None)
      end
  end.

Definition StoreLongTerm (m : MemoryEngine) (content : string)
    (meta : gmap string string) : M (option error) :=
  match Manager_Embed (MemoryEngine_llm m) content with
  | (_, Some err) => ret (Some err)
  | (emb, None) =>
      let* id := generateMemoryID in
      Store_Store (MemoryEngine_vector m) (mkDocument id content emb meta)
  end.

End MemoryLongTerm.

(** ** Package chat: repository *)

Section Repository.
Context {F32 : Float32} {JM : JsonMarshal} {RT : Runtime}.

Record ChatRecord := mkChatRecord {
  ChatRecord_ID : string;
  ChatRecord_SessionID : string;
  ChatRecord_UserID : string;
  ChatRecord_UserMsg : string;
  ChatRecord_AIMsg : string;
  ChatRecord_CreatedAt : Z
}.

(** The [Repository] interface; a session pointer may be nil. *)
Record Repository := mkRepository {
  Repository_SaveMessage : string -> string -> string -> string -> M (option error);
  Repository_SaveFiveWhySession :
    string -> option FiveWhySession -> M (option error);
  Repository_GetSessionHistory :
    string -> Z -> M (list ChatRecord * option error)
}.

(** An argument of a statement. *)
Inductive SqlValue :=
| SqlString (s : string)
| SqlInt (n : Z)
| SqlBytes (b : string).

(** [*sql.DB], as far as the repository uses it: the error of a
    statement, and for a query the records [rows.Scan] reads, each with
    the error of its scan. *)
Record SqlDB := mkSqlDB {
  SqlDB_ExecContext : string -> list SqlValue -> M (option error);
  SqlDB_QueryContext :
    string -> list SqlValue -> M (list (ChatRecord * option error) * option error)
}.

Record PostgresRepository := mkPostgresRepository {
  PostgresRepository_db : SqlDB
}.

Definition generateRepoID : M string :=
  let* t := time_Now in ret (time_Format t).

Definition saveMessageQuery : string :=
  "INSERT INTO chat_messages (id, session_id, user_id, user_msg, ai_msg)" +:+ nl
  +:+ tab +:+ tab +:+ "VALUES ($1,$2,$3,$4,$5);".

Definition PostgresRepository_SaveMessage (r : PostgresRepository)
    (sessionID userID userMsg aiMsg : string) : M (option error) :=
  if String.eqb sessionID "" then ret (Some (errors_New "missing session id"))
  else
    let* id := generateRepoID in
    SqlDB_ExecContext (PostgresRepository_db r) saveMessageQuery
      [SqlString id; SqlString sessionID; SqlString userID; SqlString userMsg;
       SqlString aiMsg].

Definition saveFiveWhySessionQuery : string :=
  "INSERT INTO fivewhy_sessions" +:+ nl
  +:+ tab +:+ tab
  +:+ "(id, user_id, session_id, steps, root_cause, solution, reframed)" +:+ nl
  +:+ tab +:+ tab +:+ "VALUES ($1,$2,$3,$4,$5,$6,$7);".

Definition PostgresRepository_SaveFiveWhySession (r : PostgresRepository)
    (userID : string) (session : option FiveWhySession) : M (option error) :=
  match session with
  | None => ret (Some (errors_New "nil session"))
  | Some session =>
      let* id := generateRepoID in
      let stepsJSON := json_Marshal_Steps (FiveWhySession_Steps session) in
      let rcJSON :=
        json_Marshal_RootCauseResult (FiveWhySession_RootCause session) in
      let solJSON :=
        json_Marshal_SolutionResult (FiveWhySession_Solution session) in
      let refJSON :=
        json_Marshal_ReframedQuestion (FiveWhySession_Reframed session) in
      SqlDB_ExecContext (PostgresRepository_db r) saveFiveWhySessionQuery
        [SqlString id; SqlString userID;
         SqlString (FiveWhySession_SessionID session);
         SqlBytes stepsJSON; SqlBytes rcJSON; SqlBytes solJSON; SqlBytes refJSON]
  end.

Definition sessionHistoryQuery : string :=
  "SELECT id, session_id, user_id, user_msg, ai_msg, created_at" +:+ nl
  +:+ tab +:+ tab +:+ "FROM chat_messages" +:+ nl
  +:+ tab +:+ tab +:+ "WHERE session_id = $1" +:+ nl
  +:+ tab +:+ tab +:+ "ORDER BY created_at DESC" +:+ nl
  +:+ tab +:+ tab +:+ "LIMIT $2;".

(** The loop [for rows.Next() { ... }] of [GetSessionHistory]. *)
Fixpoint scan_records (rows : list (ChatRecord * option error))
    (records : list ChatRecord) : list ChatRecord * option error :=
  match rows with
  | [] => (records, None)
  | (rec, err) :: rest =>
      match err with
      | Some err => ([], Some err)
      | None => scan_records rest (records ++ [rec])
      end
  end.

Definition PostgresRepository_GetSessionHistory (r : PostgresRepository)
    (sessionID : string) (limit : Z) : M (list ChatRecord * option error) :=
  if String.eqb sessionID "" then
    ret ([], Some (errors_New "missing session id"))
  else
    let limit := if limit <=? 0 then 50 else limit in
    let* (rows, err) :=
      SqlDB_QueryContext (PostgresRepository_db r) sessionHistoryQuery
        [SqlString sessionID; SqlInt limit] in
    match err with
    | Some err => ret ([], Some err)
    | None => ret (scan_records rows [])
    end.

(** [NewRepository]: [*PostgresRepository] as a [Repository]. *)
Definition NewRepository (db : SqlDB) : Repository :=
  let r := mkPostgresRepository db in
  mkRepository (PostgresRepository_SaveMessage r)
    (PostgresRepository_SaveFiveWhySession r)
    (PostgresRepository_GetSessionHistory r).

End Repository.

(** ** Package chat: service *)

Section Service.
Context {F32 : Float32} {JS : Json} {JM : JsonMarshal} {RT : Runtime}.

Record ServiceConfig := mkServiceConfig {
  ServiceConfig_Repo : option Repository;
  ServiceConfig_LLM : Manager;
  ServiceConfig_Vector : option Store;
  ServiceConfig_Memory : option MemoryEngine;
  ServiceConfig_FiveWhy : bool;
  ServiceConfig_Evaluator : bool;
  ServiceConfig_RootCause : bool;
  ServiceConfig_Reframer : bool
}.

(** [Service]. Its orchestrator is a field of its own here: [NewService]
    builds it from the configured manager and store, and the methods
    below never look behind it. *)
Record Service := mkService {
  Service_repo : option Repository;
  Service_llm : Manager;
  Service_vector : option Store;
  Service_memory : option MemoryEngine;
  Service_orchestrator : Orchestrator;
  Service_cfg : ServiceConfig
}.

Definition Service_Chat (s : Service) (sessionID userID message : string)
  : M (option Response * option error) :=
  if String.eqb message "" then ret (None, Some (errors_New "empty message"))
  else
    let* _ :=
      match Service_memory s with
      | Some memory =>
          let* _ := AppendSession memory sessionID "user" message in ret tt
      | None => ret tt
      end in
    let* contextStr :=
      match Service_memory s with
      | Some memory =>
          let* (ctxData, _) := HybridContext memory sessionID message 5 in
          ret ctxData
      | None => ret ""
      end in
    let promptStr :=
      "Context:" +:+ nl +:+ contextStr +:+ nl +:+ "User:" +:+ nl +:+ message in
    let* (resp, err) :=
      Manager_Generate (Service_llm s) (request ModeReasoning promptStr) in
    match err with
    | Some err => ret (None, Some err)
    | None =>
        let* _ :=
          match Service_memory s with
          | Some memory =>
              let* _ :=
                AppendSession memory sessionID "assistant" (Response_Text resp) in
              ret tt
          | None => ret tt
          end in
        let* _ :=
          match Service_repo s with
          | Some repo =>
              let* _ :=
                Repository_SaveMessage repo sessionID userID message
                  (Response_Text resp) in
              ret tt
          | None => ret tt
          end in
        ret (Some resp, None)
    end.

Definition Service_FiveWhy (s : Service) (sessionID userID question : string)
  : M (option FiveWhySession * option error) :=
  if negb (ServiceConfig_FiveWhy (Service_cfg s)) then
    ret (None, Some (errors_New "five-why engine disabled"))
  else
    let* _ :=
      match Service_memory s with
      | Some memory =>
          let* _ := AppendSession memory sessionID "user" question in ret tt
      | None => ret tt
      end in
    let* (session, err) :=
      RunFiveWhy (Service_orchestrator s) sessionID question in
    match err, session with
    | Some err, _ => ret (None, Some err)
    | None, None =>
        (* not reached: [RunFiveWhy] returns a session or an error *)
        ret (None, None)
    | None, Some session =>
        let rootCause := RootCause (FiveWhySession_RootCause session) in
        let* _ :=
          match Service_vector s with
          | Some vector =>
              let* _ :=
                Store_Store vector
                  (mkDocument (sessionID +:+ "_root") rootCause []
                     (<["type" := "root_cause"]> (<["userID" := userID]> ∅))) in
              ret tt
          | None => ret tt
          end in
        let* _ :=
          match Service_memory s with
          | Some memory =>
              let* _ :=
                AppendSession memory sessionID "assistant" rootCause in
              ret tt
          | None => ret tt
          end in
        let* _ :=
          match Service_repo s with
          | Some repo =>
              let* _ :=
                Repository_SaveFiveWhySession repo userID (Some session) in
              ret tt
          | None => ret tt
          end in
        ret (Some session, None)
    end.

Definition Service_RootCause (s : Service) (steps : list FiveWhyStep)
  : M (option RootCauseResult * option error) :=
  if negb (ServiceConfig_RootCause (Service_cfg s)) then
    ret (None, Some (errors_New "root-cause engine disabled"))
  else ExtractRootCause (Service_orchestrator s) steps.

Definition Service_Reframe (s : Service) (question : string)
    (rc : RootCauseResult) : M (option ReframedQuestion * option error) :=
  if negb (ServiceConfig_Reframer (Service_cfg s)) then
    ret (None, Some (errors_New "reframing engine disabled"))
  else ReframeQuestion (Service_orchestrator s) question rc.

Definition Service_CompressSession (s : Service) (sessionID : string)
  : M (string * option error) :=
  match Service_memory s with
  | None => ret ("", Some (errors_New "memory engine not configured"))
  | Some memory => CompressSession memory sessionID
  end.

Definition Service_Recall (s : Service) (query : string) (limit : Z)
  : M (option RetrievedMemory * option error) :=
  match Service_memory s with
  | None => ret (None, Some (errors_New "memory engine not configured"))
  | Some memory => Recall memory query limit
  end.

End Service.

(** ** Package response (response.go) *)

Section Response.
Context {F32 : Float32} {RT : Runtime}.

(** The values the chat handlers hand to [response.Success]; a pointer
    may be nil. *)
Inductive Data :=
| DataChat (reply : string) (confidence : Q) (latency_ms : Z)
| DataSession (session : option FiveWhySession)
| DataRootCause (rc : option RootCauseResult)
| DataReframed (rq : option ReframedQuestion)
| DataSummary (summary : string) (ts : Z)
| DataMemory (mem : option RetrievedMemory).

(** The maps [response.Success] and [response.Error] build. *)
Inductive Body :=
| response_Success (data : Data)
| response_Error (msg : string).

(** A value of a context, of type [interface{}]: a string or not. *)
Inductive Any :=
| AnyString (s : string)
| AnyOther.

(** [http.ResponseWriter], as far as [Context] uses it; [Encode] is
    [json.NewEncoder(w).Encode(data)]. *)
Record ResponseWriter := mkResponseWriter {
  ResponseWriter_SetHeader : string -> string -> M unit;
  ResponseWriter_WriteHeader : Z -> M unit;
  ResponseWriter_Encode : Body -> M (option error)
}.

(** [*http.Request]: the method and the body. *)
Record HttpRequest := mkHttpRequest {
  HttpRequest_Method : string;
  HttpRequest_Body : string
}.

Record Context := mkContext {
  Context_Writer : ResponseWriter;
  Context_Request : HttpRequest;
  Context_values : gmap string Any
}.

Definition NewContext (w : ResponseWriter) (r : HttpRequest) : Context :=
  mkContext w r ∅.

Definition Context_JSON (c : Context) (status : Z) (data : Body)
  : M (option error) :=
  let* _ :=
    ResponseWriter_SetHeader (Context_Writer c) "Content-Type"
      "application/json" in
  let* _ := ResponseWriter_WriteHeader (Context_Writer c) status in
  ResponseWriter_Encode (Context_Writer c) data.

(** [c.Bind(&v)], given the decoder of the type of [v]: the value [v]
    holds afterwards and the error. *)
Definition Context_Bind {A} (decode : string -> A -> A * option error)
    (c : Context) (v : A) : A * option error :=
  decode (HttpRequest_Body (Context_Request c)) v.

Definition Context_Set (c : Context) (key : string) (val : Any) : Context :=
  mkContext (Context_Writer c) (Context_Request c)
    (<[key := val]> (Context_values c)).

Definition Context_GetString (c : Context) (key : string) : string :=
  match Context_values c !! key with
  | Some (AnyString s) => s
  | _ => ""
  end.

End Response.

Definition StatusOK : Z := 200.
Definition StatusBadRequest : Z := 400.
Definition StatusMethodNotAllowed : Z := 405.
Definition StatusInternalServerError : Z := 500.

(** ** Package chat: handler *)

Record ChatRequest := mkChatRequest {
  ChatRequest_SessionID : string;
  ChatRequest_Message : string
}.

Record FiveWhyRequest := mkFiveWhyRequest {
  FiveWhyRequest_SessionID : string;
  FiveWhyRequest_Question : string
}.

Record RootCauseRequest := mkRootCauseRequest {
  RootCauseRequest_Steps : list FiveWhyStep
}.

Record ReframeRequest := mkReframeRequest {
  ReframeRequest_Question : string;
  ReframeRequest_Root : RootCauseResult
}.

Record CompressRequest := mkCompressRequest {
  CompressRequest_SessionID : string
}.

Record RecallRequest := mkRecallRequest {
  RecallRequest_Query : string;
  RecallRequest_Limit : Z
}.

(** [json.NewDecoder(body).Decode(&v)], per type of [v]. *)
Class JsonDecode := {
  json_Decode_ChatRequest : string -> ChatRequest -> ChatRequest * option error;
  json_Decode_FiveWhyRequest :
    string -> FiveWhyRequest -> FiveWhyRequest * option error;
  json_Decode_RootCauseRequest :
    string -> RootCauseRequest -> RootCauseRequest * option error;
  json_Decode_ReframeRequest :
    string -> ReframeRequest -> ReframeRequest * option error;
  json_Decode_CompressRequest :
    string -> CompressRequest -> CompressRequest * option error;
  json_Decode_RecallRequest :
    string -> RecallRequest -> RecallRequest * option error
}.

Section Handler.
Context {F32 : Float32} {JS : Json} {JM : JsonMarshal} {JD : JsonDecode}
        {RT : Runtime}.

Record Handler := mkHandler {
  Handler_service : Service
}.

Definition NewHandler (s : Service) : Handler := mkHandler s.

(** [d.Milliseconds()] of a duration in nanoseconds. *)
Definition Duration_Milliseconds (d : Z) : Z := Z.quot d 1000000.

Definition badRequest (c : Context) : M (option error) :=
  Context_JSON c StatusBadRequest (response_Error "invalid request body").

Definition Handler_Chat (h : Handler) (c : Context) : M (option error) :=
  match Context_Bind json_Decode_ChatRequest c (mkChatRequest "" "") with
  | (_, Some _) => badRequest c
  | (req, None) =>
      let userID := Context_GetString c "user_id" in
      let* (resp, err) :=
        Service_Chat (Handler_service h) (ChatRequest_SessionID req) userID
          (ChatRequest_Message req) in
      match err, resp with
      | Some err, _ =>
          Context_JSON c StatusInternalServerError (response_Error (Error err))
      | None, Some resp =>
          Context_JSON c StatusOK
            (response_Success
               (DataChat (Response_Text resp) (Response_Confidence resp)
                  (Duration_Milliseconds (Response_Latency resp))))
      | None, None =>
          (* not reached: [Service.Chat] returns a response or an error *)
          ret None
      end
  end.

Definition Handler_FiveWhy (h : Handler) (c : Context) : M (option error) :=
  match Context_Bind json_Decode_FiveWhyRequest c (mkFiveWhyRequest "" "") with
  | (_, Some _) => badRequest c
  | (req, None) =>
      let userID := Context_GetString c "user_id" in
      let* (session, err) :=
        Service_FiveWhy (Handler_service h) (FiveWhyRequest_SessionID req)
          userID (FiveWhyRequest_Question req) in
      match err with
      | Some err =>
          Context_JSON c StatusInternalServerError (response_Error (Error err))
      | None => Context_JSON c StatusOK (response_Success (DataSession session))
      end
  end.

Definition Handler_RootCause (h : Handler) (c : Context) : M (option error) :=
  match Context_Bind json_Decode_RootCauseRequest c (mkRootCauseRequest []) with
  | (_, Some _) => badRequest c
  | (req, None) =>
      let* (rc, err) :=
        Service_RootCause (Handler_service h) (RootCauseRequest_Steps req) in
      match err with
      | Some err =>
          Context_JSON c StatusInternalServerError (response_Error (Error err))
      | None => Context_JSON c StatusOK (response_Success (DataRootCause rc))
      end
  end.

Definition Handler_Reframe (h : Handler) (c : Context) : M (option error) :=
  match Context_Bind json_Decode_ReframeRequest c
          (mkReframeRequest "" RootCauseResult_zero) with
  | (_, Some _) => badRequest c
  | (req, None) =>
      let* (ref, err) :=
        Service_Reframe (Handler_service h) (ReframeRequest_Question req)
          (ReframeRequest_Root req) in
      match err with
      | Some err =>
          Context_JSON c StatusInternalServerError (response_Error (Error err))
      | None => Context_JSON c StatusOK (response_Success (DataReframed ref))
      end
  end.

Definition Handler_CompressSession (h : Handler) (c : Context)
  : M (option error) :=
  match Context_Bind json_Decode_CompressRequest c (mkCompressRequest "") with
  | (_, Some _) => badRequest c
  | (req, None) =>
      let* (summary, err) :=
        Service_CompressSession (Handler_service h)
          (CompressRequest_SessionID req) in
      match err with
      | Some err =>
          Context_JSON c StatusInternalServerError (response_Error (Error err))
      | None =>
          let* ts := time_Now in
          Context_JSON c StatusOK (response_Success (DataSummary summary ts))
      end
  end.

Definition Handler_Recall (h : Handler) (c : Context) : M (option error) :=
  match Context_Bind json_Decode_RecallRequest c (mkRecallRequest "" 0) with
  | (_, Some _) => badRequest c
  | (req, None) =>
      let* (mem, err) :=
        Service_Recall (Handler_service h) (RecallRequest_Query req)
          (RecallRequest_Limit req) in
      match err with
      | Some err =>
          Context_JSON c StatusInternalServerError (response_Error (Error err))
      | None => Context_JSON c StatusOK (response_Success (DataMemory mem))
      end
  end.

End Handler.

(** ** Package router

    The multiplexer is kept as the list of the registrations made, in
    order, each with the method and the handler its closure holds; what
    [http.ServeMux] does with a pattern is outside the model. A group
    refers to its router; the operations of a group therefore take the
    router as it is at the call. *)

Section Router.
Context {F32 : Float32} {RT : Runtime}.

Definition HandlerFunc : Type := Context -> M (option error).

Definition Middleware : Type := HandlerFunc -> HandlerFunc.

Record Route := mkRoute {
  Route_path : string;
  Route_method : string;
  Route_handler : HandlerFunc
}.

Record Router := mkRouter {
  Router_mux : list Route;
  Router_middlewares : list Middleware
}.

Definition Router_New : Router := mkRouter [] [].

Definition Router_Use (r : Router) (m : Middleware) : Router :=
  mkRouter (Router_mux r) (Router_middlewares r ++ [m]).

(** The loop [for i := len(ms) - 1; i >= 0; i-- { h = ms[i](h) }],
    entered with [i = n - 1]. *)
Fixpoint wrap_down (ms : list Middleware) (n : nat) (h : HandlerFunc)
  : HandlerFunc :=
  match n with
  | O => h
  | S i =>
      match ms !! i with
      | Some m => wrap_down ms i (m h)
      | None => h
      end
  end.

Definition Router_applyMiddleware (r : Router) (h : HandlerFunc) : HandlerFunc :=
  wrap_down (Router_middlewares r) (length (Router_middlewares r)) h.

(** The closure that [handle] registers. *)
Definition serve (method : string) (h : HandlerFunc) (w : ResponseWriter)
    (req : HttpRequest) : M unit :=
  if negb (String.eqb (HttpRequest_Method req) method) then
    ResponseWriter_WriteHeader w StatusMethodNotAllowed
  else
    let ctx := NewContext w req in
    let* err := h ctx in
    match err with
    | Some err =>
        let* _ :=
          Context_JSON ctx StatusInternalServerError
            (response_Error (Error err)) in
        ret tt
    | None => ret tt
    end.

Definition Router_handle (r : Router) (method path : string) (h : HandlerFunc)
  : Router :=
  let h := Router_applyMiddleware r h in
  mkRouter (Router_mux r ++ [mkRoute path method h]) (Router_middlewares r).

Definition Router_GET (r : Router) := Router_handle r "GET".
Definition Router_POST (r : Router) := Router_handle r "POST".
Definition Router_PUT (r : Router) := Router_handle r "PUT".
Definition Router_DELETE (r : Router) := Router_handle r "DELETE".

Record Group := mkGroup {
  Group_prefix : string;
  Group_middlewares : list Middleware
}.

Definition Router_Group (r : Router) (prefix : string) : Group :=
  mkGroup prefix [].

Definition Group_Use (g : Group) (m : Middleware) : Group :=
  mkGroup (Group_prefix g) (Group_middlewares g ++ [m]).

Definition Group_applyGroupMiddleware (g : Group) (r : Router) (h : HandlerFunc)
  : HandlerFunc :=
  let h := wrap_down (Group_middlewares g) (length (Group_middlewares g)) h in
  wrap_down (Router_middlewares r) (length (Router_middlewares r)) h.

Definition Group_handle (g : Group) (r : Router) (method path : string)
    (h : HandlerFunc) : Router :=
  let fullPath := Group_prefix g +:+ path in
  let h := Group_applyGroupMiddleware g r h in
  Router_handle r method fullPath h.

Definition Group_GET (g : Group) (r : Router) := Group_handle g r "GET".
Definition Group_POST (g : Group) (r : Router) := Group_handle g r "POST".
Definition Group_PUT (g : Group) (r : Router) := Group_handle g r "PUT".
Definition Group_DELETE (g : Group) (r : Router) := Group_handle g r "DELETE".

End Router.

(** * A simulated environment

    Concrete instances of the classes above, used to run the model on
    explicit inputs. The simulated world has a clock that ticks at every
    read, a key/value table, a document table and a log of the calls that
    left the process. The simulated JSON codec is deliberately small: an
    object is accepted when its braces balance, and a field is read as the
    text between the quotes that follow its quoted name and a colon. *)

Module Sim.

Inductive Call :=
| CallGenerate (prompt model : string) (maxTokens : Z)
| CallExec (query : string) (args : list string)
| CallQuery (query : string)
| CallGet (key : string)
| CallSet (key value : string) (ttl : Z)
| CallStore (id content : string) (meta : list (string * string)).

Record world := mkWorld {
  clock : Z;
  kv : gmap string string;
  rows : list (string * string * string);
  calls : list Call;
  (** whether the database and the key/value store answer *)
  db_up : bool;
  kv_up : bool
}.

Definition world0 : world := mkWorld 1000 ∅ [] [] true true.

Definition record (c : Call) (w : world) : world :=
  mkWorld (clock w) (kv w) (rows w) (calls w ++ [c]) (db_up w) (kv_up w).

(** Simulated [float32]: integers, division truncating. *)
Definition f32 : Float32 := {|
  float32 := Z;
  float32_zero := 0;
  float32_of_int := fun n => n;
  float32_div := Z.div;
  fmt_f := fun n => itoa n +:+ ".000000"
|}.

Definition runtime : Runtime := {|
  World := world;
  time_Now := fun w =>
    (clock w, mkWorld (clock w + 1) (kv w) (rows w) (calls w) (db_up w)
                (kv_up w));
  time_Format := itoa
|}.

(** Brace balance of a text: [Some 0] when every brace is matched. *)
Fixpoint balance (s : string) (depth : nat) : option nat :=
  match s with
  | "" => Some depth
  | String c s' =>
      if Ascii.eqb c "{" then balance s' (S depth)
      else if Ascii.eqb c "}" then
        match depth with
        | O => None
        | S d => balance s' d
        end
      else balance s' depth
  end.

Definition decode_object (s : string) : option error :=
  match balance s 0 with
  | Some O => None
  | _ => Some (errors_New "unexpected end of JSON input")
  end.

(** The text of the string field [name], or the empty string. *)
Definition field (name s : string) : string :=
  let pat := quote +:+ name +:+ quote +:+ ":" +:+ quote in
  let i := strings_Index s pat in
  if i =? -1 then ""
  else
    let rest := drop_string (Z.to_nat i + String.length pat) s in
    slice rest 0 (strings_Index rest quote).

Definition decode {A} (build : string -> A) (s : string) (out : A)
  : A * option error :=
  match decode_object s with
  | Some err => (out, Some err)
  | None => (build s, None)
  end.

Definition json : Json := {|
  json_Unmarshal_object := decode_object;
  json_Unmarshal_RootCauseResult :=
    decode (fun s =>
      mkRootCauseResult (field "root_cause" s) 0.9%Q [] (field "category" s)
        (field "impact_scope" s));
  json_Unmarshal_SolutionResult :=
    decode (fun s =>
      mkSolutionResult [] [] [] [] (field "owner" s) (field "complexity" s)
        (field "time_horizon" s));
  json_Unmarshal_ReframedQuestion :=
    decode (fun s =>
      mkReframedQuestion (field "original" s) (field "reframed" s)
        (field "intent" s) (field "goal" s));
  (** a transcript is kept as one [role|content] line per message *)
  json_Unmarshal_SessionMemory := fun s out =>
    (mkSessionMemory "" 
       (map (fun l =>
               match strings_SplitN2 l "|" with
               | [r; c] => mkMemoryMessage r c 0
               | _ => mkMemoryMessage "" l 0
               end)
            (removelast (strings_Split s (ascii_of_nat 10)))) 0,
     None);
  json_Marshal_SessionMemory := fun sm =>
    fold_left (fun acc m => acc +:+ Role m +:+ "|" +:+ Content m +:+ nl)
      (SessionMemory_Messages sm) ""
|}.

Definition text_template : TextTemplate := {|
  Template := string;
  template_Parse := Some;
  template_Execute := fun t data =>
    fold_left
      (fun acc kv =>
         match kv.2 with
         | TInt n => acc +:+ " " +:+ itoa n
         | TString s => acc +:+ " " +:+ s
         end)
      (map_to_list data) t
|}.

Definition templates : Templates := {|
  FiveWhyTemplate := "WHY";
  EvaluationTemplate := "EVALUATE";
  NextWhyTemplate := "NEXT";
  RootCauseTemplate := "ROOT";
  SolutionTemplate := "SOLVE";
  ReframeTemplate := "REFRAME"
|}.

#[local] Existing Instance f32.
#[local] Existing Instance runtime.
#[local] Existing Instance json.
#[local] Existing Instance text_template.
#[local] Existing Instance templates.

Definition set_kv (m : gmap string string) (w : world) : world :=
  mkWorld (clock w) m (rows w) (calls w) (db_up w) (kv_up w).
Definition set_rows (r : list (string * string * string)) (w : world) : world :=
  mkWorld (clock w) (kv w) r (calls w) (db_up w) (kv_up w).

Definition refused : error := errors_New "connection refused".

(** Insert-or-overwrite by identifier. *)
Fixpoint upsert (row : string * string * string)
    (l : list (string * string * string)) : list (string * string * string) :=
  match l with
  | [] => [row]
  | r :: l' =>
      if String.eqb r.1.1 row.1.1 then row :: l' else r :: upsert row l'
  end.

(** A database that records every statement, keeps the rows of
    three-argument statements, and answers a query with all its rows. *)
Definition db : DB :=
  mkDB
    (fun query args w =>
       let w := record (CallExec query args) w in
       if db_up w then
         (None,
          match args with
          | [id; content; meta] => set_rows (upsert (id, content, meta) (rows w)) w
          | _ => w
          end)
       else (Some refused, w))
    (fun query w =>
       let w := record (CallQuery query) w in
       if db_up w then ((map (fun r => (r, None)) (rows w), None), w)
       else (([], Some refused), w)).

Definition redis : RedisClient :=
  mkRedisClient
    (fun key value ttl w =>
       let w := record (CallSet key value ttl) w in
       if kv_up w then (None, set_kv (<[key := value]> (kv w)) w)
       else (Some refused, w))
    (fun key w =>
       let w := record (CallGet key) w in
       if kv_up w then
         match kv w !! key with
         | Some v => ((v, None), w)
         | None => (("", Some (errors_New "redis: nil")), w)
         end
       else (("", Some refused), w)).

Definition jstr (name value : string) : string :=
  quote +:+ name +:+ quote +:+ ":" +:+ quote +:+ value +:+ quote.

Definition rootCauseJSON : string :=
  "{" +:+ jstr "root_cause" "flaky network config" +:+ ","
  +:+ quote +:+ "confidence" +:+ quote +:+ ":0.9,"
  +:+ quote +:+ "evidence" +:+ quote +:+ ":[" +:+ quote +:+ "timeout logs"
  +:+ quote +:+ "],"
  +:+ jstr "category" "technical" +:+ ","
  +:+ jstr "impact_scope" "deployment pipeline" +:+ "}".

Definition solutionJSON : string :=
  "{" +:+ jstr "owner" "platform team" +:+ "," +:+ jstr "complexity" "medium"
  +:+ "," +:+ jstr "time_horizon" "short" +:+ "}".

Definition reframeJSON : string :=
  "{" +:+ jstr "original" "Deploys fail intermittently" +:+ ","
  +:+ jstr "reframed" "How do we make the network config reliable" +:+ ","
  +:+ jstr "intent" "stability" +:+ "," +:+ jstr "goal" "reliable deploys"
  +:+ "}".

(** A provider that records the call and answers by model name, each
    structured payload wrapped in prose. *)
Definition scripted : Provider :=
  mkProvider "primary"
    (fun req w =>
       let model := ProviderRequest_Model req in
       let w :=
         record (CallGenerate (ProviderRequest_Prompt req) model
                   (ProviderRequest_MaxTokens req)) w in
       let text :=
         if String.eqb model "diagnosis-model" then
           "The analysis points to: " +:+ rootCauseJSON +:+ " as discussed."
         else if String.eqb model "planning-model" then
           "Plan: " +:+ solutionJSON
         else "Sure. " +:+ reframeJSON +:+ nl in
       ((mkProviderResponse text 128 model ∅, None), w)).

(** A text of [n] bytes. *)
Fixpoint filler (n : nat) : string :=
  match n with
  | O => ""
  | S n' => String "x" (filler n')
  end.

(** A provider that answers every request with the same 1600 bytes. *)
Definition echo : Provider :=
  mkProvider "primary"
    (fun req w =>
       ((mkProviderResponse (filler 1600) 400 (ProviderRequest_Model req) ∅,
         None), w)).

(** A provider that is down. *)
Definition broken : Provider :=
  mkProvider "primary"
    (fun req w => ((mkProviderResponse "" 0 "" ∅, Some refused), w)).

Definition engine : Engine := RegisterProvider NewEngine scripted.
Definition echo_engine : Engine := RegisterProvider NewEngine echo.
Definition broken_engine : Engine := RegisterProvider NewEngine broken.

(** The wiring of [cmd/api/main.go]: a manager without stores of its own,
    one pgvector store shared by the memory engine and the orchestrator. *)
Definition manager : Manager := mkManager engine None None "llama3" "" "local".
Definition pg : PgVectorStore := NewPgVectorStore db 384.
Definition memory : MemoryEngine :=
  mkMemoryEngine redis (PgVectorStore_as_Store pg) manager.
Definition orchestrator : Orchestrator :=
  NewOrchestrator manager (PgVectorStore_as_Store pg) NewBuilder.

(** A store that records every document handed to it and answers with
    the outcome given, whatever the document. *)
Definition recording (outcome : option error) : Store :=
  mkStore (ret None)
    (fun doc w =>
       (outcome,
        record (CallStore (Document_ID doc) (Document_Content doc)
                  (map_to_list (Document_Meta doc))) w))
    (fun _ _ => ret ([], None))
    (fun _ => ret None).

(** Worlds: the database down, the key/value store down, two documents
    in the table, one transcript in the key/value store. *)
Definition world_db_down : world := mkWorld 1000 ∅ [] [] false true.
Definition world_kv_down : world := mkWorld 1000 ∅ [] [] true false.
Definition world_docs : world :=
  set_rows [("d1", "first doc", "{}"); ("d2", "second doc", "{}")] world0.
Definition world_chat : world :=
  set_kv (<["session:s1" := "user|hello" +:+ nl]> ∅) world_docs.

(** A document that passes the validation of [Store]. *)
Definition valid_doc : Document :=
  mkDocument "a" "some content" [1; 2] (<["type" := "note"]> ∅).

End Sim.

(** * The simulated environment, continued

    Encoders, request decoders, a statement log for the repository, a
    silent response writer, and the service wired as [cmd/api/main.go]
    wires it. *)

Module SimService.
Import Sim.
#[local] Existing Instance f32.
#[local] Existing Instance runtime.
#[local] Existing Instance json.
#[local] Existing Instance text_template.
#[local] Existing Instance templates.

(** Messages are encoded one [role|content] line each; the parts of a
    session by their leading text. *)
Definition marshal : JsonMarshal := {|
  json_Marshal_Messages := fun msgs =>
    fold_left (fun acc m => acc +:+ Role m +:+ "|" +:+ Content m +:+ nl) msgs "";
  json_Marshal_Steps := fun steps =>
    fold_left (fun acc s => acc +:+ Question s +:+ nl) steps "";
  json_Marshal_RootCauseResult := RootCause;
  json_Marshal_SolutionResult := Owner;
  json_Marshal_ReframedQuestion := Reframed
|}.

Definition decoder : JsonDecode := {|
  json_Decode_ChatRequest :=
    decode (fun s => mkChatRequest (field "session_id" s) (field "message" s));
  json_Decode_FiveWhyRequest :=
    decode (fun s => mkFiveWhyRequest (field "session_id" s) (field "question" s));
  json_Decode_RootCauseRequest := decode (fun s => mkRootCauseRequest []);
  json_Decode_ReframeRequest :=
    decode (fun s =>
      mkReframeRequest (field "question" s)
        (mkRootCauseResult (field "root_cause" s) 0.9%Q [] "" ""));
  json_Decode_CompressRequest :=
    decode (fun s => mkCompressRequest (field "session_id" s));
  json_Decode_RecallRequest :=
    decode (fun s => mkRecallRequest (field "query" s) 0)
|}.

#[local] Existing Instance marshal.
#[local] Existing Instance decoder.

Definition sql_text (v : SqlValue) : string :=
  match v with
  | SqlString s => s
  | SqlInt n => itoa n
  | SqlBytes b => b
  end.

(** A database handle that logs every statement and has no chat rows. *)
Definition sqldb : SqlDB :=
  mkSqlDB
    (fun query args w =>
       let w := record (CallExec query (map sql_text args)) w in
       if db_up w then (None, w) else (Some refused, w))
    (fun query args w =>
       let w := record (CallQuery query) w in
       if db_up w then (([], None), w) else (([], Some refused), w)).

Definition repository : Repository := NewRepository sqldb.

(** A manager as [NewManager] builds it for the provider [ollama]. *)
Definition ollama_config : ManagerConfig :=
  mkManagerConfig "ollama" "" "llama3" "" None None true true.

(** A manager whose memory hook writes to the pgvector store. *)
Definition hooked_manager : Manager :=
  mkManager engine (Some (PgVectorStore_as_Store pg)) None "llama3" "" "local".

Definition config (fiveWhy : bool) : ServiceConfig :=
  mkServiceConfig (Some repository) manager (Some (PgVectorStore_as_Store pg))
    (Some memory) fiveWhy true true true.

Definition service (fiveWhy : bool) : Service :=
  mkService (Some repository) manager (Some (PgVectorStore_as_Store pg))
    (Some memory) orchestrator (config fiveWhy).

(** A service without memory engine and repository. *)
Definition bare_service : Service :=
  mkService None manager None None orchestrator
    (mkServiceConfig None manager None None true true true true).

(** A response writer that drops what is written. *)
Definition silent : ResponseWriter :=
  mkResponseWriter (fun _ _ => ret tt) (fun _ => ret tt) (fun _ => ret None).

Definition post (body : string) : Context :=
  NewContext silent (mkHttpRequest "POST" body).

(** A middleware that adds its name to the trace of the request and
    passes it on. *)
Definition mark (name : string) : Middleware :=
  fun next c =>
    next (Context_Set c "trace"
            (AnyString (Context_GetString c "trace" +:+ name))).

(** A metadata map as the service writes it. *)
Definition root_meta : gmap string string :=
  <["type" := "root_cause"]> (<["userID" := "u1"]> ∅).

End SimService.

(** * Vocabulary of the statements *)

(** [occurs c s]: the byte [c] occurs in [s]. *)
Fixpoint occurs (c : ascii) (s : string) : Prop :=
  match s with
  | "" => False
  | String a s' => a = c \/ occurs c s'
  end.

(** [made_of runes s]: [s] is a concatenation of members of [runes]. *)
Inductive made_of (runes : list string) : string -> Prop :=
| made_of_nil : made_of runes ""
| made_of_cons r s : In r runes -> made_of runes s -> made_of runes (r +:+ s).

(** The two failures of [extractJSON]. *)
Definition noJSON : string * option error :=
  ("", Some (errors_New "no json found in llm output")).

Definition invalidJSON : string * option error :=
  ("", Some (errors_New "invalid json structure")).

Section Vocabulary.
Context {F32 : Float32} {RT : Runtime}.

(** The request handed to the provider. *)
Definition dispatched (e : Engine) (req : Request) : ProviderRequest :=
  let mode :=
    if String.eqb (Request_Mode req) "" then ModeDefault else Request_Mode req in
  let model := map_index (Engine_modelMap e) mode in
  mkProviderRequest (Request_Prompt req) (Request_Temperature req)
    (if Request_MaxTokens req =? 0 then 1024 else Request_MaxTokens req)
    (if String.eqb model "" then map_index (Engine_modelMap e) ModeDefault
     else model).





End Vocabulary.

(** * Vocabulary of the further statements *)

(** The banner of the provider stub that [NewManager] registers. *)
Definition banner (provider : string) : string :=
  if String.eqb provider "openai" then "[OPENAI RESPONSE PLACEHOLDER]"
  else if String.eqb provider "ollama" then "[OLLAMA RESPONSE PLACEHOLDER]"
  else "[LOCAL MODEL RESPONSE PLACEHOLDER]".

(** [free_of cutset s]: no byte of [cutset] occurs in [s]. *)
Definition free_of (cutset s : string) : Prop :=
  forall c, occurs c s -> in_cutset cutset c = false.

(** The text [mapToJSON] writes for one entry. *)
Definition entryJSON (kv : string * string) : string :=
  quote +:+ kv.1 +:+ quote +:+ ":" +:+ quote +:+ kv.2 +:+ quote.

(** The separators and the quote of the metadata text. *)
Definition keyBytes : string := "," +:+ ":" +:+ quote.
Definition valueBytes : string := "," +:+ quote.

Section VocabularyMore.
Context {F32 : Float32} {JS : Json} {JM : JsonMarshal} {RT : Runtime}.

(** The document [Search] builds from a row. *)
Definition rowDocument (row : Row) : Document :=
  mkDocument row.1.1.1 row.1.1.2 [] (jsonToMap row.1.2).

(** The recalled context: the contents, one per line. *)
Definition contextLines (docs : list Document) : string :=
  fold_right (fun d acc => Document_Content d +:+ nl +:+ acc) "" docs.

(** The requests of the root-cause, solution and reframing steps. *)
Definition rootCauseRequest (pb : Builder) (steps : list FiveWhyStep) : Request :=
  request ModeDiagnosis (BuildRootCausePrompt pb steps).

Definition solutionRequest (pb : Builder) (rc : RootCauseResult)
    (steps : list FiveWhyStep) : Request :=
  request ModePlanning (BuildSolutionPrompt pb rc steps).

Definition reframeRequest (pb : Builder) (question : string)
    (rc : RootCauseResult) : Request :=
  request ModeReasoning (BuildReframePrompt pb question rc).

(** The request [CompressSession] makes for a transcript. *)
Definition summaryRequest (msgs : list MemoryMessage) : Request :=
  request ModeAnalysis
    ("Summarize the following conversation into long-term semantic memory:"
     +:+ nl +:+ json_Marshal_Messages msgs).

(** The document [CompressSession] hands to the vector store. *)
Definition summaryDocument (m : Manager) (sessionID text : string) : Document :=
  mkDocument (sessionID +:+ "_summary") text (fst (Manager_Embed m text))
    (<["type" := "session_summary"]> (<["sessionID" := sessionID]> ∅)).

(** [after o f w]: the world after the optional component [o] ran [f],
    its outcome dropped. *)
Definition after {A B} (o : option A) (f : A -> M B) (w : World) : World :=
  match o with
  | Some a => snd (f a w)
  | None => w
  end.

(** The context [Chat] puts before the message, and the world in which
    it generates: with a memory engine, the message is appended to the
    session and the hybrid context is read. *)
Definition chatContext (s : Service) (sessionID message : string) (w : World)
  : string * World :=
  match Service_memory s with
  | Some memory =>
      let w1 := snd (AppendSession memory sessionID "user" message w) in
      let h := HybridContext memory sessionID message 5 w1 in
      (fst (fst h), snd h)
  | None => ("", w)
  end.

Definition chatRequest (contextStr message : string) : Request :=
  request ModeReasoning
    ("Context:" +:+ nl +:+ contextStr +:+ nl +:+ "User:" +:+ nl +:+ message).


(** [wrap ms h]: [h] inside the middlewares [ms], the first outermost. *)
Definition wrap (ms : list Middleware) (h : HandlerFunc)
  : HandlerFunc :=
  fold_right (fun m h => m h) h ms.

End VocabularyMore.

(** * Properties *)

(** ** The string functions on explicit inputs *)

Example TrimSpace_ascii :
  strings_TrimSpace (" " +:+ nl +:+ "a b" +:+ tab +:+ " ") = "a b".
Proof. reflexivity. Qed.

Example TrimSpace_unicode :
  strings_TrimSpace (bytes [226; 128; 131; 97; 194; 160; 98; 227; 128; 128; 10])
  = bytes [97; 194; 160; 98].
Proof. reflexivity. Qed.

Example TrimSpace_broken_rune :
  strings_TrimSpace (bytes [226; 128; 128; 128]) = bytes [128].
Proof. reflexivity. Qed.

Example Index_examples :
  strings_Index "ab{c{d}e}f" "{" = 2 /\ strings_LastIndex "ab{c{d}e}f" "}" = 8
  /\ strings_Index "abc" "{" = -1 /\ strings_LastIndex "abc" "}" = -1
  /\ strings_Index "" "" = 0 /\ strings_LastIndex "abc" "" = 3
  /\ slice "ab{c{d}e}f" 2 9 = "{c{d}e}".
Proof. repeat split; reflexivity. Qed.

Example Split_examples :
  strings_Split "a,b,,c" "," = ["a"; "b"; ""; "c"]
  /\ strings_Split "abc" "," = ["abc"]
  /\ strings_SplitN2 "k:v:w" ":" = ["k"; "v:w"]
  /\ strings_SplitN2 "kv" ":" = ["kv"]
  /\ strings_Trim "{{a}b}" "{}" = "a}b"
  /\ strings_Join ["1"; "2"; "3"] "," = "1,2,3".
Proof. repeat split; reflexivity. Qed.

(** ** Occurrences of a byte: what [Index] and [LastIndex] compute *)

Lemma app_nil_string s : "" +:+ s = s.
Proof. reflexivity. Qed.

Lemma app_cons_string a s1 s2 : String a s1 +:+ s2 = String a (s1 +:+ s2).
Proof. reflexivity. Qed.

Lemma occurs_app c s1 s2 : occurs c (s1 +:+ s2) <-> occurs c s1 \/ occurs c s2.
Proof.
  induction s1 as [|a s1 IH].
  - rewrite app_nil_string. simpl. tauto.
  - rewrite app_cons_string. simpl. rewrite IH. tauto.
Qed.

Lemma len_nonneg s : 0 <= len s.
Proof. unfold len. lia. Qed.

Lemma len_cons a s : len (String a s) = len s + 1.
Proof. unfold len. simpl String.length. lia. Qed.

Lemma len_app s1 s2 : len (s1 +:+ s2) = len s1 + len s2.
Proof.
  induction s1 as [|a s1 IH]; [reflexivity|].
  change (String a s1 +:+ s2) with (String a (s1 +:+ s2)).
  rewrite !len_cons, IH. lia.
Qed.

Lemma app_assoc_string s1 s2 s3 : (s1 +:+ s2) +:+ s3 = s1 +:+ (s2 +:+ s3).
Proof.
  induction s1 as [|a s1 IH]; [reflexivity|].
  rewrite !app_cons_string. now f_equal.
Qed.

Lemma Index_byte_nil c : strings_Index "" (String c "") = -1.
Proof. reflexivity. Qed.

Lemma Index_byte_cons a s c :
  strings_Index (String a s) (String c "") =
  if Ascii.eqb a c then 0
  else if strings_Index s (String c "") =? -1 then -1
       else strings_Index s (String c "") + 1.
Proof.
  simpl. destruct (Ascii.ascii_dec c a) as [->|Hne].
  - rewrite Ascii.eqb_refl. now destruct s.
  - destruct (Ascii.eqb_spec a c); [congruence|reflexivity].
Qed.

Lemma LastIndex_byte_cons a s c :
  strings_LastIndex (String a s) (String c "") =
  if strings_LastIndex s (String c "") =? -1 then
    (if Ascii.eqb a c then 0 else -1)
  else strings_LastIndex s (String c "") + 1.
Proof.
  simpl. destruct (_ =? -1); [|reflexivity].
  destruct (Ascii.ascii_dec c a) as [->|Hne].
  - rewrite Ascii.eqb_refl. now destruct s.
  - destruct (Ascii.eqb_spec a c); [congruence|reflexivity].
Qed.

Lemma Index_byte_none c s :
  ~ occurs c s -> strings_Index s (String c "") = -1.
Proof.
  induction s as [|a s IH]; intros Hn; [reflexivity|].
  rewrite Index_byte_cons. simpl in Hn.
  destruct (Ascii.eqb_spec a c); [tauto|]. rewrite IH by tauto. reflexivity.
Qed.

Lemma Index_byte_found c s :
  occurs c s ->
  exists pre post, s = pre +:+ String c post /\ ~ occurs c pre
                   /\ strings_Index s (String c "") = len pre.
Proof.
  induction s as [|a s IH]; simpl; [tauto|]. intros Hocc.
  destruct (Ascii.eqb_spec a c) as [->|Hne].
  - exists "", s. repeat split; [tauto|].
    change (strings_Index (String c s) (String c "") = 0).
    rewrite Index_byte_cons, Ascii.eqb_refl. reflexivity.
  - destruct Hocc as [?|Hocc]; [congruence|].
    destruct (IH Hocc) as (pre & post & -> & Hpre & Hidx).
    exists (String a pre), post. repeat split.
    + simpl. tauto.
    + change (strings_Index (String a (pre +:+ String c post)) (String c "")
              = len (String a pre)).
      rewrite Index_byte_cons, Hidx, len_cons.
      destruct (Ascii.eqb_spec a c); [congruence|].
      pose proof (len_nonneg pre).
      destruct (Z.eqb_spec (len pre) (-1)); lia.
Qed.

Lemma LastIndex_byte_none c s :
  ~ occurs c s -> strings_LastIndex s (String c "") = -1.
Proof.
  induction s as [|a s IH]; intros Hn; [reflexivity|].
  rewrite LastIndex_byte_cons. simpl in Hn. rewrite IH by tauto.
  simpl. destruct (Ascii.eqb_spec a c); [tauto|reflexivity].
Qed.

Lemma occurs_dec c s : {occurs c s} + {~ occurs c s}.
Proof.
  induction s as [|a s IH]; simpl; [right; tauto|].
  destruct (Ascii.ascii_dec a c); [left; tauto|].
  destruct IH; [left|right]; tauto.
Qed.

Lemma LastIndex_byte_found c s :
  occurs c s ->
  exists pre post, s = pre +:+ String c post /\ ~ occurs c post
                   /\ strings_LastIndex s (String c "") = len pre.
Proof.
  induction s as [|a s IH]; simpl; [tauto|]. intros Hocc.
  destruct (occurs_dec c s) as [Hs|Hs].
  - destruct (IH Hs) as (pre & post & -> & Hpost & Hidx).
    exists (String a pre), post. repeat split; [assumption|].
    change (strings_LastIndex (String a (pre +:+ String c post)) (String c "")
            = len (String a pre)).
    rewrite LastIndex_byte_cons, Hidx, len_cons.
    pose proof (len_nonneg pre).
    destruct (Z.eqb_spec (len pre) (-1)); lia.
  - destruct Hocc as [->|?]; [|tauto].
    exists "", s. repeat split; [assumption|].
    change (strings_LastIndex (String c s) (String c "") = 0).
    rewrite LastIndex_byte_cons, (LastIndex_byte_none c s Hs), Ascii.eqb_refl.
    reflexivity.
Qed.

Lemma Index_byte_le c pre post :
  0 <= strings_Index (pre +:+ String c post) (String c "") <= len pre.
Proof.
  induction pre as [|a pre IH].
  - rewrite app_nil_string, Index_byte_cons, Ascii.eqb_refl. unfold len. simpl. lia.
  - rewrite app_cons_string, Index_byte_cons, len_cons.
    destruct (Ascii.eqb a c); [pose proof (len_nonneg pre); lia|].
    destruct (Z.eqb_spec (strings_Index (pre +:+ String c post) (String c "")) (-1));
      lia.
Qed.

Lemma LastIndex_byte_lower c s : -1 <= strings_LastIndex s (String c "").
Proof.
  induction s as [|a s IH]; [simpl; lia|].
  rewrite LastIndex_byte_cons.
  destruct (Z.eqb_spec (strings_LastIndex s (String c "")) (-1));
    [destruct (Ascii.eqb a c)|]; lia.
Qed.

Lemma LastIndex_byte_ge c pre post :
  len pre <= strings_LastIndex (pre +:+ String c post) (String c "").
Proof.
  induction pre as [|a pre IH].
  - rewrite app_nil_string, LastIndex_byte_cons, Ascii.eqb_refl.
    pose proof (LastIndex_byte_lower c post). change (len "") with 0.
    destruct (Z.eqb_spec (strings_LastIndex post (String c "")) (-1)); lia.
  - rewrite app_cons_string, LastIndex_byte_cons, len_cons.
    pose proof (len_nonneg pre).
    destruct (Z.eqb_spec (strings_LastIndex (pre +:+ String c post) (String c ""))
                (-1)); lia.
Qed.

Lemma substring_mid pre mid post :
  String.substring (String.length pre) (String.length mid)
    (pre +:+ mid +:+ post) = mid.
Proof.
  induction pre as [|a pre IH].
  - rewrite app_nil_string. simpl String.length.
    revert post. induction mid as [|b mid IHm]; intros post.
    + now destruct post.
    + rewrite app_cons_string. simpl. now rewrite IHm.
  - rewrite app_cons_string. simpl. exact IH.
Qed.

Lemma slice_mid pre mid post :
  slice (pre +:+ mid +:+ post) (len pre) (len pre + len mid) = mid.
Proof.
  unfold slice, len.
  replace (Z.to_nat (Z.of_nat (String.length pre))) with (String.length pre) by lia.
  replace (Z.to_nat _) with (String.length mid) by lia.
  apply substring_mid.
Qed.

(** Two ways of cutting one text, the first cut strictly before the
    second. *)
Lemma app_eq_split p1 x p2 y :
  p1 +:+ x = p2 +:+ y -> len p1 < len p2 ->
  exists a z, p2 = p1 +:+ String a z /\ x = String a z +:+ y.
Proof.
  revert p2. induction p1 as [|a p1 IH]; intros p2 Heq Hlt.
  - destruct p2 as [|b p2]; [unfold len in Hlt; simpl in Hlt; lia|].
    exists b, p2. now rewrite !app_nil_string in *.
  - destruct p2 as [|b p2];
      [pose proof (len_nonneg (String a p1)); change (len "") with 0 in Hlt; lia|].
    rewrite !app_cons_string in Heq. injection Heq as -> Heq.
    rewrite !len_cons in Hlt.
    destruct (IH p2 Heq ltac:(lia)) as (a' & z & -> & ->).
    exists a', z. now rewrite app_cons_string.
Qed.

(** ** Trimming *)

Lemma app_nil_r_string s : s +:+ "" = s.
Proof. induction s as [|a s IH]; [reflexivity|]. rewrite app_cons_string. now f_equal. Qed.

Lemma rev_string_app a b : rev_string (a +:+ b) = rev_string b +:+ rev_string a.
Proof.
  induction a as [|c a IH].
  - rewrite app_nil_string. simpl. now rewrite app_nil_r_string.
  - rewrite app_cons_string. simpl. rewrite IH. apply app_assoc_string.
Qed.

Lemma rev_string_involutive s : rev_string (rev_string s) = s.
Proof.
  induction s as [|c s IH]; [reflexivity|].
  simpl. rewrite rev_string_app, IH. reflexivity.
Qed.

Lemma prefix_drop r s :
  String.prefix r s = true -> s = r +:+ drop_string (String.length r) s.
Proof.
  revert s. induction r as [|a r IH]; intros s Hp; [now destruct s|].
  destruct s as [|b s]; [discriminate|]. simpl in Hp.
  destruct (Ascii.ascii_dec a b) as [->|]; [|discriminate].
  rewrite app_cons_string. simpl. f_equal. now apply IH.
Qed.

Lemma prefix_app r t x :
  String.prefix r t = true -> String.prefix r (t +:+ x) = true.
Proof.
  revert t. induction r as [|a r IH]; intros t Hp;
    [now destruct (t +:+ x)|].
  destruct t as [|b t]; [discriminate|]. rewrite app_cons_string.
  simpl in Hp |- *. destruct (Ascii.ascii_dec a b); [now apply IH|discriminate].
Qed.

Lemma length_drop_string n s :
  String.length (drop_string n s) = (String.length s - n)%nat.
Proof.
  revert s. induction n as [|n IH]; intros [|a s]; simpl; try reflexivity; try lia.
  apply IH.
Qed.

Lemma made_of_app runes a b :
  made_of runes a -> made_of runes b -> made_of runes (a +:+ b).
Proof.
  induction 1 as [|r s Hr Hs IH]; intros Hb; [assumption|].
  rewrite app_assoc_string. constructor; auto.
Qed.

Lemma made_of_rev runes s :
  made_of (map rev_string runes) s -> made_of runes (rev_string s).
Proof.
  induction 1 as [|r s Hr Hs IH]; [constructor|].
  rewrite rev_string_app. apply made_of_app; [assumption|].
  apply in_map_iff in Hr. destruct Hr as (r0 & <- & Hin).
  rewrite rev_string_involutive.
  rewrite <- (app_nil_r_string r0). constructor; [assumption|constructor].
Qed.

Lemma trim_front_decompose runes fuel s :
  exists lead, made_of runes lead /\ s = lead +:+ trim_front runes fuel s.
Proof.
  revert s. induction fuel as [|fuel IH]; intros s; simpl.
  - exists "". split; [constructor|reflexivity].
  - destruct (find _ runes) as [r|] eqn:Hf.
    + apply find_some in Hf. destruct Hf as [Hin Hp].
      destruct (IH (drop_string (String.length r) s)) as (lead & Hl & E).
      exists (r +:+ lead). split; [now constructor|].
      rewrite app_assoc_string, <- E. now apply prefix_drop.
    + exists "". split; [constructor|reflexivity].
Qed.

Lemma trim_front_done runes fuel s :
  (forall r, In r runes -> r <> "") ->
  (String.length s <= fuel)%nat ->
  forall r, In r runes -> String.prefix r (trim_front runes fuel s) = false.
Proof.
  intros Hne. revert s. induction fuel as [|fuel IH]; intros s Hlen r Hin.
  - destruct s; [|simpl in Hlen; lia]. simpl.
    destruct r; [now elim (Hne "" Hin)|reflexivity].
  - simpl. destruct (find _ runes) as [r0|] eqn:Hf.
    + apply find_some in Hf. destruct Hf as [Hin0 Hp0].
      apply IH; [|assumption]. rewrite length_drop_string.
      assert (String.length r0 <> 0%nat).
      { destruct r0; [now elim (Hne "" Hin0)|discriminate]. }
      lia.
    + exact (find_none _ _ Hf r Hin).
Qed.

Lemma space_runes_nonempty r : In r space_runes -> r <> "".
Proof.
  intros Hin ->. revert Hin. vm_compute. intuition discriminate.
Qed.

(** [TrimSpace] removes a run of space runes at either end, and what it
    leaves neither starts nor ends with a space rune. *)
Lemma TrimSpace_spec raw :
  let t := strings_TrimSpace raw in
  exists lead trail,
    raw = lead +:+ t +:+ trail
    /\ made_of space_runes lead /\ made_of space_runes trail
    /\ (forall r, In r space_runes -> String.prefix r t = false)
    /\ (forall r, In r space_runes ->
                  String.prefix (rev_string r) (rev_string t) = false).
Proof.
  intros t. subst t. unfold strings_TrimSpace.
  set (l := trim_front space_runes (String.length raw) raw).
  destruct (trim_front_decompose space_runes (String.length raw) raw)
    as (lead & Hlead & El). fold l in El.
  set (t' := trim_front (map rev_string space_runes) (String.length l)
               (rev_string l)).
  destruct (trim_front_decompose (map rev_string space_runes)
              (String.length l) (rev_string l)) as (lead' & Hlead' & Et).
  fold t' in Et.
  assert (Hl : l = rev_string t' +:+ rev_string lead').
  { rewrite <- (rev_string_involutive l), Et. apply rev_string_app. }
  exists lead, (rev_string lead'). repeat split.
  - now rewrite <- Hl.
  - assumption.
  - now apply made_of_rev.
  - intros r Hin. destruct (String.prefix r (rev_string t')) eqn:Hp; [|reflexivity].
    apply (prefix_app r _ (rev_string lead')) in Hp. rewrite <- Hl in Hp.
    unfold l in Hp.
    rewrite (trim_front_done space_runes _ raw space_runes_nonempty) in Hp;
      [discriminate|lia|assumption].
  - intros r Hin. rewrite rev_string_involutive. unfold t'.
    apply trim_front_done.
    + intros r0 Hr0 ->. apply in_map_iff in Hr0. destruct Hr0 as (r1 & E & Hr1).
      destruct r1; [now elim (space_runes_nonempty "" Hr1)|].
      simpl in E. destruct (rev_string r1); discriminate.
    + assert (Hrl : forall s, String.length (rev_string s) = String.length s).
      { induction s as [|c s IH]; [reflexivity|]. simpl.
        pose proof (len_app (rev_string s) (String c "")) as La.
        unfold len in La. simpl String.length in *. lia. }
      rewrite Hrl. lia.
    + apply in_map. assumption.
Qed.

(** ** Bracket extraction *)

Section ExtractionFacts.
Context {JS : Json} {TT : TextTemplate} {TP : Templates}.

(** What [extractJSON] returns in terms of the trimmed text: either the
    text has no opening brace followed, anywhere later, by a closing one,
    and the result is the no-json error; or the text splits around its
    first opening and its last closing brace, and the result is decided by
    decoding that slice. *)
Lemma extractJSON_cases raw :
  let t := strings_TrimSpace raw in
  ((forall pre mid post, t <> pre +:+ "{" +:+ mid +:+ "}" +:+ post)
   /\ extractJSON raw = noJSON)
  \/ (exists pre mid post,
        t = pre +:+ "{" +:+ mid +:+ "}" +:+ post
        /\ ~ occurs "{"%char pre /\ ~ occurs "}"%char post
        /\ extractJSON raw =
           match json_Unmarshal_object ("{" +:+ mid +:+ "}") with
           | Some _ => invalidJSON
           | None => ("{" +:+ mid +:+ "}", None)
           end).
Proof.
  intros t. unfold extractJSON. fold t.
  destruct (occurs_dec "{"%char t) as [Ho|Ho];
    [destruct (occurs_dec "}"%char t) as [Hc|Hc]|].
  - destruct (Index_byte_found _ _ Ho) as (pre1 & post1 & E1 & Hpre1 & I1).
    destruct (LastIndex_byte_found _ _ Hc) as (pre2 & post2 & E2 & Hpost2 & I2).
    change (strings_Index t "{") with (strings_Index t (String "{"%char "")).
    change (strings_LastIndex t "}") with (strings_LastIndex t (String "}"%char "")).
    pose proof (len_nonneg pre1). pose proof (len_nonneg pre2).
    destruct (Z.leb_spec (len pre2) (len pre1)) as [Hle|Hlt].
    + left. split.
      * intros pre mid post E.
        pose proof (Index_byte_le "{"%char pre (mid +:+ "}" +:+ post)) as B1.
        pose proof (LastIndex_byte_ge "}"%char (pre +:+ "{" +:+ mid) post) as B2.
        change (String "{"%char (mid +:+ "}" +:+ post))
          with ("{" +:+ mid +:+ "}" +:+ post) in B1.
        change (String "}"%char post) with ("}" +:+ post) in B2.
        rewrite !app_assoc_string in B2. rewrite <- E in B1, B2.
        rewrite !len_app in B2. change (len "{") with 1 in B2.
        pose proof (len_nonneg mid). lia.
      * rewrite I1, I2.
        destruct (Z.eqb_spec (len pre1) (-1)); [lia|].
        destruct (Z.eqb_spec (len pre2) (-1)); [lia|].
        destruct (Z.leb_spec (len pre2) (len pre1)); [reflexivity|lia].
    + right.
      destruct (app_eq_split pre1 (String "{"%char post1) pre2
                  (String "}"%char post2)) as (a & z & -> & Ez);
        [congruence|assumption|].
      rewrite app_cons_string in Ez. injection Ez as <- Ez.
      exists pre1, z, post2.
      assert (Et : t = pre1 +:+ ("{" +:+ z +:+ "}") +:+ post2).
      { rewrite E2. rewrite !app_assoc_string. reflexivity. }
      split; [rewrite Et; now rewrite !app_assoc_string|].
      split; [assumption|]. split; [assumption|].
      rewrite I1, I2.
      destruct (Z.eqb_spec (len pre1) (-1)); [lia|].
      destruct (Z.eqb_spec (len (pre1 +:+ String "{"%char z)) (-1)); [lia|].
      destruct (Z.leb_spec (len (pre1 +:+ String "{"%char z)) (len pre1)); [lia|].
      simpl orb. cbv iota.
      replace (slice t (len pre1) (len (pre1 +:+ String "{"%char z) + 1))
        with ("{" +:+ z +:+ "}"); [reflexivity|].
      rewrite Et. symmetry.
      replace (len (pre1 +:+ String "{"%char z) + 1)
        with (len pre1 + len ("{" +:+ z +:+ "}")); [apply slice_mid|].
      rewrite !len_app, !len_cons. change (len "") with 0. lia.
  - left. split.
    + intros pre mid post E. apply Hc. rewrite E.
      rewrite !occurs_app. simpl. tauto.
    + change (strings_LastIndex t "}") with (strings_LastIndex t (String "}"%char "")).
      rewrite (LastIndex_byte_none _ _ Hc).
      now rewrite Z.eqb_refl, orb_true_r.
  - left. split.
    + intros pre mid post E. apply Ho. rewrite E.
      rewrite !occurs_app. simpl. tauto.
    + change (strings_Index t "{") with (strings_Index t (String "{"%char "")).
      rewrite (Index_byte_none _ _ Ho). reflexivity.
Qed.

Lemma split_first_unique c p1 x p2 y :
  ~ occurs c p1 -> ~ occurs c p2 ->
  p1 +:+ String c x = p2 +:+ String c y -> p1 = p2 /\ x = y.
Proof.
  revert p2. induction p1 as [|a p1 IH]; intros [|b p2] Hn1 Hn2 E;
    rewrite ?app_nil_string, ?app_cons_string in E; simpl in Hn1, Hn2.
  - injection E as ->. tauto.
  - injection E as <- _. tauto.
  - injection E as -> _. tauto.
  - injection E as -> E. destruct (IH p2) as [-> ->]; tauto.
Qed.

Lemma split_last_unique c x q1 y q2 :
  ~ occurs c q1 -> ~ occurs c q2 ->
  x +:+ String c q1 = y +:+ String c q2 -> x = y /\ q1 = q2.
Proof.
  revert y. induction x as [|a x IH]; intros [|b y] Hn1 Hn2 E;
    rewrite ?app_nil_string, ?app_cons_string in E.
  - injection E as ->. tauto.
  - injection E as _ ->. exfalso. apply Hn1. rewrite occurs_app. simpl. tauto.
  - injection E as _ <-. exfalso. apply Hn2. rewrite occurs_app. simpl. tauto.
  - injection E as -> E. destruct (IH y) as [-> ->]; tauto.
Qed.

(** The greedy split of a text is unique. *)
Lemma greedy_split_unique pre mid post pre' mid' post' :
  pre +:+ "{" +:+ mid +:+ "}" +:+ post = pre' +:+ "{" +:+ mid' +:+ "}" +:+ post' ->
  ~ occurs "{"%char pre -> ~ occurs "{"%char pre' ->
  ~ occurs "}"%char post -> ~ occurs "}"%char post' ->
  pre = pre' /\ mid = mid' /\ post = post'.
Proof.
  intros E Hp Hp' Hq Hq'.
  destruct (split_first_unique "{"%char pre (mid +:+ "}" +:+ post) pre'
              (mid' +:+ "}" +:+ post') Hp Hp' E) as [-> E'].
  destruct (split_last_unique "}"%char mid post mid' post' Hq Hq' E') as [-> ->].
  tauto.
Qed.

(** C2. For every raw model output, with [t] the trimmed output (the
    output without the space runes at its two ends): extraction succeeds
    exactly when [t] splits as
    [pre { mid } post] with no opening brace in [pre] and no closing brace
    in [post] (first opening to last closing brace, whatever lies between)
    and the slice [{ mid }] decodes as an object, and it then returns that
    slice; it fails exactly when no opening brace of [t] is followed by a
    closing one, or the greedy slice does not decode. Each of
    [ParseRootCause], [ParseSolution] and [ParseReframe] succeeds exactly
    when extraction succeeds and the extracted slice decodes into the
    target record, and then leaves the decoded record in its target. *)
Theorem structured_payload_extraction raw :
  let t := strings_TrimSpace raw in
  (exists lead trail,
     raw = lead +:+ t +:+ trail
     /\ made_of space_runes lead /\ made_of space_runes trail
     /\ (forall r, In r space_runes -> String.prefix r t = false)
     /\ (forall r, In r space_runes ->
                   String.prefix (rev_string r) (rev_string t) = false))
  /\ (snd (extractJSON raw) = None <->
      exists pre mid post,
        t = pre +:+ "{" +:+ mid +:+ "}" +:+ post
        /\ ~ occurs "{"%char pre /\ ~ occurs "}"%char post
        /\ json_Unmarshal_object ("{" +:+ mid +:+ "}") = None)
  /\ (forall pre mid post,
        t = pre +:+ "{" +:+ mid +:+ "}" +:+ post ->
        ~ occurs "{"%char pre -> ~ occurs "}"%char post ->
        json_Unmarshal_object ("{" +:+ mid +:+ "}") = None ->
        extractJSON raw = ("{" +:+ mid +:+ "}", None))
  /\ (snd (extractJSON raw) <> None <->
      (forall pre mid post, t <> pre +:+ "{" +:+ mid +:+ "}" +:+ post)
      \/ exists pre mid post,
           t = pre +:+ "{" +:+ mid +:+ "}" +:+ post
           /\ ~ occurs "{"%char pre /\ ~ occurs "}"%char post
           /\ json_Unmarshal_object ("{" +:+ mid +:+ "}") <> None)
  /\ (forall out,
        (snd (ParseRootCause NewBuilder raw out) = None <->
         snd (extractJSON raw) = None
         /\ snd (json_Unmarshal_RootCauseResult (fst (extractJSON raw)) out)
            = None)
        /\ (snd (extractJSON raw) = None ->
            ParseRootCause NewBuilder raw out =
            json_Unmarshal_RootCauseResult (fst (extractJSON raw)) out))
  /\ (forall out,
        (snd (ParseSolution NewBuilder raw out) = None <->
         snd (extractJSON raw) = None
         /\ snd (json_Unmarshal_SolutionResult (fst (extractJSON raw)) out)
            = None)
        /\ (snd (extractJSON raw) = None ->
            ParseSolution NewBuilder raw out =
            json_Unmarshal_SolutionResult (fst (extractJSON raw)) out))
  /\ (forall out,
        (snd (ParseReframe NewBuilder raw out) = None <->
         snd (extractJSON raw) = None
         /\ snd (json_Unmarshal_ReframedQuestion (fst (extractJSON raw)) out)
            = None)
        /\ (snd (extractJSON raw) = None ->
            ParseReframe NewBuilder raw out =
            json_Unmarshal_ReframedQuestion (fst (extractJSON raw)) out)).
Proof.
  intros t.
  assert (Hparse : forall (A : Type) (dec : string -> A -> A * option error)
                     (out : A),
             let parse :=
               match extractJSON raw with
               | (_, Some err) => (out, Some err)
               | (jsonStr, None) => dec jsonStr out
               end in
             (snd parse = None <->
              snd (extractJSON raw) = None
              /\ snd (dec (fst (extractJSON raw)) out) = None)
             /\ (snd (extractJSON raw) = None ->
                 parse = dec (fst (extractJSON raw)) out)).
  { intros A dec out. destruct (extractJSON raw) as [js [e|]]; simpl;
      intuition congruence. }
  assert (Hvalue : forall pre mid post,
             t = pre +:+ "{" +:+ mid +:+ "}" +:+ post ->
             ~ occurs "{"%char pre -> ~ occurs "}"%char post ->
             json_Unmarshal_object ("{" +:+ mid +:+ "}") = None ->
             extractJSON raw = ("{" +:+ mid +:+ "}", None)).
  { intros pre mid post Et Hp Hq D.
    destruct (extractJSON_cases raw)
      as [[Hno _]|(pre' & mid' & post' & Et' & Hp' & Hq' & E)];
      [now elim (Hno pre mid post)|].
    fold t in Et'. rewrite Et in Et'.
    destruct (greedy_split_unique _ _ _ _ _ _ Et' Hp Hp' Hq Hq') as (-> & -> & ->).
    now rewrite E, D. }
  split; [exact (TrimSpace_spec raw)|].
  split; [|split; [exact Hvalue|]].
  2: split; [|split; [|split]; intros out; apply (Hparse _ _ out)].
  - split.
    + intros Hok.
      destruct (extractJSON_cases raw) as [[_ E]|(pre & mid & post & Et & Hp & Hq & E)];
        [rewrite E in Hok; discriminate|].
      exists pre, mid, post. fold t in Et.
      destruct (json_Unmarshal_object ("{" +:+ mid +:+ "}")) eqn:D;
        [rewrite E in Hok; discriminate|]. auto.
    + intros (pre & mid & post & Et & Hp & Hq & D).
      now rewrite (Hvalue pre mid post Et Hp Hq D).
  - split.
    + intros Hfail.
      destruct (extractJSON_cases raw) as [[Hno _]|(pre & mid & post & Et & Hp & Hq & E)];
        [left; exact Hno|].
      right. exists pre, mid, post. fold t in Et.
      destruct (json_Unmarshal_object ("{" +:+ mid +:+ "}")) eqn:D;
        [repeat split; auto; discriminate|].
      rewrite E in Hfail. now elim Hfail.
    + intros Hcase.
      destruct (extractJSON_cases raw)
        as [[_ E]|(pre' & mid' & post' & Et' & Hp' & Hq' & E)];
        [rewrite E; discriminate|].
      fold t in Et'.
      destruct Hcase as [Hno|(pre & mid & post & Et & Hp & Hq & D)];
        [now elim (Hno pre' mid' post')|].
      rewrite Et in Et'.
      destruct (greedy_split_unique _ _ _ _ _ _ Et' Hp Hp' Hq Hq') as (-> & -> & ->).
      rewrite E. destruct (json_Unmarshal_object _); [discriminate|now elim D].
Qed.

End ExtractionFacts.

(** ** Policy and generation engine *)

Lemma SelectProvider_primary mode : SelectProvider mode = ("primary", None).
Proof. unfold SelectProvider. repeat destruct (String.eqb _ _); reflexivity. Qed.

(** C10. The confidence estimate does not depend on the reasoning mode:
    for any two modes and any output text the two estimates coincide. *)
Theorem EstimateConfidence_mode_independent (m1 m2 : Mode) (t : string) :
  EstimateConfidence m1 t = EstimateConfidence m2 t.
Proof. reflexivity. Qed.

Section EngineFacts.
Context {F32 : Float32} {RT : Runtime}.

(** [Engine_Generate], path by path. *)
Lemma Engine_Generate_paths e req w :
  Engine_Generate e req w =
  let (start, w0) := time_Now w in
  if String.eqb (Request_Prompt req) "" then
    ((Response_zero, Some (errors_New "empty prompt")), w0)
  else
    match Engine_providers e !! "primary" with
    | None =>
        ((Response_zero,
          Some (errors_New "llm provider not registered: primary")), w0)
    | Some p =>
        let '((pResp, perr), w1) := Provider_Generate p (dispatched e req) w0 in
        match perr with
        | Some err => ((Response_zero, Some err), w1)
        | None =>
            let (now, w2) := time_Now w1 in
            ((mkResponse (ProviderResponse_Text pResp)
                (ProviderResponse_Tokens pResp) (now - start) (Provider_Name p)
                (ProviderResponse_Model pResp)
                (EstimateConfidence (Request_Mode req)
                   (ProviderResponse_Text pResp)),
              None), w2)
        end
    end.
Proof.
  unfold Engine_Generate, bind, ret.
  destruct (time_Now w) as [start w0].
  destruct (String.eqb (Request_Prompt req) ""); [reflexivity|].
  rewrite SelectProvider_primary.
  destruct (Engine_providers e !! "primary") as [p|]; [|reflexivity].
  fold (dispatched e req).
  destruct (Provider_Generate p (dispatched e req) w0) as [[pResp [err|]] w1];
    [reflexivity|].
  destruct (time_Now w1) as [now w2]. reflexivity.
Qed.

(** C3. The confidence score is a step function of the byte length of the
    text alone: above 1500 it is 0.95, above 800 it is 0.85, above 300 it
    is 0.70, otherwise 0.50; so lengths 50, 301, 801 and 1501 score 0.50,
    0.70, 0.85 and 0.95. The score lies in [0,1], and the response of
    every successful [Generate], of the engine and of the manager around
    it, carries the score of its own text. *)
Theorem confidence_step_function :
  (forall (mode : Mode) (text : string),
     let l := len text in
     let c := EstimateConfidence mode text in
     (1500 < l -> c = 0.95%Q)
     /\ (800 < l <= 1500 -> c = 0.85%Q)
     /\ (300 < l <= 800 -> c = 0.7%Q)
     /\ (l <= 300 -> c = 0.5%Q)
     /\ (l = 50 -> c = 0.5%Q) /\ (l = 301 -> c = 0.7%Q)
     /\ (l = 801 -> c = 0.85%Q) /\ (l = 1501 -> c = 0.95%Q)
     /\ (0 <= c)%Q /\ (c <= 1)%Q)
  /\ (forall (e : Engine) (req : Request) (w w' : World) (resp : Response),
        Engine_Generate e req w = ((resp, None), w') ->
        forall mode : Mode,
          Response_Confidence resp = EstimateConfidence mode (Response_Text resp))
  /\ (forall (m : Manager) (req : Request) (w w' : World) (resp : Response),
        Manager_Generate m req w = ((resp, None), w') ->
        forall mode : Mode,
          Response_Confidence resp = EstimateConfidence mode (Response_Text resp)).
Proof.
  assert (Hengine :
            forall (e : Engine) (req : Request) (w w' : World) (resp : Response),
              Engine_Generate e req w = ((resp, None), w') ->
              forall mode : Mode,
                Response_Confidence resp
                = EstimateConfidence mode (Response_Text resp)).
  { intros e req w w' resp Hgen mode.
    rewrite Engine_Generate_paths in Hgen.
    destruct (time_Now w) as [start w0].
    destruct (String.eqb (Request_Prompt req) ""); [discriminate|].
    destruct (Engine_providers e !! "primary") as [p|]; [|discriminate].
    destruct (Provider_Generate p (dispatched e req) w0) as [[pResp [err|]] w1];
      [discriminate|].
    destruct (time_Now w1) as [now w2].
    injection Hgen as <- _. reflexivity. }
  split; [|split; [exact Hengine|]].
  - intros mode text l c. subst c. unfold EstimateConfidence. fold l.
    destruct (Z.ltb_spec 1500 l); [|destruct (Z.ltb_spec 800 l);
      [|destruct (Z.ltb_spec 300 l)]];
      repeat split; intros; try lia; try reflexivity; discriminate.
  - intros m req w w' resp Hgen mode. unfold Manager_Generate, bind, ret in Hgen.
    destruct (Engine_Generate (Manager_engine m) req w)
      as [[resp0 [err|]] w0] eqn:Heng; [discriminate|].
    destruct (storeMemory m req resp0 w0) as [serr w1].
    injection Hgen as <- _. exact (Hengine _ _ _ _ _ Heng mode).
Qed.

(** C4. [Generate] reads the clock and then: on an empty prompt it
    returns the empty-prompt error with the zero response, whatever is
    registered, and the world is the one the clock read left (no provider
    ran); on a non-empty prompt it never raises that error itself (it can
    only pass on an error the provider returned):
    if no provider is registered under the name the policy selects, it
    returns the not-registered error naming that back end, again with no
    provider call; otherwise the registered provider is called once, with
    the prompt and temperature unchanged, max-tokens 1024 when the request
    had 0, and the model of mode [default] when the request had no mode,
    and the outcome is that call's error or the assembled response. *)
Theorem Generate_validation_and_dispatch (e : Engine) (req : Request) (w : World) :
  let w0 := snd (time_Now w) in
  let name := fst (SelectProvider
                     (if String.eqb (Request_Mode req) "" then ModeDefault
                      else Request_Mode req)) in
  (Request_Prompt req = "" ->
   Engine_Generate e req w =
   ((Response_zero, Some (errors_New "empty prompt")), w0))
  /\ (Request_Prompt req <> "" ->
      match Engine_providers e !! name with
      | None =>
          Engine_Generate e req w =
          ((Response_zero,
            Some (errors_New ("llm provider not registered: " +:+ name))), w0)
      | Some p =>
          let pReq := dispatched e req in
          let r := Provider_Generate p pReq w0 in
          ProviderRequest_Prompt pReq = Request_Prompt req
          /\ ProviderRequest_Temperature pReq = Request_Temperature req
          /\ ProviderRequest_MaxTokens pReq =
             (if Request_MaxTokens req =? 0 then 1024 else Request_MaxTokens req)
          /\ (Request_Mode req = "" ->
              ProviderRequest_Model pReq =
              map_index (Engine_modelMap e) ModeDefault)
          /\ match snd (fst r) with
             | Some err =>
                 Engine_Generate e req w = ((Response_zero, Some err), snd r)
             | None =>
                 exists resp,
                   Engine_Generate e req w =
                   ((resp, None), snd (time_Now (snd r)))
                   /\ Response_Text resp = ProviderResponse_Text (fst (fst r))
                   /\ Response_Provider resp = Provider_Name p
             end
      end)
  /\ (snd (fst (Engine_Generate e req w)) = Some (errors_New "empty prompt") ->
      Request_Prompt req = ""
      \/ exists p,
           Engine_providers e !! name = Some p
           /\ snd (fst (Provider_Generate p (dispatched e req) w0))
              = Some (errors_New "empty prompt")).
Proof.
  intros w0 name. subst name. rewrite SelectProvider_primary. simpl fst.
  rewrite Engine_Generate_paths. subst w0.
  destruct (time_Now w) as [start w0]. simpl snd.
  split; [|split].
  3: { destruct (String.eqb_spec (Request_Prompt req) ""); [tauto|].
       destruct (Engine_providers e !! "primary") as [p|]; [|discriminate].
       intros Herr. right. exists p. split; [reflexivity|].
       destruct (Provider_Generate p (dispatched e req) w0)
         as [[pResp [err|]] w1]; [exact Herr|].
       destruct (time_Now w1). discriminate Herr. }
  - intros ->. reflexivity.
  - intros Hne. destruct (String.eqb_spec (Request_Prompt req) ""); [tauto|].
    destruct (Engine_providers e !! "primary") as [p|]; [|reflexivity].
    repeat split.
    + intros Hm. unfold dispatched. simpl. rewrite Hm. simpl.
      now destruct (String.eqb _ "").
    + destruct (Provider_Generate p (dispatched e req) w0) as [[pResp [err|]] w1];
        simpl; [reflexivity|].
      destruct (time_Now w1) as [now w2]. eexists. repeat split.
Qed.

(** C9. [SelectProvider] returns the name [primary] and no error for
    every mode, inside or outside the enumeration. Hence the guarded
    return after the policy call in [Generate] is never taken: an error
    of [Generate] is the empty-prompt error, the not-registered error for
    [primary], or the error the provider registered as [primary] returned
    for the request dispatched to it. *)
Theorem SelectProvider_total_constant :
  (forall mode : Mode, SelectProvider mode = ("primary", None))
  /\ (forall (e : Engine) (req : Request) (w : World) (err : error),
        snd (fst (Engine_Generate e req w)) = Some err ->
        (Request_Prompt req = "" /\ err = errors_New "empty prompt")
        \/ (Request_Prompt req <> "" /\ Engine_providers e !! "primary" = None
            /\ err = errors_New "llm provider not registered: primary")
        \/ (Request_Prompt req <> "" /\
            exists p,
              Engine_providers e !! "primary" = Some p
              /\ snd (fst (Provider_Generate p (dispatched e req)
                             (snd (time_Now w)))) = Some err)).
Proof.
  split; [exact SelectProvider_primary|].
  intros e req w err. rewrite Engine_Generate_paths.
  destruct (time_Now w) as [start w0]. simpl snd.
  destruct (String.eqb_spec (Request_Prompt req) "") as [He|Hne].
  - simpl. intros [= <-]. left. tauto.
  - destruct (Engine_providers e !! "primary") as [p|] eqn:Hp.
    + destruct (Provider_Generate p (dispatched e req) w0)
        as [[pResp [perr|]] w1] eqn:Hg.
      * simpl. intros [= <-]. right. right. split; [assumption|].
        exists p. rewrite Hg. tauto.
      * destruct (time_Now w1). simpl. discriminate.
    + simpl. intros [= <-]. right. left. tauto.
Qed.

End EngineFacts.

(** ** Vector store *)

Section VectorFacts.
Context {F32 : Float32} {JS : Json} {RT : Runtime}.

Lemma length_zero_iff {A} (l : list A) : (Z.of_nat (length l) =? 0) = true <-> l = [].
Proof.
  destruct l; simpl; [tauto|]. split; [|discriminate].
  destruct (Z.eqb_spec (Z.of_nat (S (length l))) 0); [lia|discriminate].
Qed.

(** [Search], path by path, for a non-empty vector. *)
Lemma PgVectorStore_Search_query p vector limit w :
  vector <> [] ->
  PgVectorStore_Search p vector limit w =
  let '((rows, err), w') :=
    DB_QueryContext (PgVectorStore_db p)
      (searchQuery (PgVectorStore_table p) (vectorToSQL vector)
         (if limit <=? 0 then 5 else limit)) w in
  (match err with
   | Some err => ([], Some err)
   | None => scan_rows rows []
   end, w').
Proof.
  intros Hv. unfold PgVectorStore_Search, bind, ret.
  destruct (Z.of_nat (length vector) =? 0) eqn:E;
    [apply length_zero_iff in E; contradiction|].
  destruct (DB_QueryContext _ _ w) as [[rows [err|]] w']; reflexivity.
Qed.

Lemma Manager_Embed_ok m text :
  text <> "" ->
  exists emb, Manager_Embed m text = (emb, None) /\ length emb = 384%nat.
Proof.
  intros Hne. unfold Manager_Embed.
  destruct (String.eqb_spec text ""); [contradiction|].
  eexists. split; [reflexivity|]. now rewrite length_map, length_seqZ.
Qed.

(** C7, as the code has it. [Store] rejects a document with an empty
    identifier (missing-id error) and, next, one with an empty embedding
    (missing-vector error), in both cases without touching the database;
    every other document is written by one upsert statement whose outcome,
    success or error, is the outcome of [Store]. [Search] rejects an empty
    query vector without touching the database, and for every limit that
    is zero or negative it behaves exactly as for limit 5: the statement
    it sends ends in [LIMIT 5]. So [Recall] over this store behaves for
    limits 0 and -3 as for limit 5, and for any such limit and a
    non-empty query it sends one statement, with [LIMIT 5]. *)
Theorem Store_and_Search_validation (p : PgVectorStore) :
  (forall doc w,
     Document_ID doc = "" ->
     PgVectorStore_Store p doc w = (Some (errors_New "missing document id"), w))
  /\ (forall doc w,
        Document_ID doc <> "" -> Document_Vector doc = [] ->
        PgVectorStore_Store p doc w =
        (Some (errors_New "missing embedding vector"), w))
  /\ (forall doc w,
        Document_ID doc <> "" -> Document_Vector doc <> [] ->
        PgVectorStore_Store p doc w =
        DB_ExecContext (PgVectorStore_db p)
          (upsertQuery (PgVectorStore_table p) (vectorToSQL (Document_Vector doc)))
          [Document_ID doc; Document_Content doc; mapToJSON (Document_Meta doc)]
          w)
  /\ (forall limit w,
        PgVectorStore_Search p [] limit w =
        (([], Some (errors_New "empty query vector")), w))
  /\ (forall vector limit w,
        limit <= 0 ->
        PgVectorStore_Search p vector limit w = PgVectorStore_Search p vector 5 w)
  /\ (forall vector limit w,
        limit <= 0 -> vector <> [] ->
        PgVectorStore_Search p vector limit w =
        let '((rows, err), w') :=
          DB_QueryContext (PgVectorStore_db p)
            ("SELECT id, content, metadata" +:+ nl
             +:+ tab +:+ tab +:+ "FROM " +:+ PgVectorStore_table p +:+ nl
             +:+ tab +:+ tab +:+ "ORDER BY embedding <-> "
             +:+ vectorToSQL vector +:+ nl
             +:+ tab +:+ tab +:+ "LIMIT 5;") w in
        (match err with
         | Some err => ([], Some err)
         | None => scan_rows rows []
         end, w'))
  /\ (forall m query limit w,
        MemoryEngine_vector m = PgVectorStore_as_Store p ->
        limit <= 0 ->
        Recall m query limit w = Recall m query 5 w)
  /\ (forall m query w,
        MemoryEngine_vector m = PgVectorStore_as_Store p ->
        Recall m query 0 w = Recall m query 5 w
        /\ Recall m query (-3) w = Recall m query 5 w)
  /\ (forall m query limit w,
        MemoryEngine_vector m = PgVectorStore_as_Store p ->
        limit <= 0 -> query <> "" ->
        exists emb,
          Manager_Embed (MemoryEngine_llm m) query = (emb, None)
          /\ length emb = 384%nat
          /\ Recall m query limit w =
             let '((rows, err), w') :=
               DB_QueryContext (PgVectorStore_db p)
                 (searchQuery (PgVectorStore_table p) (vectorToSQL emb) 5) w in
             (match err with
              | Some err => (None, Some err)
              | None =>
                  match scan_rows rows [] with
                  | (_, Some err) => (None, Some err)
                  | (docs, None) =>
                      (Some (mkRetrievedMemory docs
                               (fold_left
                                  (fun acc d =>
                                     acc +:+ Document_Content d +:+ nl)
                                  docs "")),
                       None)
                  end
              end, w')).
Proof.
  assert (Hclamp : forall vector limit w,
             limit <= 0 ->
             PgVectorStore_Search p vector limit w
             = PgVectorStore_Search p vector 5 w).
  { intros vector limit w Hl. unfold PgVectorStore_Search.
    destruct (Z.leb_spec limit 0); [reflexivity|lia]. }
  assert (Hrecall : forall m query limit w,
             MemoryEngine_vector m = PgVectorStore_as_Store p ->
             limit <= 0 ->
             Recall m query limit w = Recall m query 5 w).
  { intros m query limit w Hm Hl. unfold Recall. rewrite Hm.
    destruct (String.eqb query ""); [reflexivity|].
    destruct (Manager_Embed (MemoryEngine_llm m) query) as [emb [err|]];
      [reflexivity|].
    unfold bind. simpl Store_Search. now rewrite (Hclamp emb limit w Hl). }
  repeat apply conj.
  - intros doc w Hid. unfold PgVectorStore_Store. now rewrite Hid.
  - intros doc w Hid Hv. unfold PgVectorStore_Store.
    destruct (String.eqb_spec (Document_ID doc) ""); [contradiction|].
    now rewrite Hv.
  - intros doc w Hid Hv. unfold PgVectorStore_Store.
    destruct (String.eqb_spec (Document_ID doc) ""); [contradiction|].
    destruct (Z.of_nat (length (Document_Vector doc)) =? 0) eqn:E;
      [apply length_zero_iff in E; contradiction|reflexivity].
  - reflexivity.
  - exact Hclamp.
  - intros vector limit w Hl Hv.
    rewrite (PgVectorStore_Search_query p vector limit w Hv).
    destruct (Z.leb_spec limit 0); [reflexivity|lia].
  - exact Hrecall.
  - intros m query w Hm. split; apply Hrecall; auto; lia.
  - intros m query limit w Hm Hl Hq.
    destruct (Manager_Embed_ok (MemoryEngine_llm m) query Hq) as (emb & He & Hlen).
    exists emb. split; [exact He|]. split; [exact Hlen|].
    assert (Hne : emb <> []) by (intros ->; discriminate Hlen).
    unfold Recall. rewrite Hm, He.
    destruct (String.eqb_spec query ""); [contradiction|].
    unfold bind, ret. simpl Store_Search.
    rewrite (PgVectorStore_Search_query p emb limit w Hne).
    destruct (Z.leb_spec limit 0); [|lia].
    destruct (DB_QueryContext _ _ w) as [[rows [err|]] w']; [reflexivity|].
    destruct (scan_rows rows []) as [docs [err|]]; reflexivity.
Qed.

End VectorFacts.

(** ** Memory engine *)

Section MemoryFacts.
Context {F32 : Float32} {JS : Json} {RT : Runtime}.

(** C8. [AppendSession] fails exactly when the session id is empty, and
    then before any store access. For a non-empty session id it reads the
    clock, reads the key [session:<id>], decodes the transcript found
    there (none when the value is empty, whatever the read reported),
    appends one message with the given role and content stamped with the
    time read, writes the transcript back under the same key with an
    expiry of 24 hours, and returns success whatever the read and the
    write returned. *)
Theorem AppendSession_best_effort
    (m : MemoryEngine) (sessionID role content : string) (w : World) :
  (sessionID = "" ->
   AppendSession m sessionID role content w =
   (Some (errors_New "missing session id"), w))
  /\ (fst (AppendSession m sessionID role content w) <> None <-> sessionID = "")
  /\ (sessionID <> "" ->
      let key := "session:" +:+ sessionID in
      let stamped := time_Now w in
      let got := RedisClient_Get (MemoryEngine_redis m) key (snd stamped) in
      let data := fst (fst got) in
      let updated := time_Now (snd got) in
      let old :=
        if String.eqb data "" then []
        else SessionMemory_Messages
               (fst (json_Unmarshal_SessionMemory data SessionMemory_zero)) in
      let session :=
        mkSessionMemory sessionID
          (old ++ [mkMemoryMessage role content (fst stamped)]) (fst updated) in
      AppendSession m sessionID role content w =
      (None,
       snd (RedisClient_Set (MemoryEngine_redis m) key
              (json_Marshal_SessionMemory session)
              (24 * 60 * 60 * 1000000000) (snd updated)))).
Proof.
  assert (Hok : sessionID <> "" ->
                fst (AppendSession m sessionID role content w) = None
                /\ AppendSession m sessionID role content w =
                   (None,
                    snd (RedisClient_Set (MemoryEngine_redis m)
                           ("session:" +:+ sessionID)
                           (json_Marshal_SessionMemory
                              (mkSessionMemory sessionID
                                 ((if String.eqb
                                        (fst (fst (RedisClient_Get
                                                     (MemoryEngine_redis m)
                                                     ("session:" +:+ sessionID)
                                                     (snd (time_Now w))))) ""
                                   then []
                                   else SessionMemory_Messages
                                          (fst (json_Unmarshal_SessionMemory
                                                  (fst (fst (RedisClient_Get
                                                     (MemoryEngine_redis m)
                                                     ("session:" +:+ sessionID)
                                                     (snd (time_Now w)))))
                                                  SessionMemory_zero)))
                                  ++ [mkMemoryMessage role content
                                        (fst (time_Now w))])
                                 (fst (time_Now
                                         (snd (RedisClient_Get
                                                 (MemoryEngine_redis m)
                                                 ("session:" +:+ sessionID)
                                                 (snd (time_Now w))))))))
                           (24 * 60 * 60 * 1000000000)
                           (snd (time_Now
                                   (snd (RedisClient_Get
                                           (MemoryEngine_redis m)
                                           ("session:" +:+ sessionID)
                                           (snd (time_Now w))))))))).
  { intros Hne. unfold AppendSession, bind, ret.
    destruct (String.eqb_spec sessionID ""); [contradiction|].
    destruct (time_Now w) as [now w1]. cbn [fst snd].
    destruct (RedisClient_Get _ ("session:" +:+ sessionID) w1)
      as [[data gerr] w2]. cbn [fst snd].
    destruct (time_Now w2) as [updatedAt w3]. cbn [fst snd].
    destruct (String.eqb data ""); simpl negb; cbv iota;
      destruct (RedisClient_Set _ _ _ _ w3); split; reflexivity. }
  split; [|split].
  - intros ->. reflexivity.
  - split.
    + intros Hfail. destruct (String.eqb_spec sessionID ""); [assumption|].
      now destruct (Hok n).
    + intros ->. discriminate.
  - intros Hne. exact (proj2 (Hok Hne)).
Qed.

(** [Recall] returns a result exactly when it returns no error. *)
Lemma Recall_result m query limit w :
  match fst (Recall m query limit w) with
  | (Some _, None) | (None, Some _) => True
  | _ => False
  end.
Proof.
  unfold Recall, bind, ret.
  destruct (String.eqb query ""); [exact I|].
  destruct (Manager_Embed _ query) as [emb [err|]]; [exact I|].
  destruct (Store_Search _ emb limit w) as [[docs [err|]] w']; exact I.
Qed.

(** [GetSession] finds nothing when the read fails or yields nothing. *)
Lemma GetSession_absent m sessionID w :
  let '((data, gerr), w1) :=
    RedisClient_Get (MemoryEngine_redis m) ("session:" +:+ sessionID) w in
  gerr <> None \/ data = "" ->
  GetSession m sessionID w =
  ((None, Some (errors_New "session not found")), w1).
Proof.
  unfold GetSession, bind, ret.
  destruct (RedisClient_Get _ _ w) as [[data gerr] w1].
  intros [Hg| ->].
  - destruct gerr; [reflexivity|contradiction].
  - rewrite orb_true_r. reflexivity.
Qed.

(** C5. [HybridContext] returns no error, whatever the session id, the
    query and the limit. Its text is the transcript lines of the session
    found, if any, followed by the semantic-memory section, if the recall
    succeeded: a session lookup that fails or finds nothing contributes no
    line, a failed recall contributes no section, and with no session and
    a successful recall the text is the section header followed by the
    recalled context and nothing else. *)
Theorem HybridContext_never_fails
    (m : MemoryEngine) (sessionID query : string) (limit : Z) (w : World) :
  let got :=
    RedisClient_Get (MemoryEngine_redis m) ("session:" +:+ sessionID) w in
  let looked := GetSession m sessionID w in
  let session := fst (fst looked) in
  let recalled := Recall m query limit (snd looked) in
  let recall := fst (fst recalled) in
  let rerr := snd (fst recalled) in
  let r := HybridContext m sessionID query limit w in
  snd (fst r) = None
  /\ snd r = snd recalled
  /\ (snd (fst got) <> None \/ fst (fst got) = "" -> session = None)
  /\ (session = None -> rerr <> None -> fst (fst r) = "")
  /\ (session = None -> rerr = None ->
      exists rm,
        recall = Some rm
        /\ fst (fst r) =
           nl +:+ "--- Semantic Memory ---" +:+ nl
           +:+ RetrievedMemory_Context rm)
  /\ (forall s, session = Some s -> rerr <> None ->
      fst (fst r) = transcript (SessionMemory_Messages s) "")
  /\ (forall s, session = Some s -> rerr = None ->
      exists rm,
        recall = Some rm
        /\ fst (fst r) =
           transcript (SessionMemory_Messages s) ""
           +:+ nl +:+ "--- Semantic Memory ---" +:+ nl
           +:+ RetrievedMemory_Context rm).
Proof.
  intros got looked session recalled recall rerr r.
  subst got looked session recalled recall rerr r.
  unfold HybridContext, bind, ret.
  pose proof (GetSession_absent m sessionID w) as Habs.
  destruct (RedisClient_Get _ _ w) as [[data gerr] w0].
  destruct (GetSession m sessionID w) as [[session serr] w1].
  pose proof (Recall_result m query limit w1) as Hshape. cbn [fst snd].
  destruct (Recall m query limit w1) as [[recall rerr] w2].
  cbn [fst snd] in *.
  split; [reflexivity|]. split; [reflexivity|]. split.
  { intros Hfail. specialize (Habs Hfail). congruence. }
  destruct session as [s0|], recall as [rm|], rerr as [e|];
    try contradiction; repeat split; intros;
    repeat match goal with
      | E : Some _ = Some _ |- _ => injection E as <-
      | E : Some _ = None |- _ => discriminate E
      | E : None = Some _ |- _ => discriminate E
      | E : ?x <> ?x |- _ => now elim E
      end;
    try (eexists; split; reflexivity); reflexivity.
Qed.

End MemoryFacts.

(** ** Orchestrator *)

Section OrchestratorFacts.
Context {F32 : Float32} {RT : Runtime}.

(** The loop appends one step per iteration, numbered from [i] upwards. *)
Lemma whyLoop_steps o n : forall i steps q w,
  match fst (whyLoop o n i steps q w) with
  | inl _ => True
  | inr (steps', _) =>
      exists new,
        steps' = (steps ++ new)%list /\ map Level new = seqZ i (Z.of_nat n)
  end.
Proof.
  induction n as [|n IH]; intros i steps q w.
  - simpl. exists []. split; [now rewrite app_nil_r|reflexivity].
  - cbn [whyLoop]. unfold bind, ret.
    destruct (Manager_Generate _ _ w) as [[resp [err|]] w1]; [exact I|].
    destruct (Manager_Generate _ _ w1) as [[analysisResp [err|]] w2]; [exact I|].
    destruct (Manager_Generate _ _ w2) as [[nextResp [err|]] w3]; [exact I|].
    specialize (IH (i + 1)
                  (steps ++ [mkFiveWhyStep i q (Response_Text resp)
                               (Response_Text analysisResp)])%list
                  (Response_Text nextResp) w3).
    destruct (whyLoop o n _ _ _ w3) as [[err|[steps' q']] w4]; [exact I|].
    simpl in IH |- *. destruct IH as (new & -> & Hlv).
    exists (mkFiveWhyStep i q (Response_Text resp) (Response_Text analysisResp)
              :: new).
    split; [now rewrite <- app_assoc|].
    simpl map. rewrite Hlv.
    rewrite (seqZ_cons i (Z.of_nat (S n))) by lia. f_equal. f_equal; lia.
Qed.


(** C1. [RunFiveWhy] returns either a session and no error, or an error
    and no session. A returned session has exactly five steps, their
    levels 1, 2, 3, 4, 5 in this order, carries the session id given, and
    its root cause, solution and reframed question are each what a
    successful parse left in a fresh record. *)
Theorem RunFiveWhy_all_or_nothing
    (o : Orchestrator) (sessionID userQuestion : string) (w : World) :
  match fst (RunFiveWhy o sessionID userQuestion w) with
  | (Some session, None) =>
      length (FiveWhySession_Steps session) = 5%nat
      /\ map Level (FiveWhySession_Steps session) = [1; 2; 3; 4; 5]
      /\ FiveWhySession_SessionID session = sessionID
      /\ (exists raw,
            ParseRootCause (Orchestrator_prompt o) raw RootCauseResult_zero
            = (FiveWhySession_RootCause session, None))
      /\ (exists raw,
            ParseSolution (Orchestrator_prompt o) raw SolutionResult_zero
            = (FiveWhySession_Solution session, None))
      /\ (exists raw,
            ParseReframe (Orchestrator_prompt o) raw ReframedQuestion_zero
            = (FiveWhySession_Reframed session, None))
  | (None, Some _) => True
  | (Some _, Some _) | (None, None) => False
  end.
Proof.
  unfold RunFiveWhy, bind, ret.
  destruct (String.eqb userQuestion ""); [exact I|].
  destruct (time_Now w) as [createdAt w0].
  pose proof (whyLoop_steps o 5 1 [] userQuestion w0) as Hloop.
  destruct (whyLoop o 5 1 [] userQuestion w0) as [[err|[steps q]] w1];
    [exact I|].
  simpl in Hloop. destruct Hloop as (new & -> & Hlv).
  destruct (Manager_Generate _ _ w1) as [[rcaResp [err|]] w2]; [exact I|].
  destruct (ParseRootCause _ (Response_Text rcaResp) _)
    as [rootCause [err|]] eqn:Prc; [exact I|].
  destruct (Manager_Generate _ _ w2) as [[solResp [err|]] w3]; [exact I|].
  destruct (ParseSolution _ (Response_Text solResp) _)
    as [solution [err|]] eqn:Psol; [exact I|].
  destruct (Manager_Generate _ _ w3) as [[reframeResp [err|]] w4]; [exact I|].
  destruct (ParseReframe _ (Response_Text reframeResp) _)
    as [reframed [err|]] eqn:Pref; [exact I|].
  destruct (Store_Store _ _ w4) as [e1 w5].
  destruct (Store_Store _ _ w5) as [e2 w6].
  destruct (Store_Store _ _ w6) as [e3 w7].
  cbn [fst FiveWhySession_Steps FiveWhySession_SessionID
       FiveWhySession_RootCause FiveWhySession_Solution FiveWhySession_Reframed].
  rewrite ?app_nil_l.
  split; [|split; [exact Hlv|split; [reflexivity|repeat split; eauto]]].
  rewrite <- (length_map Level), Hlv. reflexivity.
Qed.


(** The pgvector store refuses each of the three documents, since none
    carries an embedding, unless it refuses it for its empty identifier:
    the database is not reached. *)
Lemma PgVectorStore_refuses_unembedded (p : PgVectorStore) id content meta w :
  exists err,
    PgVectorStore_Store p (mkDocument id content [] meta) w = (Some err, w).
Proof.
  unfold PgVectorStore_Store. cbn [Document_ID Document_Vector].
  destruct (String.eqb id ""); eexists; reflexivity.
Qed.

End OrchestratorFacts.

(** * Further properties *)

(** ** Registration and routing *)

Section RegistrationFacts.
Context {F32 : Float32} {RT : Runtime}.

(** X1. Only the provider registered under the name [primary] is ever
    used. Registering a provider under any other name leaves every
    generation unchanged; registering one under [primary] makes every
    generation independent of whatever was registered before; and a
    second registration under a name replaces the first. *)
Theorem RegisterProvider_routing (e : Engine) (p : Provider) :
  (Provider_Name p <> "primary" ->
   forall req w,
     Engine_Generate (RegisterProvider e p) req w = Engine_Generate e req w)
  /\ (Provider_Name p = "primary" ->
      forall (others : gmap string Provider) req w,
        Engine_Generate (RegisterProvider e p) req w
        = Engine_Generate
            (RegisterProvider (mkEngine others (Engine_modelMap e)) p) req w)
  /\ (forall q,
        Provider_Name q = Provider_Name p ->
        RegisterProvider (RegisterProvider e q) p = RegisterProvider e p).
Proof.
  split; [|split].
  - intros Hn req w. rewrite !Engine_Generate_paths.
    unfold RegisterProvider. cbn [Engine_providers].
    rewrite lookup_insert_ne by assumption. reflexivity.
  - intros Hn others req w. rewrite !Engine_Generate_paths.
    unfold RegisterProvider. cbn [Engine_providers Engine_modelMap].
    rewrite Hn, !lookup_insert_eq. reflexivity.
  - intros q Hq. unfold RegisterProvider. cbn [Engine_providers Engine_modelMap].
    rewrite Hq, insert_insert_eq. reflexivity.
Qed.


End RegistrationFacts.

(** ** Manager *)

Section ManagerFacts.
Context {F32 : Float32} {RT : Runtime}.

(** [NewManager], case by case. *)
Lemma NewManager_cases cfg :
  let provider := ManagerConfig_Provider cfg in
  let built :=
    mkManager (RegisterProvider NewEngine (stubProvider (banner provider)))
      (ManagerConfig_Vector cfg) (ManagerConfig_Redis cfg)
      (ManagerConfig_Model cfg) (ManagerConfig_Embedding cfg) provider in
  (provider = "openai" /\ ManagerConfig_APIKey cfg = ""
   /\ NewManager cfg = (None, Some (errors_New "missing openai api key")))
  \/ (provider <> "openai" /\ provider <> "ollama" /\ provider <> "local"
      /\ NewManager cfg = (None, Some (errors_New "unsupported llm provider")))
  \/ ((provider = "openai" /\ ManagerConfig_APIKey cfg <> ""
       \/ provider = "ollama" \/ provider = "local")
      /\ NewManager cfg = (Some built, None)).
Proof.
  intros provider built. subst built. unfold NewManager, NewOpenAIProvider, banner.
  fold provider.
  destruct (String.eqb_spec provider "openai") as [Ho|Ho].
  - destruct (String.eqb_spec (ManagerConfig_APIKey cfg) "") as [Hk|Hk].
    + left. auto.
    + right. right. split; [auto|reflexivity].
  - destruct (String.eqb_spec provider "ollama") as [Hl|Hl].
    + right. right. split; [auto|reflexivity].
    + destruct (String.eqb_spec provider "local") as [Hc|Hc].
      * right. right. split; [auto|reflexivity].
      * right. left. auto.
Qed.

(** X3. [NewManager] returns a manager or an error, never both and never
    neither. It fails exactly for provider [openai] with an empty API key
    (missing-key error) and for a provider other than [openai], [ollama]
    and [local] (unsupported-provider error). A manager it returns carries
    the stores and names of the configuration, the model table of
    [NewEngine], and exactly one provider, registered as [primary]: the
    stub of the configured back end. *)
Theorem NewManager_outcome (cfg : ManagerConfig) :
  let provider := ManagerConfig_Provider cfg in
  match NewManager cfg with
  | (Some m, None) =>
      (provider = "openai" /\ ManagerConfig_APIKey cfg <> ""
       \/ provider = "ollama" \/ provider = "local")
      /\ Engine_providers (Manager_engine m)
         = <["primary" := stubProvider (banner provider)]> ∅
      /\ Engine_modelMap (Manager_engine m) = Engine_modelMap NewEngine
      /\ Manager_vector m = ManagerConfig_Vector cfg
      /\ Manager_redis m = ManagerConfig_Redis cfg
      /\ Manager_model m = ManagerConfig_Model cfg
      /\ Manager_embed m = ManagerConfig_Embedding cfg
      /\ Manager_provider m = provider
  | (None, Some err) =>
      (provider = "openai" /\ ManagerConfig_APIKey cfg = ""
       /\ err = errors_New "missing openai api key")
      \/ (provider <> "openai" /\ provider <> "ollama" /\ provider <> "local"
          /\ err = errors_New "unsupported llm provider")
  | (Some _, Some _) | (None, None) => False
  end.
Proof.
  intros provider.
  destruct (NewManager_cases cfg) as [(Hp & Hk & ->)|[(H1 & H2 & H3 & ->)|[Hp ->]]].
  - left. auto.
  - right. auto.
  - repeat split; auto.
Qed.

(** X4. A manager built by [NewManager] fails a generation exactly when
    the prompt is empty. For a non-empty prompt the response is the banner
    of the configured back end, a line break and the prompt; it reports
    128 tokens, the provider [primary], the model the request was
    dispatched with, the time between the two clock reads as latency, and
    the confidence of its own text. *)
Theorem NewManager_Generate (cfg : ManagerConfig) (m : Manager) (req : Request)
    (w : World) :
  NewManager cfg = (Some m, None) ->
  let r := fst (Manager_Generate m req w) in
  (snd r <> None <-> Request_Prompt req = "")
  /\ (Request_Prompt req = "" ->
      r = (Response_zero, Some (errors_New "empty prompt")))
  /\ (Request_Prompt req <> "" ->
      let text :=
        banner (ManagerConfig_Provider cfg) +:+ nl +:+ Request_Prompt req in
      r = (mkResponse text 128
             (fst (time_Now (snd (time_Now w))) - fst (time_Now w))
             "primary"
             (ProviderRequest_Model (dispatched NewEngine req))
             (EstimateConfidence (Request_Mode req) text),
           None)).
Proof.
  intros Hnew r.
  destruct (NewManager_cases cfg) as [(_ & _ & E)|[(_ & _ & _ & E)|[_ E]]];
    rewrite E in Hnew; try discriminate Hnew.
  injection Hnew as <-. clear E.
  assert (Hr : r =
               if String.eqb (Request_Prompt req) "" then
                 (Response_zero, Some (errors_New "empty prompt"))
               else
                 (mkResponse
                    (banner (ManagerConfig_Provider cfg) +:+ nl
                     +:+ Request_Prompt req) 128
                    (fst (time_Now (snd (time_Now w))) - fst (time_Now w))
                    "primary"
                    (ProviderRequest_Model (dispatched NewEngine req))
                    (EstimateConfidence (Request_Mode req)
                       (banner (ManagerConfig_Provider cfg) +:+ nl
                        +:+ Request_Prompt req)),
                  None)).
  { subst r. unfold Manager_Generate, bind, ret. cbn [Manager_engine].
    rewrite Engine_Generate_paths.
    unfold RegisterProvider. cbn [Engine_providers stubProvider Provider_Name].
    rewrite lookup_insert_eq.
    destruct (time_Now w) as [start w0]. cbn [fst snd].
    destruct (String.eqb (Request_Prompt req) ""); [reflexivity|].
    unfold stubProvider, ret. cbn [Provider_Generate Provider_Name].
    destruct (time_Now w0) as [now w1]. cbn [fst snd].
    cbn [ProviderResponse_Text ProviderResponse_Tokens ProviderResponse_Model].
    match goal with
    | |- context [storeMemory ?a ?b ?c ?d] =>
        destruct (storeMemory a b c d) as [serr w2]
    end. reflexivity. }
  rewrite Hr. clear Hr.
  destruct (String.eqb_spec (Request_Prompt req) "") as [He|Hne]; cbn [snd].
  - split; [split; [auto|discriminate]|]. split; [auto|tauto].
  - split; [split; [intros H; now elim H|tauto]|]. split; [tauto|].
    intros _. reflexivity.
Qed.

(** X5. The memory hooks of [Manager.Generate] are best effort. The
    result is the result of the engine, whatever the stores answer. When
    the engine fails no hook runs; without stores nothing runs after the
    engine. Otherwise the text is first written to the key/value store,
    if there is one, under [llm:last_response] with an expiry of 30
    minutes; then, if there is a vector store, the clock is read and one
    document is handed over: its id the formatted time, its content the
    text, no embedding, and as metadata the mode of the request as the
    caller gave it (unset when the caller gave none), the provider and the
    model. *)
Theorem Manager_Generate_hooks (m : Manager) (req : Request) (w : World) :
  let eng := Engine_Generate (Manager_engine m) req w in
  let r := Manager_Generate m req w in
  fst r = fst eng
  /\ (snd (fst eng) <> None -> snd r = snd eng)
  /\ (Manager_redis m = None -> Manager_vector m = None -> r = eng)
  /\ (snd (fst eng) = None ->
      let resp := fst (fst eng) in
      let w1 :=
        match Manager_redis m with
        | Some redis =>
            snd (RedisClient_Set redis "llm:last_response" (Response_Text resp)
                   (30 * 60 * 1000000000) (snd eng))
        | None => snd eng
        end in
      snd r =
      match Manager_vector m with
      | Some vector =>
          snd (Store_Store vector
                 (mkDocument (time_Format (fst (time_Now w1)))
                    (Response_Text resp) []
                    (<["mode" := Request_Mode req]>
                    (<["provider" := Response_Provider resp]>
                    (<["model" := Response_Model resp]> ∅))))
                 (snd (time_Now w1)))
      | None => w1
      end).
Proof.
  intros eng r. subst eng r.
  assert (Hzero : forall err,
             snd (fst (Engine_Generate (Manager_engine m) req w)) = Some err ->
             fst (fst (Engine_Generate (Manager_engine m) req w)) = Response_zero).
  { intros err. rewrite Engine_Generate_paths.
    destruct (time_Now w) as [start w0].
    destruct (String.eqb (Request_Prompt req) ""); [reflexivity|].
    destruct (Engine_providers _ !! "primary") as [p|]; [|reflexivity].
    destruct (Provider_Generate p _ w0) as [[pResp [perr|]] w1]; [reflexivity|].
    destruct (time_Now w1). discriminate. }
  unfold Manager_Generate, storeMemory, generateID, bind, ret.
  destruct (Engine_Generate (Manager_engine m) req w) as [[resp [err|]] w0].
  - cbn [fst snd] in *. rewrite (Hzero err eq_refl).
    repeat split; intros; congruence.
  - cbn [fst snd]. clear Hzero.
    destruct (Manager_redis m) as [redis|], (Manager_vector m) as [vector|].
    + destruct (RedisClient_Set redis _ _ _ w0) as [e1 w1]. cbn [fst snd].
      destruct (time_Now w1) as [t w2]. cbn [fst snd].
      destruct (Store_Store vector _ w2) as [e2 w3]. cbn [fst snd].
      repeat split; intros; congruence.
    + destruct (RedisClient_Set redis _ _ _ w0) as [e1 w1]. cbn [fst snd].
      repeat split; intros; congruence.
    + destruct (time_Now w0) as [t w2]. cbn [fst snd].
      destruct (Store_Store vector _ w2) as [e2 w3]. cbn [fst snd].
      repeat split; intros; congruence.
    + repeat split; intros; congruence.
Qed.

(** X6. [Embed] fails exactly on the empty text. Every embedding it
    returns has 384 entries, entry [i] being the byte length of the text
    divided by [i + 1]; so the embedding depends on the length of the text
    alone, and on nothing of the manager. *)
Theorem Manager_Embed_shape (m : Manager) (text : string) :
  (snd (Manager_Embed m text) <> None <-> text = "")
  /\ (text = "" -> Manager_Embed m text = ([], Some (errors_New "empty text")))
  /\ (text <> "" ->
      snd (Manager_Embed m text) = None
      /\ length (fst (Manager_Embed m text)) = 384%nat
      /\ forall i : nat,
           (i < 384)%nat ->
           fst (Manager_Embed m text) !! i
           = Some (float32_div (float32_of_int (len text))
                     (float32_of_int (Z.of_nat i + 1))))
  /\ (forall (m' : Manager) (text' : string),
        len text' = len text -> Manager_Embed m' text' = Manager_Embed m text).
Proof.
  unfold Manager_Embed.
  split; [|split; [|split]].
  - destruct (String.eqb_spec text ""); cbn [snd]; split; auto;
      try discriminate; try contradiction; intros H; now elim H.
  - intros ->. reflexivity.
  - intros Hne. destruct (String.eqb_spec text ""); [contradiction|]. cbn [fst snd].
    split; [reflexivity|]. split; [now rewrite length_map, length_seqZ|].
    intros i Hi. rewrite list_lookup_fmap.
    rewrite (lookup_seqZ_lt 0 384 i) by lia. cbn [fmap option_fmap option_map].
    reflexivity.
  - intros m' text' Hlen.
    assert (Hempty : forall s, len s = 0 <-> s = "").
    { intros s. unfold len. destruct s; simpl; split; auto; try discriminate; lia. }
    destruct (String.eqb_spec text ""), (String.eqb_spec text' ""); subst;
      try reflexivity.
    + change (len "") with 0 in Hlen. apply Hempty in Hlen. contradiction.
    + change (len "") with 0 in Hlen. symmetry in Hlen. apply Hempty in Hlen.
      contradiction.
    + now rewrite Hlen.
Qed.

(** X7. Over the pgvector store the memory hook of the manager never
    reaches the database: the document it builds carries no embedding, so
    the store refuses it, and the hook reports success all the same. With
    no key/value store configured the hook only reads the clock. *)
Theorem storeMemory_never_reaches_pgvector
    (m : Manager) (p : PgVectorStore) (req : Request) (resp : Response)
    (w : World) :
  Manager_vector m = Some (PgVectorStore_as_Store p) ->
  fst (storeMemory m req resp w) = None
  /\ (Manager_redis m = None ->
      snd (storeMemory m req resp w) = snd (time_Now w))
  /\ (forall redis,
        Manager_redis m = Some redis ->
        snd (storeMemory m req resp w)
        = snd (time_Now
                 (snd (RedisClient_Set redis "llm:last_response"
                         (Response_Text resp) (30 * time_Minute) w)))).
Proof.
  intros Hv. unfold storeMemory, generateID, bind, ret. rewrite Hv.
  cbn [PgVectorStore_as_Store Store_Store].
  assert (Hrefuse : forall id content meta w',
             snd (PgVectorStore_Store p (mkDocument id content [] meta) w') = w').
  { intros id content meta w'.
    destruct (PgVectorStore_refuses_unembedded p id content meta w') as [err ->].
    reflexivity. }
  destruct (Manager_redis m) as [redis|].
  - destruct (RedisClient_Set redis _ _ _ w) as [e1 w1] eqn:Hset.
    destruct (time_Now w1) as [t w2] eqn:Hnow.
    pose proof (Hrefuse (time_Format t) (Response_Text resp)
                  (<["mode" := Request_Mode req]>
                  (<["provider" := Response_Provider resp]>
                  (<["model" := Response_Model resp]> ∅))) w2) as Hr.
    destruct (PgVectorStore_Store p _ w2) as [e2 w3]. cbn [fst snd] in *.
    split; [reflexivity|]. split; [discriminate|].
    intros redis' [= <-]. rewrite Hset. cbn [snd]. rewrite Hnow. exact Hr.
  - destruct (time_Now w) as [t w2] eqn:Hnow.
    pose proof (Hrefuse (time_Format t) (Response_Text resp)
                  (<["mode" := Request_Mode req]>
                  (<["provider" := Response_Provider resp]>
                  (<["model" := Response_Model resp]> ∅))) w2) as Hr.
    destruct (PgVectorStore_Store p _ w2) as [e2 w3]. cbn [fst snd] in *.
    split; [reflexivity|]. split; [intros _; exact Hr|discriminate].
Qed.

End ManagerFacts.

(** ** Recall and search *)

Section RecallFacts.
Context {F32 : Float32} {JS : Json} {RT : Runtime}.

Lemma fold_left_lines (docs : list Document) (acc : string) :
  fold_left (fun acc d => acc +:+ Document_Content d +:+ nl) docs acc
  = acc +:+ contextLines docs.
Proof.
  revert acc. induction docs as [|d docs IH]; intros acc; simpl.
  - now rewrite app_nil_r_string.
  - rewrite IH. now rewrite !app_assoc_string.
Qed.

Lemma scan_rows_app (rows : list Row) (acc : list Document) :
  Forall (fun row => snd row = None) rows ->
  scan_rows rows acc = ((acc ++ map rowDocument rows)%list, None).
Proof.
  intros Hall. revert acc. induction Hall as [|[[[id content] meta] err] rows Hr _ IH];
    intros acc; simpl.
  - now rewrite app_nil_r.
  - simpl in Hr. subst err. rewrite IH. now rewrite <- app_assoc.
Qed.

Lemma scan_rows_fail (good : list Row) bad err rest (acc : list Document) :
  Forall (fun row => snd row = None) good ->
  scan_rows (good ++ (bad, Some err) :: rest)%list acc = ([], Some err).
Proof.
  intros Hall. revert acc. induction Hall as [|[[[id content] meta] e] rows Hr _ IH];
    intros acc; simpl.
  - now destruct bad as [[id content] meta].
  - simpl in Hr. subst e. apply IH.
Qed.

Lemma scan_rows_unembedded (rows : list Row) : forall acc docs,
  scan_rows rows acc = (docs, None) ->
  Forall (fun d => Document_Vector d = []) acc ->
  Forall (fun d => Document_Vector d = []) docs.
Proof.
  induction rows as [|[[[id content] meta] [e|]] rows IH]; intros acc docs; simpl.
  - now intros [= <-].
  - discriminate.
  - intros Hs Hacc. apply (IH _ _ Hs). apply Forall_app. split; [assumption|].
    now repeat constructor.
Qed.

(** X8. [Recall] rejects the empty query before anything else happens.
    For a non-empty query it searches once, with the 384-entry embedding
    of the query and the limit given; the error of the search is its
    error; on success it returns the documents found, in order, and as
    context their contents, one per line. The query enters through its
    embedding only, so queries of equal length recall the same. *)
Theorem Recall_outcomes (m : MemoryEngine) (query : string) (limit : Z)
    (w : World) :
  (query = "" -> Recall m query limit w = ((None, Some (errors_New "empty query")), w))
  /\ (query <> "" ->
      let emb := fst (Manager_Embed (MemoryEngine_llm m) query) in
      let s := Store_Search (MemoryEngine_vector m) emb limit w in
      length emb = 384%nat
      /\ snd (Recall m query limit w) = snd s
      /\ fst (Recall m query limit w) =
         match snd (fst s) with
         | Some err => (None, Some err)
         | None =>
             (Some (mkRetrievedMemory (fst (fst s)) (contextLines (fst (fst s)))),
              None)
         end)
  /\ (forall query' : string,
        len query' = len query ->
        Recall m query' limit w = Recall m query limit w).
Proof.
  split; [|split].
  - intros ->. reflexivity.
  - intros Hne emb s. subst emb s.
    destruct (Manager_Embed_ok (MemoryEngine_llm m) query Hne) as (emb & He & Hlen).
    unfold Recall, bind, ret. rewrite He. cbn [fst].
    destruct (String.eqb_spec query ""); [contradiction|].
    destruct (Store_Search _ emb limit w) as [[docs [err|]] w']; cbn [fst snd];
      [auto|].
    rewrite fold_left_lines, app_nil_string. auto.
  - intros query' Hlen.
    assert (Hempty : forall s, len s = 0 <-> s = "").
    { intros s. unfold len. destruct s; simpl; split; auto; try discriminate; lia. }
    unfold Recall.
    destruct (String.eqb_spec query' "") as [->|Hq'],
             (String.eqb_spec query "") as [->|Hq]; try reflexivity.
    + change (len "") with 0 in Hlen. symmetry in Hlen. apply Hempty in Hlen.
      contradiction.
    + change (len "") with 0 in Hlen. apply Hempty in Hlen. contradiction.
    + unfold Manager_Embed.
      destruct (String.eqb_spec query' ""), (String.eqb_spec query "");
        try contradiction.
      now rewrite Hlen.
Qed.

(** X9. The result of [Search] for a query the database answers: one
    document per row, in the order of the rows, with the identifier and
    content of the row, the metadata decoded from its third column, and no
    embedding; if the scan of a row fails, the error of the first such row
    and no document. A document returned by [Search] therefore never
    passes the validation of [Store] as it is. *)
Theorem Search_results (p : PgVectorStore) (vector : list float32) (limit : Z)
    (w : World) :
  vector <> [] ->
  let q :=
    DB_QueryContext (PgVectorStore_db p)
      (searchQuery (PgVectorStore_table p) (vectorToSQL vector)
         (if limit <=? 0 then 5 else limit)) w in
  let rows := fst (fst q) in
  let r := PgVectorStore_Search p vector limit w in
  snd r = snd q
  /\ (forall err, snd (fst q) = Some err -> fst r = ([], Some err))
  /\ (snd (fst q) = None ->
      Forall (fun row => snd row = None) rows ->
      fst r = (map rowDocument rows, None))
  /\ (snd (fst q) = None ->
      forall good bad err rest,
        rows = (good ++ (bad, Some err) :: rest)%list ->
        Forall (fun row => snd row = None) good ->
        fst r = ([], Some err))
  /\ (forall docs,
        fst r = (docs, None) ->
        Forall (fun d => Document_Vector d = []) docs
        /\ forall d w',
             In d docs ->
             exists err, PgVectorStore_Store p d w' = (Some err, w')).
Proof.
  intros Hv q rows r. subst r rows q.
  rewrite (PgVectorStore_Search_query p vector limit w Hv).
  destruct (DB_QueryContext _ _ w) as [[rows [qerr|]] w']. cbn [fst snd].
  - split; [reflexivity|]. split; [now intros err [= <-]|].
    split; [discriminate|]. split; [discriminate|]. intros docs [=].
  - cbn [fst snd]. split; [reflexivity|]. split; [discriminate|].
    split; [intros _ Hall; now rewrite (scan_rows_app rows [] Hall)|].
    split; [intros _ good bad err rest -> Hall; now apply scan_rows_fail|].
    intros docs Hs.
    assert (Hun : Forall (fun d => Document_Vector d = []) docs).
    { apply (scan_rows_unembedded rows [] docs); [assumption|constructor]. }
    split; [assumption|]. intros d w0 Hin.
    rewrite Forall_forall in Hun. specialize (Hun d).
    destruct d as [id content vec meta]. cbn in Hun.
    rewrite Hun by (apply list_elem_of_In; assumption).
    apply PgVectorStore_refuses_unembedded.
Qed.

End RecallFacts.

(** ** Metadata text *)

Section MetadataFacts.
Context {F32 : Float32} {RT : Runtime}.

Lemma free_of_cons cutset a s :
  free_of cutset (String a s) <-> in_cutset cutset a = false /\ free_of cutset s.
Proof.
  unfold free_of. simpl. split.
  - intros H. split; [apply H; auto|]. intros c Hc. apply H. auto.
  - intros [Ha Hs] c [<-|Hc]; auto.
Qed.

Lemma free_of_nil cutset : free_of cutset "".
Proof. intros c []. Qed.

Lemma free_of_app cutset s1 s2 :
  free_of cutset (s1 +:+ s2) <-> free_of cutset s1 /\ free_of cutset s2.
Proof.
  unfold free_of. split.
  - intros H. split; intros c Hc; apply H; rewrite occurs_app; auto.
  - intros [H1 H2] c Hc. rewrite occurs_app in Hc. destruct Hc; auto.
Qed.

Lemma free_of_weaken c cutset s :
  free_of cutset s -> in_cutset cutset c = true -> free_of (String c "") s.
Proof.
  intros H Hc a Ha. specialize (H a Ha). unfold in_cutset. simpl.
  destruct (Ascii.eqb_spec a c) as [->|]; [congruence|reflexivity].
Qed.

(** Trimming a cutset byte off both ends of a text free of the cutset. *)
Lemma trim_left_free cutset s x :
  free_of cutset s -> s <> "" ->
  trim_left_cutset cutset (s +:+ x) = s +:+ x.
Proof.
  intros Hs Hne. destruct s as [|a s]; [contradiction|].
  rewrite app_cons_string. simpl.
  apply free_of_cons in Hs. destruct Hs as [-> _]. reflexivity.
Qed.

Lemma free_of_rev cutset s : free_of cutset s -> free_of cutset (rev_string s).
Proof.
  induction s as [|a s IH]; intros H; [exact H|].
  apply free_of_cons in H. destruct H as [Ha Hs]. simpl.
  apply free_of_app. split; [auto|]. apply free_of_cons. split; [assumption|].
  apply free_of_nil.
Qed.

Lemma rev_string_nil_inv s : rev_string s = "" -> s = "".
Proof.
  destruct s as [|a s]; [reflexivity|]. simpl.
  destruct (rev_string s); discriminate.
Qed.

Lemma Trim_wrapped (c : ascii) s :
  free_of (String c "") s ->
  strings_Trim (String c "" +:+ s +:+ String c "") (String c "") = s.
Proof.
  intros Hs.
  assert (Hc : in_cutset (String c "") c = true).
  { unfold in_cutset. simpl. now rewrite Ascii.eqb_refl. }
  unfold strings_Trim. rewrite app_cons_string, app_nil_string.
  cbn [trim_left_cutset]. rewrite Hc.
  destruct s as [|a s].
  - rewrite app_nil_string. cbn [trim_left_cutset]. rewrite Hc. reflexivity.
  - rewrite (trim_left_free (String c "") (String a s) (String c "") Hs)
      by discriminate.
    rewrite rev_string_app. change (rev_string (String c "")) with (String c "").
    rewrite app_cons_string, app_nil_string. cbn [trim_left_cutset].
    rewrite Hc.
    rewrite <- (app_nil_r_string (rev_string (String a s))).
    rewrite trim_left_free.
    + rewrite app_nil_r_string. apply rev_string_involutive.
    + now apply free_of_rev.
    + intros E. apply rev_string_nil_inv in E. discriminate.
Qed.

Lemma Split_free (sep : ascii) s :
  free_of (String sep "") s -> strings_Split s sep = [s].
Proof.
  induction s as [|a s IH]; intros H; [reflexivity|].
  apply free_of_cons in H. destruct H as [Ha Hs]. simpl.
  unfold in_cutset in Ha. simpl in Ha. rewrite orb_false_r in Ha. rewrite Ha.
  now rewrite (IH Hs).
Qed.

Lemma Split_app (sep : ascii) s rest :
  free_of (String sep "") s ->
  strings_Split (s +:+ String sep rest) sep = s :: strings_Split rest sep.
Proof.
  induction s as [|a s IH]; intros H.
  - rewrite app_nil_string. simpl. now rewrite Ascii.eqb_refl.
  - apply free_of_cons in H. destruct H as [Ha Hs].
    rewrite app_cons_string. simpl.
    unfold in_cutset in Ha. simpl in Ha. rewrite orb_false_r in Ha. rewrite Ha.
    now rewrite (IH Hs).
Qed.

Lemma SplitN2_app (sep : ascii) s rest :
  free_of (String sep "") s ->
  strings_SplitN2 (s +:+ String sep rest) sep = [s; rest].
Proof.
  induction s as [|a s IH]; intros H.
  - rewrite app_nil_string. simpl. now rewrite Ascii.eqb_refl.
  - apply free_of_cons in H. destruct H as [Ha Hs].
    rewrite app_cons_string. simpl.
    unfold in_cutset in Ha. simpl in Ha. rewrite orb_false_r in Ha. rewrite Ha.
    now rewrite (IH Hs).
Qed.

Lemma Split_Join (sep : ascii) (xs : list string) :
  xs <> [] ->
  Forall (free_of (String sep "")) xs ->
  strings_Split (strings_Join xs (String sep "")) sep = xs.
Proof.
  intros Hne Hall. induction Hall as [|x xs Hx Hxs IH]; [contradiction|].
  destruct xs as [|y xs].
  - simpl. now apply Split_free.
  - change (strings_Join (x :: y :: xs) (String sep ""))
      with (x +:+ String sep "" +:+ strings_Join (y :: xs) (String sep "")).
    rewrite app_cons_string, app_nil_string.
    rewrite (Split_app sep x _ Hx). f_equal. apply IH. discriminate.
Qed.

Lemma entry_decodes (k v : string) (res : gmap string string) :
  free_of keyBytes k -> free_of valueBytes v ->
  match strings_SplitN2 (entryJSON (k, v)) ":" with
  | [k'; v'] => <[strings_Trim k' quote := strings_Trim v' quote]> res
  | _ => res
  end = <[k := v]> res.
Proof.
  intros Hk Hv. unfold entryJSON. cbn [fst snd].
  replace (quote +:+ k +:+ quote +:+ ":" +:+ quote +:+ v +:+ quote)
    with ((quote +:+ k +:+ quote) +:+ String ":"%char (quote +:+ v +:+ quote))
    by (now rewrite !app_assoc_string).
  rewrite SplitN2_app.
  - unfold quote.
    rewrite (Trim_wrapped (ascii_of_nat 34) k), (Trim_wrapped (ascii_of_nat 34) v);
      [reflexivity| |].
    + apply (free_of_weaken _ valueBytes); [assumption|reflexivity].
    + apply (free_of_weaken _ keyBytes); [assumption|reflexivity].
  - rewrite !free_of_app. repeat split.
    + intros c [<-|[]]. reflexivity.
    + apply (free_of_weaken _ keyBytes); [assumption|reflexivity].
    + intros c [<-|[]]. reflexivity.
Qed.

Lemma entry_comma_free (k v : string) :
  free_of keyBytes k -> free_of valueBytes v ->
  free_of "," (entryJSON (k, v)).
Proof.
  intros Hk Hv. unfold entryJSON. cbn [fst snd]. rewrite !free_of_app.
  repeat split; try (intros c [<-|[]]; reflexivity).
  - apply (free_of_weaken _ keyBytes); [assumption|reflexivity].
  - apply (free_of_weaken _ valueBytes); [assumption|reflexivity].
Qed.

Lemma fold_entries (l : list (string * string)) (res : gmap string string) :
  Forall (fun kv => free_of keyBytes kv.1 /\ free_of valueBytes kv.2) l ->
  fold_left
    (fun res p =>
       match strings_SplitN2 p ":" with
       | [k; v] => <[strings_Trim k quote := strings_Trim v quote]> res
       | _ => res
       end)
    (map entryJSON l) res
  = fold_left (fun res kv => <[kv.1 := kv.2]> res) l res.
Proof.
  intros Hall. revert res. induction Hall as [|[k v] l [Hk Hv] _ IH]; intros res.
  - reflexivity.
  - cbn [map fold_left]. rewrite (entry_decodes k v res Hk Hv). apply IH.
Qed.

Lemma fold_insert_union (l : list (string * string)) :
  forall acc : gmap string string,
    NoDup (l.*1) ->
    (forall k, k ∈ l.*1 -> acc !! k = None) ->
    fold_left (fun res kv => <[kv.1 := kv.2]> res) l acc = list_to_map l ∪ acc.
Proof.
  induction l as [|[k v] l IH]; intros acc Hnd Hfresh.
  - simpl. now rewrite (left_id_L ∅ (∪)).
  - cbn [fold_left fst snd list_to_map foldr]. cbn in Hnd.
    apply NoDup_cons in Hnd. destruct Hnd as [Hk Hnd].
    rewrite IH.
    + rewrite <- insert_union_l. rewrite <- insert_union_r; [reflexivity|].
      now apply not_elem_of_list_to_map_1.
    + assumption.
    + intros k' Hin. rewrite lookup_insert_ne by (intros ->; contradiction).
      apply Hfresh. cbn. now right.
Qed.

Lemma fold_insert_to_map (l : list (string * string)) :
  NoDup (l.*1) ->
  fold_left (fun res kv => <[kv.1 := kv.2]> res) l (∅ : gmap string string)
  = list_to_map l.
Proof.
  intros Hnd. rewrite fold_insert_union; [|assumption|intros; apply lookup_empty].
  now rewrite (right_id_L ∅ (∪)).
Qed.

Lemma Join_entries_wrapped (l : list (string * string)) :
  l <> [] ->
  exists body,
    strings_Join (map entryJSON l) "," = quote +:+ body +:+ quote.
Proof.
  induction l as [|[k v] l IH]; [contradiction|]. intros _.
  destruct l as [|kv l].
  - simpl. unfold entryJSON. cbn [fst snd].
    exists (k +:+ quote +:+ ":" +:+ quote +:+ v).
    now rewrite !app_assoc_string.
  - destruct (IH ltac:(discriminate)) as (body & E).
    change (strings_Join (map entryJSON ((k, v) :: kv :: l)) ",")
      with (entryJSON (k, v) +:+ "," +:+ strings_Join (map entryJSON (kv :: l)) ",").
    rewrite E. unfold entryJSON. cbn [fst snd].
    exists (k +:+ quote +:+ ":" +:+ quote +:+ v +:+ quote +:+ "," +:+ quote
            +:+ body).
    now rewrite !app_assoc_string.
Qed.

Lemma Trim_braces body :
  strings_Trim ("{" +:+ (quote +:+ body +:+ quote) +:+ "}") "{}"
  = quote +:+ body +:+ quote.
Proof.
  unfold strings_Trim.
  change ("{" +:+ (quote +:+ body +:+ quote) +:+ "}")
    with (String "{"%char (String (ascii_of_nat 34) ((body +:+ quote) +:+ "}"))).
  cbn [trim_left_cutset]. change (in_cutset "{}" "{"%char) with true.
  change (in_cutset "{}" (ascii_of_nat 34)) with false. cbv iota.
  change (String (ascii_of_nat 34) ((body +:+ quote) +:+ "}"))
    with ((quote +:+ body +:+ quote) +:+ "}").
  rewrite rev_string_app. change (rev_string "}") with "}".
  rewrite <- app_assoc_string. rewrite rev_string_app.
  change (rev_string quote) with quote.
  change ("}" +:+ quote +:+ rev_string (quote +:+ body))
    with (String "}"%char (String (ascii_of_nat 34) (rev_string (quote +:+ body)))).
  cbn [trim_left_cutset]. change (in_cutset "{}" "}"%char) with true.
  change (in_cutset "{}" (ascii_of_nat 34)) with false. cbv iota.
  change (String (ascii_of_nat 34) (rev_string (quote +:+ body)))
    with (rev_string quote +:+ rev_string (quote +:+ body)).
  rewrite <- rev_string_app. apply rev_string_involutive.
Qed.

(** Decoding the text of any list of plain entries with distinct keys. *)
Lemma jsonToMap_entries (l : list (string * string)) :
  NoDup (l.*1) ->
  Forall (fun kv => free_of keyBytes kv.1 /\ free_of valueBytes kv.2) l ->
  jsonToMap ("{" +:+ strings_Join (map entryJSON l) "," +:+ "}") = list_to_map l.
Proof.
  intros Hnd Hall. unfold jsonToMap.
  destruct l as [|kv l]; [reflexivity|].
  set (l0 := kv :: l) in *.
  assert (Hne : l0 <> []) by discriminate.
  destruct (Join_entries_wrapped l0 Hne) as (body & EJ).
  rewrite EJ.
  assert (Hlen : (len ("{" +:+ (quote +:+ body +:+ quote) +:+ "}") =? 0) = false).
  { rewrite app_cons_string, len_cons.
    pose proof (len_nonneg ("" +:+ (quote +:+ body +:+ quote) +:+ "}")).
    destruct (Z.eqb_spec (len ("" +:+ (quote +:+ body +:+ quote) +:+ "}") + 1) 0);
      [lia|reflexivity]. }
  rewrite Hlen, Trim_braces.
  change (String.eqb (quote +:+ body +:+ quote) "") with false. cbv iota.
  rewrite <- EJ.
  rewrite (Split_Join ","%char (map entryJSON l0)).
  - rewrite (fold_entries _ ∅ Hall). now apply fold_insert_to_map.
  - discriminate.
  - apply Forall_fmap. eapply Forall_impl; [exact Hall|].
    intros [k v] [Hk Hv]. now apply entry_comma_free.
Qed.

(** X10. Metadata survives the round trip through the database text:
    for a map whose keys hold no comma, colon or double quote and whose
    values hold no comma or double quote, decoding the text that
    [mapToJSON] writes gives the map back, and this in whatever order the
    entries are written. (Braces, and colons in values, are harmless.) *)
Theorem metadata_round_trip (m : gmap string string) :
  map_Forall (fun k v => free_of keyBytes k /\ free_of valueBytes v) m ->
  jsonToMap (mapToJSON m) = m
  /\ forall l : list (string * string),
       Permutation l (map_to_list m) ->
       jsonToMap ("{" +:+ strings_Join (map entryJSON l) "," +:+ "}") = m.
Proof.
  intros Hplain.
  assert (Hall : Forall (fun kv => free_of keyBytes kv.1 /\ free_of valueBytes kv.2)
                   (map_to_list m)).
  { apply Forall_forall. intros [k v] Hin.
    apply elem_of_map_to_list in Hin. exact (Hplain k v Hin). }
  assert (Hperm : forall l : list (string * string),
             Permutation l (map_to_list m) ->
             jsonToMap ("{" +:+ strings_Join (map entryJSON l) "," +:+ "}") = m).
  { intros l Hl. rewrite jsonToMap_entries.
    - rewrite (list_to_map_proper l (map_to_list m)); [apply list_to_map_to_list| |].
      + rewrite Hl. apply NoDup_fst_map_to_list.
      + assumption.
    - rewrite Hl. apply NoDup_fst_map_to_list.
    - now rewrite Hl. }
  split; [|exact Hperm].
  apply (Hperm (map_to_list m)). reflexivity.
Qed.

End MetadataFacts.

(** ** Extraction, continued *)

Section ExtractionMore.
Context {JS : Json} {TT : TextTemplate} {TP : Templates}.

(** A successful extraction returns a braced text that decodes. *)
Lemma extractJSON_braced raw jsonStr :
  extractJSON raw = (jsonStr, None) ->
  exists mid,
    jsonStr = "{" +:+ mid +:+ "}"
    /\ json_Unmarshal_object jsonStr = None.
Proof.
  intros E.
  destruct (extractJSON_cases raw) as [[_ E']|(pre & mid & post & _ & _ & _ & E')];
    rewrite E' in E; [discriminate|].
  destruct (json_Unmarshal_object ("{" +:+ mid +:+ "}")) eqn:D; [discriminate|].
  injection E as <-. eauto.
Qed.

Lemma trim_front_stuck runes fuel s :
  (forall r, In r runes -> String.prefix r s = false) ->
  trim_front runes fuel s = s.
Proof.
  intros Hno. destruct fuel as [|fuel]; [reflexivity|]. simpl.
  destruct (find _ runes) as [r|] eqn:Hf; [|reflexivity].
  apply find_some in Hf. destruct Hf as [Hin Hp]. rewrite (Hno r Hin) in Hp.
  discriminate.
Qed.

(** No space rune starts with a brace, and none ends with one. *)
Lemma TrimSpace_braced mid :
  strings_TrimSpace ("{" +:+ mid +:+ "}") = "{" +:+ mid +:+ "}".
Proof.
  unfold strings_TrimSpace.
  rewrite (trim_front_stuck space_runes _ ("{" +:+ mid +:+ "}")).
  - rewrite trim_front_stuck; [apply rev_string_involutive|].
    intros r Hin.
    change ("{" +:+ mid +:+ "}") with (("{" +:+ mid) +:+ "}").
    rewrite rev_string_app. change (rev_string "}") with "}".
    rewrite app_cons_string.
    revert Hin. vm_compute. intuition (subst; reflexivity).
  - intros r Hin. rewrite app_cons_string.
    revert Hin. vm_compute. intuition (subst; reflexivity).
Qed.

Lemma extractJSON_of_braced mid :
  json_Unmarshal_object ("{" +:+ mid +:+ "}") = None ->
  extractJSON ("{" +:+ mid +:+ "}") = ("{" +:+ mid +:+ "}", None).
Proof.
  intros D.
  destruct (extractJSON_cases ("{" +:+ mid +:+ "}"))
    as [[Hno _]|(pre & mid' & post & Et & Hp & Hq & E)];
    rewrite TrimSpace_braced in *.
  - elim (Hno "" mid ""). now rewrite app_nil_string, app_nil_r_string.
  - assert (Et' : "" +:+ "{" +:+ mid +:+ "}" +:+ ""
                  = pre +:+ "{" +:+ mid' +:+ "}" +:+ post).
    { rewrite <- Et. now rewrite app_nil_string, app_nil_r_string. }
    destruct (greedy_split_unique _ _ _ _ _ _ Et') as (<- & <- & <-);
      simpl; auto.
    now rewrite E, D.
Qed.

(** X11. What [extractJSON] returns on success starts with an opening
    and ends with a closing brace and decodes as an object; extracting
    from it again returns it unchanged. So each of the three parsers gives
    on the extracted text the result it gives on the raw text. *)
Theorem extractJSON_idempotent (raw jsonStr : string) :
  extractJSON raw = (jsonStr, None) ->
  (exists mid, jsonStr = "{" +:+ mid +:+ "}")
  /\ json_Unmarshal_object jsonStr = None
  /\ extractJSON jsonStr = (jsonStr, None)
  /\ (forall out,
        ParseRootCause NewBuilder jsonStr out = ParseRootCause NewBuilder raw out)
  /\ (forall out,
        ParseSolution NewBuilder jsonStr out = ParseSolution NewBuilder raw out)
  /\ (forall out,
        ParseReframe NewBuilder jsonStr out = ParseReframe NewBuilder raw out).
Proof.
  intros E. destruct (extractJSON_braced raw jsonStr E) as (mid & -> & D).
  pose proof (extractJSON_of_braced mid D) as E2.
  split; [eauto|]. split; [assumption|]. split; [assumption|].
  cbn [NewBuilder ParseRootCause ParseSolution ParseReframe].
  unfold PromptBuilder_ParseRootCause, PromptBuilder_ParseSolution,
    PromptBuilder_ParseReframe.
  rewrite E, E2. repeat split.
Qed.

End ExtractionMore.

(** ** Pipeline *)

Section PipelineFacts.
Context {F32 : Float32} {RT : Runtime}.

(** The first step of the loop asks the question the loop was entered
    with. *)
Lemma whyLoop_first o n i q w :
  match fst (whyLoop o (S n) i [] q w) with
  | inl _ => True
  | inr (steps, _) =>
      exists first rest,
        steps = first :: rest /\ Question first = q /\ Level first = i
  end.
Proof.
  cbn [whyLoop]. unfold bind, ret.
  destruct (Manager_Generate _ _ w) as [[resp [err|]] w1]; [exact I|].
  destruct (Manager_Generate _ _ w1) as [[analysisResp [err|]] w2]; [exact I|].
  destruct (Manager_Generate _ _ w2) as [[nextResp [err|]] w3]; [exact I|].
  match goal with
  | |- context [whyLoop o n ?i' ?s ?q' w3] =>
      pose proof (whyLoop_steps o n i' s q' w3) as Hs;
      destruct (whyLoop o n i' s q' w3) as [[err|[steps' q'']] w4]
  end; [exact I|].
  cbn [fst] in *. destruct Hs as (new & -> & _).
  eexists _, new. split; [reflexivity|]. split; reflexivity.
Qed.

(** X12. [RunFiveWhy] rejects the empty question before anything else
    happens: the clock is not read and nothing is generated. A session it
    returns was asked a non-empty question, is stamped with the time read
    at entry, before the first generation, and its first step asks the
    question of the user. *)
Theorem RunFiveWhy_entry (o : Orchestrator) (sessionID userQuestion : string)
    (w : World) :
  (userQuestion = "" ->
   RunFiveWhy o sessionID userQuestion w
   = ((None, Some (errors_New "empty question")), w))
  /\ (forall session,
        fst (fst (RunFiveWhy o sessionID userQuestion w)) = Some session ->
        userQuestion <> ""
        /\ FiveWhySession_CreatedAt session = fst (time_Now w)
        /\ exists first rest,
             FiveWhySession_Steps session = first :: rest
             /\ Question first = userQuestion /\ Level first = 1).
Proof.
  split; [intros ->; reflexivity|].
  intros session. unfold RunFiveWhy, bind, ret.
  destruct (String.eqb_spec userQuestion "") as [|Hne]; [discriminate|].
  destruct (time_Now w) as [createdAt w0]. cbn [fst].
  pose proof (whyLoop_first o 4 1 userQuestion w0) as Hfirst.
  destruct (whyLoop o 5 1 [] userQuestion w0) as [[err|[steps q]] w1];
    [discriminate|].
  cbn [fst] in Hfirst.
  destruct (Manager_Generate _ _ w1) as [[rcaResp [err|]] w2]; [discriminate|].
  destruct (ParseRootCause _ _ _) as [rootCause [err|]]; [discriminate|].
  destruct (Manager_Generate _ _ w2) as [[solResp [err|]] w3]; [discriminate|].
  destruct (ParseSolution _ _ _) as [solution [err|]]; [discriminate|].
  destruct (Manager_Generate _ _ w3) as [[reframeResp [err|]] w4]; [discriminate|].
  destruct (ParseReframe _ _ _) as [reframed [err|]]; [discriminate|].
  destruct (Store_Store _ _ w4) as [e1 w5].
  destruct (Store_Store _ _ w5) as [e2 w6].
  destruct (Store_Store _ _ w6) as [e3 w7].
  cbn [fst]. intros [= <-]. cbn. auto.
Qed.

(** X13. The partial entry points [ExtractRootCause] and
    [ReframeQuestion] each make one generation and nothing else: the
    world they leave is the world that generation leaves, and the vector
    store of the orchestrator plays no part. Each returns a record and no
    error, or an error and no record; a record returned is what a
    successful parse of the generated text left in a fresh record. *)
Theorem partial_entry_points (llm : Manager) (pb : Builder) (st : Store)
    (steps : list FiveWhyStep) (question : string) (rc : RootCauseResult)
    (w : World) :
  let o := mkOrchestrator llm st pb in
  let g1 := Manager_Generate llm (rootCauseRequest pb steps) w in
  let g2 := Manager_Generate llm (reframeRequest pb question rc) w in
  (forall st',
     ExtractRootCause (mkOrchestrator llm st' pb) steps w
     = ExtractRootCause o steps w
     /\ ReframeQuestion (mkOrchestrator llm st' pb) question rc w
        = ReframeQuestion o question rc w)
  /\ snd (ExtractRootCause o steps w) = snd g1
  /\ snd (ReframeQuestion o question rc w) = snd g2
  /\ fst (ExtractRootCause o steps w) =
     match snd (fst g1) with
     | Some err => (None, Some err)
     | None =>
         match ParseRootCause pb (Response_Text (fst (fst g1)))
                 RootCauseResult_zero with
         | (_, Some err) => (None, Some err)
         | (rootCause, None) => (Some rootCause, None)
         end
     end
  /\ fst (ReframeQuestion o question rc w) =
     match snd (fst g2) with
     | Some err => (None, Some err)
     | None =>
         match ParseReframe pb (Response_Text (fst (fst g2)))
                 ReframedQuestion_zero with
         | (_, Some err) => (None, Some err)
         | (reframed, None) => (Some reframed, None)
         end
     end.
Proof.
  intros o g1 g2. subst o g1 g2.
  unfold ExtractRootCause, ReframeQuestion, rootCauseRequest, reframeRequest,
    bind, ret.
  cbn [Orchestrator_llm Orchestrator_prompt].
  split; [intros st'; split; reflexivity|].
  destruct (Manager_Generate llm (request ModeDiagnosis _) w)
    as [[rcaResp [err1|]] w1];
  destruct (Manager_Generate llm (request ModeReasoning _) w)
    as [[reframeResp [err2|]] w2]; cbn [fst snd];
  try destruct (ParseRootCause pb _ _) as [rootCause [e1|]];
  try destruct (ParseReframe pb _ _) as [reframed [e2|]];
  repeat split.
Qed.

(** X14. The full pipeline agrees with its partial entry points. When
    [RunFiveWhy] returns a session, the root cause of the session is what
    [ExtractRootCause] returns for the steps of the session in the world
    the loop left, and its reframed question is what [ReframeQuestion]
    returns for the question of the user and that root cause in the world
    the solution step left. *)
Theorem RunFiveWhy_agrees_with_partial
    (o : Orchestrator) (sessionID userQuestion : string) (w : World)
    (session : FiveWhySession) :
  fst (RunFiveWhy o sessionID userQuestion w) = (Some session, None) ->
  let steps := FiveWhySession_Steps session in
  let rootCause := FiveWhySession_RootCause session in
  let looped := whyLoop o 5 1 [] userQuestion (snd (time_Now w)) in
  let extracted := ExtractRootCause o steps (snd looped) in
  let solved :=
    Manager_Generate (Orchestrator_llm o)
      (solutionRequest (Orchestrator_prompt o) rootCause steps)
      (snd extracted) in
  (exists q, fst looped = inr (steps, q))
  /\ fst extracted = (Some rootCause, None)
  /\ fst (ReframeQuestion o userQuestion rootCause (snd solved))
     = (Some (FiveWhySession_Reframed session), None).
Proof.
  unfold RunFiveWhy, ExtractRootCause, ReframeQuestion, solutionRequest, bind, ret.
  destruct (String.eqb userQuestion ""); [discriminate|].
  destruct (time_Now w) as [createdAt w0]. cbn [fst snd].
  destruct (whyLoop o 5 1 [] userQuestion w0) as [[err|[steps q]] w1];
    [discriminate|].
  cbn [fst snd].
  destruct (Manager_Generate _ (request ModeDiagnosis _) w1)
    as [[rcaResp [err|]] w2] eqn:G1; [discriminate|].
  destruct (ParseRootCause _ _ _) as [rootCause [err|]] eqn:P1; [discriminate|].
  destruct (Manager_Generate _ (request ModePlanning _) w2)
    as [[solResp [err|]] w3] eqn:G2; [discriminate|].
  destruct (ParseSolution _ _ _) as [solution [err|]]; [discriminate|].
  destruct (Manager_Generate _ (request ModeReasoning _) w3)
    as [[reframeResp [err|]] w4] eqn:G3; [discriminate|].
  destruct (ParseReframe _ _ _) as [reframed [err|]] eqn:P3; [discriminate|].
  destruct (Store_Store _ _ w4) as [e1 w5].
  destruct (Store_Store _ _ w5) as [e2 w6].
  destruct (Store_Store _ _ w6) as [e3 w7].
  cbn [fst]. intros [= <-].
  cbn [FiveWhySession_Steps FiveWhySession_RootCause FiveWhySession_Reframed].
  split; [eauto|]. rewrite G1. cbn [fst snd]. rewrite P1. cbn [fst snd].
  split; [reflexivity|]. rewrite G2. cbn [fst snd]. rewrite G3, P3. reflexivity.
Qed.

End PipelineFacts.

(** ** Long-term memory *)

Section LongTermFacts.
Context {F32 : Float32} {JS : Json} {JM : JsonMarshal} {RT : Runtime}.

(** [GetSession] returns a session or an error, never both and never
    neither. *)
Lemma GetSession_result m sessionID w :
  match fst (GetSession m sessionID w) with
  | (Some _, None) | (None, Some _) => True
  | _ => False
  end.
Proof.
  unfold GetSession, bind, ret.
  destruct (RedisClient_Get _ _ w) as [[data gerr] w1].
  destruct (bool_decide (gerr <> None) || String.eqb data ""); [exact I|].
  destruct (json_Unmarshal_SessionMemory data SessionMemory_zero) as [s [e|]];
    exact I.
Qed.

Lemma app_nonempty_r s t : t <> "" -> s +:+ t <> "".
Proof.
  intros Ht E. apply (f_equal len) in E. rewrite len_app in E.
  change (len "") with 0 in E. pose proof (len_nonneg s). pose proof (len_nonneg t).
  assert (len t = 0) as Hz by lia. unfold len in Hz.
  destruct t; [contradiction|simpl in Hz; lia].
Qed.

(** X15. [CompressSession] first looks the session up; when that fails
    it returns the error of the lookup and generates nothing. Otherwise
    it asks for a summary of the encoded messages in mode [analysis]; a
    failed generation is its failure. On success it returns the summary
    and no error, whatever the vector store answers, after handing one
    document over: the summary under the session id suffixed [_summary],
    with the embedding of the summary. A non-empty summary therefore
    carries a 384-entry embedding and, over the pgvector store, reaches
    the database as one upsert statement. *)
Theorem CompressSession_outcomes (m : MemoryEngine) (sessionID : string)
    (w : World) :
  let llm := MemoryEngine_llm m in
  let looked := GetSession m sessionID w in
  let r := CompressSession m sessionID w in
  (forall err, snd (fst looked) = Some err -> r = (("", Some err), snd looked))
  /\ (forall session,
        fst looked = (Some session, None) ->
        let gen :=
          Manager_Generate llm (summaryRequest (SessionMemory_Messages session))
            (snd looked) in
        let text := Response_Text (fst (fst gen)) in
        let doc := summaryDocument llm sessionID text in
        (forall err, snd (fst gen) = Some err -> r = (("", Some err), snd gen))
        /\ (snd (fst gen) = None ->
            fst r = (text, None)
            /\ snd r = snd (Store_Store (MemoryEngine_vector m) doc (snd gen))
            /\ (text <> "" -> length (Document_Vector doc) = 384%nat)
            /\ (text = "" -> Document_Vector doc = [])
            /\ forall p,
                 MemoryEngine_vector m = PgVectorStore_as_Store p ->
                 text <> "" ->
                 snd r =
                 snd (DB_ExecContext (PgVectorStore_db p)
                        (upsertQuery (PgVectorStore_table p)
                           (vectorToSQL (Document_Vector doc)))
                        [sessionID +:+ "_summary"; text;
                         mapToJSON (Document_Meta doc)]
                        (snd gen))))
  /\ (snd (fst looked) = None -> exists session, fst looked = (Some session, None)).
Proof.
  intros llm looked r. subst llm looked r.
  pose proof (GetSession_result m sessionID w) as Hshape.
  unfold CompressSession, summaryRequest, summaryDocument, bind, ret.
  destruct (GetSession m sessionID w) as [[[session|] [lerr|]] w1];
    try contradiction; cbn [fst snd].
  2: { split; [now intros err [= <-]|]. split; [discriminate|discriminate]. }
  split; [discriminate|]. split; [|eauto].
  intros session' [= <-].
  destruct (Manager_Generate (MemoryEngine_llm m) _ w1) as [[resp [gerr|]] w2];
    cbn [fst snd].
  - split; [now intros err [= <-]|discriminate].
  - split; [discriminate|]. intros _.
    destruct (Store_Store (MemoryEngine_vector m) _ w2) as [serr w3] eqn:Hst.
    cbn [fst snd]. split; [reflexivity|]. split; [reflexivity|].
    cbn [Document_Vector Document_Meta].
    split; [|split].
    + intros Hne.
      destruct (Manager_Embed_ok (MemoryEngine_llm m) (Response_Text resp) Hne)
        as (emb & -> & Hlen). exact Hlen.
    + intros ->. reflexivity.
    + intros p Hp Hne. rewrite Hp in Hst. cbn [PgVectorStore_as_Store Store_Store] in Hst.
      unfold PgVectorStore_Store in Hst.
      cbn [Document_ID Document_Vector Document_Content Document_Meta] in Hst.
      destruct (String.eqb_spec (sessionID +:+ "_summary") "") as [E|_];
        [now apply app_nonempty_r in E|].
      destruct (Manager_Embed_ok (MemoryEngine_llm m) (Response_Text resp) Hne)
        as (emb & He & Hlen).
      rewrite He in *. cbn [fst] in *.
      destruct (Z.of_nat (length emb) =? 0) eqn:Ez;
        [apply length_zero_iff in Ez; subst emb; discriminate Hlen|].
      now rewrite Hst.
Qed.

(** X16. [StoreLongTerm] rejects an empty content with the error of the
    embedding, before the clock is read or the store is called. Otherwise
    it reads the clock once and hands one document to the vector store:
    the formatted time as id, the content, its 384-entry embedding and the
    metadata given; the outcome of the store is its outcome. Over the
    pgvector store that is the outcome of one upsert statement, provided
    the formatted time is not empty. *)
Theorem StoreLongTerm_outcomes (m : MemoryEngine) (content : string)
    (meta : gmap string string) (w : World) :
  let emb := fst (Manager_Embed (MemoryEngine_llm m) content) in
  let id := time_Format (fst (time_Now w)) in
  (content = "" ->
   StoreLongTerm m content meta w = (Some (errors_New "empty text"), w))
  /\ (content <> "" ->
      length emb = 384%nat
      /\ StoreLongTerm m content meta w
         = Store_Store (MemoryEngine_vector m)
             (mkDocument id content emb meta) (snd (time_Now w)))
  /\ (forall p,
        MemoryEngine_vector m = PgVectorStore_as_Store p ->
        content <> "" -> id <> "" ->
        StoreLongTerm m content meta w
        = DB_ExecContext (PgVectorStore_db p)
            (upsertQuery (PgVectorStore_table p) (vectorToSQL emb))
            [id; content; mapToJSON meta] (snd (time_Now w))).
Proof.
  intros emb id. subst emb id.
  assert (Hok : content <> "" ->
                length (fst (Manager_Embed (MemoryEngine_llm m) content)) = 384%nat
                /\ StoreLongTerm m content meta w
                   = Store_Store (MemoryEngine_vector m)
                       (mkDocument (time_Format (fst (time_Now w))) content
                          (fst (Manager_Embed (MemoryEngine_llm m) content)) meta)
                       (snd (time_Now w))).
  { intros Hne.
    destruct (Manager_Embed_ok (MemoryEngine_llm m) content Hne)
      as (emb & He & Hlen).
    unfold StoreLongTerm, generateMemoryID, bind, ret. rewrite He. cbn [fst].
    split; [exact Hlen|]. destruct (time_Now w) as [t w1]. reflexivity. }
  split; [|split].
  - intros ->. reflexivity.
  - exact Hok.
  - intros p Hp Hne Hid. destruct (Hok Hne) as [Hlen ->]. rewrite Hp.
    cbn [PgVectorStore_as_Store Store_Store]. unfold PgVectorStore_Store.
    cbn [Document_ID Document_Vector Document_Content Document_Meta].
    destruct (String.eqb_spec (time_Format (fst (time_Now w))) "");
      [contradiction|].
    destruct (Z.of_nat (length _) =? 0) eqn:Ez; [|reflexivity].
    apply length_zero_iff in Ez. rewrite Ez in Hlen. discriminate Hlen.
Qed.

End LongTermFacts.

(** ** Repository *)

Section RepositoryFacts.
Context {F32 : Float32} {JM : JsonMarshal} {RT : Runtime}.

(** X17. The two writes of the repository validate before they touch
    anything: [SaveMessage] refuses an empty session id and
    [SaveFiveWhySession] a nil session, each without reading the clock or
    reaching the database. Otherwise each reads the clock for the row id
    and issues one statement, whose outcome is its outcome: the message
    row carries the id, the session id, the user id and the two texts;
    the session row carries the id, the user id, the session id and the
    four encoded parts of the session. *)
Theorem repository_writes (r : PostgresRepository) (w : World) :
  let id := SqlString (time_Format (fst (time_Now w))) in
  let w0 := snd (time_Now w) in
  (forall userID userMsg aiMsg,
     PostgresRepository_SaveMessage r "" userID userMsg aiMsg w
     = (Some (errors_New "missing session id"), w))
  /\ (forall sessionID userID userMsg aiMsg,
        sessionID <> "" ->
        PostgresRepository_SaveMessage r sessionID userID userMsg aiMsg w
        = SqlDB_ExecContext (PostgresRepository_db r) saveMessageQuery
            [id; SqlString sessionID; SqlString userID; SqlString userMsg;
             SqlString aiMsg] w0)
  /\ (forall userID,
        PostgresRepository_SaveFiveWhySession r userID None w
        = (Some (errors_New "nil session"), w))
  /\ (forall userID session,
        PostgresRepository_SaveFiveWhySession r userID (Some session) w
        = SqlDB_ExecContext (PostgresRepository_db r) saveFiveWhySessionQuery
            [id; SqlString userID; SqlString (FiveWhySession_SessionID session);
             SqlBytes (json_Marshal_Steps (FiveWhySession_Steps session));
             SqlBytes (json_Marshal_RootCauseResult
                         (FiveWhySession_RootCause session));
             SqlBytes (json_Marshal_SolutionResult
                         (FiveWhySession_Solution session));
             SqlBytes (json_Marshal_ReframedQuestion
                         (FiveWhySession_Reframed session))] w0).
Proof.
  intros id w0. subst id w0.
  unfold PostgresRepository_SaveMessage, PostgresRepository_SaveFiveWhySession,
    generateRepoID, bind, ret.
  repeat split.
  - intros sessionID userID userMsg aiMsg Hne.
    destruct (String.eqb_spec sessionID ""); [contradiction|].
    destruct (time_Now w) as [t w1]. reflexivity.
  - intros userID session. destruct (time_Now w) as [t w1]. reflexivity.
Qed.

Lemma scan_records_app (rows : list (ChatRecord * option error)) acc :
  Forall (fun row => snd row = None) rows ->
  scan_records rows acc = ((acc ++ map fst rows)%list, None).
Proof.
  intros Hall. revert acc.
  induction Hall as [|[rec err] rows Hr _ IH]; intros acc; simpl.
  - now rewrite app_nil_r.
  - simpl in Hr. subst err. rewrite IH. now rewrite <- app_assoc.
Qed.

Lemma scan_records_fail (good : list (ChatRecord * option error)) bad err rest acc :
  Forall (fun row => snd row = None) good ->
  scan_records (good ++ (bad, Some err) :: rest)%list acc = ([], Some err).
Proof.
  intros Hall. revert acc.
  induction Hall as [|[rec e] rows Hr _ IH]; intros acc; simpl.
  - reflexivity.
  - simpl in Hr. subst e. apply IH.
Qed.

(** X18. [GetSessionHistory] refuses an empty session id without
    reaching the database. Otherwise it issues one query with the session
    id and the limit, a limit of zero or less being replaced by 50, so
    that every such limit behaves as 50. The error of the query is its
    error; the records come back in the order of the rows; and a row that
    fails to scan makes the whole call fail with that error and no
    record. *)
Theorem GetSessionHistory_outcomes (r : PostgresRepository) (sessionID : string)
    (limit : Z) (w : World) :
  let q :=
    SqlDB_QueryContext (PostgresRepository_db r) sessionHistoryQuery
      [SqlString sessionID; SqlInt (if limit <=? 0 then 50 else limit)] w in
  let rows := fst (fst q) in
  let h := PostgresRepository_GetSessionHistory r sessionID limit w in
  (sessionID = "" -> h = (([], Some (errors_New "missing session id")), w))
  /\ (limit <= 0 ->
      h = PostgresRepository_GetSessionHistory r sessionID 50 w)
  /\ (sessionID <> "" ->
      snd h = snd q
      /\ (forall err, snd (fst q) = Some err -> fst h = ([], Some err))
      /\ (snd (fst q) = None ->
          Forall (fun row => snd row = None) rows ->
          fst h = (map fst rows, None))
      /\ (snd (fst q) = None ->
          forall good bad err rest,
            rows = (good ++ (bad, Some err) :: rest)%list ->
            Forall (fun row => snd row = None) good ->
            fst h = ([], Some err))).
Proof.
  intros q rows h. subst h rows q.
  unfold PostgresRepository_GetSessionHistory, bind, ret.
  split; [intros ->; reflexivity|]. split.
  - intros Hl. destruct (Z.leb_spec limit 0); [reflexivity|lia].
  - intros Hne. destruct (String.eqb_spec sessionID ""); [contradiction|].
    destruct (SqlDB_QueryContext _ _ _ w) as [[rows [qerr|]] w1]; cbn [fst snd].
    + split; [reflexivity|]. split; [now intros err [= <-]|].
      split; discriminate.
    + split; [reflexivity|]. split; [discriminate|].
      split; [intros _ Hall; now rewrite (scan_records_app rows [] Hall)|].
      intros _ good bad err rest -> Hall. now apply scan_records_fail.
Qed.

End RepositoryFacts.

(** ** Service *)

Section ServiceFacts.
Context {F32 : Float32} {JS : Json} {JM : JsonMarshal} {RT : Runtime}.


(** [Service.Chat] returns a response or an error. *)
Lemma Service_Chat_result s sessionID userID message w :
  match fst (Service_Chat s sessionID userID message w) with
  | (Some _, None) | (None, Some _) => True
  | _ => False
  end.
Proof.
  unfold Service_Chat, bind, ret.
  destruct (String.eqb message ""); [exact I|].
  destruct (Service_memory s) as [memory|].
  - destruct (AppendSession memory sessionID "user" message w) as [e0 w1].
    destruct (HybridContext memory sessionID message 5 w1) as [[ctxData herr] w2].
    destruct (Manager_Generate (Service_llm s) _ w2) as [[resp [gerr|]] w3];
      [exact I|].
    destruct (AppendSession memory sessionID "assistant" _ w3) as [e1 w4].
    destruct (Service_repo s) as [repo|]; [|exact I].
    now destruct (Repository_SaveMessage repo _ _ _ _ w4).
  - destruct (Manager_Generate (Service_llm s) _ w) as [[resp [gerr|]] w3];
      [exact I|].
    destruct (Service_repo s) as [repo|]; [|exact I].
    now destruct (Repository_SaveMessage repo _ _ _ _ w3).
Qed.

(** X19. [Service.Chat] fails in two cases only: on an empty message,
    before anything else happens, and when the generation fails, with the
    error of the generation. No error of the memory engine or of the
    repository reaches the result, and an empty session id is no obstacle.
    The generation is asked in mode [reasoning] for the context and the
    message; after a failed generation nothing more is written; after a
    successful one the answer is appended to the session, if there is a
    memory engine, and the exchange is saved, if there is a repository,
    in this order. *)
Theorem Service_Chat_best_effort (s : Service) (sessionID userID message : string)
    (w : World) :
  let r := Service_Chat s sessionID userID message w in
  let c := chatContext s sessionID message w in
  let gen := Manager_Generate (Service_llm s) (chatRequest (fst c) message) (snd c) in
  (message = "" -> r = ((None, Some (errors_New "empty message")), w))
  /\ (message <> "" ->
      fst r =
      match snd (fst gen) with
      | Some err => (None, Some err)
      | None => (Some (fst (fst gen)), None)
      end
      /\ (snd (fst gen) <> None -> snd r = snd gen)
      /\ (snd (fst gen) = None ->
          let text := Response_Text (fst (fst gen)) in
          snd r =
          after (Service_repo s)
            (fun repo => Repository_SaveMessage repo sessionID userID message text)
            (after (Service_memory s)
               (fun memory => AppendSession memory sessionID "assistant" text)
               (snd gen))))
  /\ (Service_memory s = None -> c = ("", w)).
Proof.
  intros r c gen. subst r c gen.
  unfold Service_Chat, chatContext, chatRequest, after, bind, ret.
  split; [intros ->; reflexivity|]. split; [|now intros ->].
  intros Hne. destruct (String.eqb_spec message ""); [contradiction|].
  destruct (Service_memory s) as [memory|].
  - destruct (AppendSession memory sessionID "user" message w) as [e0 w1].
    cbn [fst snd].
    destruct (HybridContext memory sessionID message 5 w1) as [[ctxData herr] w2].
    cbn [fst snd].
    destruct (Manager_Generate (Service_llm s) _ w2) as [[resp [gerr|]] w3];
      cbn [fst snd].
    + split; [reflexivity|]. split; [reflexivity|discriminate].
    + destruct (AppendSession memory sessionID "assistant" _ w3) as [e1 w4].
      cbn [fst snd].
      destruct (Service_repo s) as [repo|].
      * destruct (Repository_SaveMessage repo _ _ _ _ w4) as [e2 w5].
        cbn [fst snd]. split; [reflexivity|]. split; [intros H; now elim H|].
        reflexivity.
      * cbn [fst snd]. split; [reflexivity|]. split; [intros H; now elim H|].
        reflexivity.
  - cbn [fst snd].
    destruct (Manager_Generate (Service_llm s) _ w) as [[resp [gerr|]] w3];
      cbn [fst snd].
    + split; [reflexivity|]. split; [reflexivity|discriminate].
    + destruct (Service_repo s) as [repo|].
      * destruct (Repository_SaveMessage repo _ _ _ _ w3) as [e2 w5].
        cbn [fst snd]. split; [reflexivity|]. split; [intros H; now elim H|].
        reflexivity.
      * cbn [fst snd]. split; [reflexivity|]. split; [intros H; now elim H|].
        reflexivity.
Qed.

(** X20. The switches of the service. With the five-why switch off
    [FiveWhy] fails at once, and so do [RootCause] and [Reframe] with
    theirs, and [CompressSession] and [Recall] without a memory engine;
    none of them touches the world. The root-cause and the reframing
    switch gate the partial entry points only: [FiveWhy] extracts the root
    cause and reframes the question whether they are on or off, the
    evaluator switch is read nowhere, and [Chat] is gated by no switch. *)
Theorem Service_switches
    (repo : option Repository) (llm : Manager) (vector : option Store)
    (memory : option MemoryEngine) (o : Orchestrator)
    (cr : option Repository) (cl : Manager) (cv : option Store)
    (cm : option MemoryEngine) (fiveWhy evaluator rootCause reframer : bool)
    (w : World) :
  let s := mkService repo llm vector memory o
             (mkServiceConfig cr cl cv cm fiveWhy evaluator rootCause reframer) in
  (fiveWhy = false ->
   forall sessionID userID question,
     Service_FiveWhy s sessionID userID question w
     = ((None, Some (errors_New "five-why engine disabled")), w))
  /\ (rootCause = false ->
      forall steps,
        Service_RootCause s steps w
        = ((None, Some (errors_New "root-cause engine disabled")), w))
  /\ (reframer = false ->
      forall question rc,
        Service_Reframe s question rc w
        = ((None, Some (errors_New "reframing engine disabled")), w))
  /\ (memory = None ->
      forall sessionID query limit,
        Service_CompressSession s sessionID w
        = (("", Some (errors_New "memory engine not configured")), w)
        /\ Service_Recall s query limit w
           = ((None, Some (errors_New "memory engine not configured")), w))
  /\ (forall (evaluator' rootCause' reframer' : bool) sessionID userID question,
        Service_FiveWhy
          (mkService repo llm vector memory o
             (mkServiceConfig cr cl cv cm fiveWhy evaluator' rootCause' reframer'))
          sessionID userID question w
        = Service_FiveWhy s sessionID userID question w)
  /\ (forall (fiveWhy' evaluator' rootCause' reframer' : bool) sessionID userID
             message,
        Service_Chat
          (mkService repo llm vector memory o
             (mkServiceConfig cr cl cv cm fiveWhy' evaluator' rootCause'
                reframer'))
          sessionID userID message w
        = Service_Chat s sessionID userID message w).
Proof.
  intros s. subst s.
  split; [intros ->; reflexivity|].
  split; [intros ->; reflexivity|].
  split; [intros ->; reflexivity|].
  split; [intros ->; split; reflexivity|].
  split; reflexivity.
Qed.


End ServiceFacts.

(** ** Router and handlers *)

Section HttpFacts.
Context {F32 : Float32} {JS : Json} {JM : JsonMarshal} {JD : JsonDecode}
        {RT : Runtime}.

Lemma wrap_down_take (ms : list Middleware) (n : nat) (h : HandlerFunc) :
  (n <= length ms)%nat -> wrap_down ms n h = wrap (take n ms) h.
Proof.
  revert h. induction n as [|n IH]; intros h Hn; [reflexivity|].
  cbn [wrap_down].
  destruct (ms !! n) as [m|] eqn:Hm.
  - rewrite IH by lia. rewrite (take_S_r ms n m Hm).
    unfold wrap. now rewrite fold_right_app.
  - apply lookup_ge_None in Hm. exfalso. exact (Nat.nle_succ_diag_l n (Nat.le_trans _ _ _ Hn Hm)).
Qed.

Lemma wrap_down_all (ms : list Middleware) (h : HandlerFunc) :
  wrap_down ms (length ms) h = wrap ms h.
Proof. rewrite wrap_down_take by lia. now rewrite firstn_all. Qed.

(** X22. Middlewares wrap a handler in the order of their registration,
    the first registered outermost, and a route keeps the handler it was
    registered with: a middleware added later does not reach it. A route
    registered through a group is wrapped in the middlewares of the group
    and then twice in the middlewares of the router, once by the group
    and once more by the router. *)
Theorem middleware_order (r : Router) (method path : string) (h : HandlerFunc) :
  Router_applyMiddleware r h = wrap (Router_middlewares r) h
  /\ (forall m,
        Router_applyMiddleware (Router_Use r m) h
        = wrap (Router_middlewares r) (m h))
  /\ Router_handle r method path h
     = mkRouter
         (Router_mux r
          ++ [mkRoute path method (wrap (Router_middlewares r) h)])
         (Router_middlewares r)
  /\ (forall m,
        Router_mux (Router_Use (Router_handle r method path h) m)
        = Router_mux (Router_handle r method path h))
  /\ (forall g,
        Group_handle g r method path h
        = mkRouter
            (Router_mux r
             ++ [mkRoute (Group_prefix g +:+ path) method
                   (wrap (Router_middlewares r)
                      (wrap (Router_middlewares r)
                         (wrap (Group_middlewares g) h)))])
            (Router_middlewares r)).
Proof.
  unfold Group_handle, Group_applyGroupMiddleware, Router_handle,
    Router_applyMiddleware.
  rewrite !wrap_down_all.
  split; [reflexivity|]. split.
  - intros m. rewrite wrap_down_all. unfold wrap, Router_Use.
    cbn [Router_middlewares]. now rewrite fold_right_app.
  - split; [reflexivity|]. split; [reflexivity|].
    intros g. now rewrite !wrap_down_all.
Qed.

(** X23. What a registered route does with a request. A request of
    another method is answered with status 405 and the handler does not
    run. Otherwise the handler runs on a fresh context, without values;
    if it returns an error, a response of status 500 carrying the message
    of the error is written after whatever the handler wrote, and the
    outcome of that write is dropped; if it returns none, nothing more is
    written. *)
Theorem serve_outcomes (method : string) (h : HandlerFunc)
    (rw : ResponseWriter) (req : HttpRequest) (w : World) :
  let ctx := NewContext rw req in
  (HttpRequest_Method req <> method ->
   serve method h rw req w = ResponseWriter_WriteHeader rw 405 w)
  /\ (HttpRequest_Method req = method ->
      match fst (h ctx w) with
      | Some err =>
          snd (serve method h rw req w)
          = snd (Context_JSON ctx 500 (response_Error (Error err))
                   (snd (h ctx w)))
      | None => snd (serve method h rw req w) = snd (h ctx w)
      end)
  /\ Context_values ctx = ∅
  /\ forall key, Context_GetString ctx key = "".
Proof.
  intros ctx. subst ctx. unfold serve, bind, ret.
  split; [|split; [|split]].
  - intros Hne. destruct (String.eqb_spec (HttpRequest_Method req) method);
      [contradiction|reflexivity].
  - intros ->. rewrite String.eqb_refl. cbn [negb].
    destruct (h (NewContext rw req) w) as [[err|] w1]; cbn [fst snd];
      [|reflexivity].
    now destruct (Context_JSON _ _ _ w1).
  - reflexivity.
  - intros key. unfold Context_GetString, NewContext. cbn [Context_values].
    now rewrite lookup_empty.
Qed.

(** X24. The status codes of the chat endpoint. A body that does not
    decode is answered with status 400 and the service is not called. A
    body that decodes is handed to the service with the user id found in
    the context (empty unless a string is stored under [user_id]); an
    error of the service, the empty message included, is answered with
    status 500 and the message of the error; otherwise the answer has
    status 200 and carries the text, the confidence and the latency in
    whole milliseconds. In every case exactly one response is written,
    and the outcome of writing it is the result of the handler. *)
Theorem Handler_Chat_status (h : Handler) (c : Context) (w : World) :
  let bound := Context_Bind json_Decode_ChatRequest c (mkChatRequest "" "") in
  let req := fst bound in
  let called :=
    Service_Chat (Handler_service h) (ChatRequest_SessionID req)
      (Context_GetString c "user_id") (ChatRequest_Message req) w in
  (snd bound <> None ->
   Handler_Chat h c w
   = Context_JSON c 400 (response_Error "invalid request body") w)
  /\ (snd bound = None ->
      Handler_Chat h c w =
      match fst called with
      | (_, Some err) =>
          Context_JSON c 500 (response_Error (Error err)) (snd called)
      | (Some resp, None) =>
          Context_JSON c 200
            (response_Success
               (DataChat (Response_Text resp) (Response_Confidence resp)
                  (Z.quot (Response_Latency resp) 1000000)))
            (snd called)
      | (None, None) => (None, snd called)
      end)
  /\ fst called <> (None, None)
  /\ (snd bound = None -> ChatRequest_Message req = "" ->
      Handler_Chat h c w
      = Context_JSON c 500 (response_Error "empty message") w)
  /\ ((forall s, Context_values c !! "user_id" <> Some (AnyString s)) ->
      Context_GetString c "user_id" = "").
Proof.
  intros bound req called. subst called req bound.
  pose proof (Service_Chat_result (Handler_service h)
                (ChatRequest_SessionID
                   (fst (Context_Bind json_Decode_ChatRequest c
                           (mkChatRequest "" ""))))
                (Context_GetString c "user_id")
                (ChatRequest_Message
                   (fst (Context_Bind json_Decode_ChatRequest c
                           (mkChatRequest "" ""))))
                w) as Hshape.
  unfold Handler_Chat, badRequest, bind, ret.
  destruct (Context_Bind json_Decode_ChatRequest c _) as [req [berr|]];
    cbn [fst snd] in *.
  - split; [reflexivity|]. split; [discriminate|].
    split; [intros E; rewrite E in Hshape; exact Hshape|].
    split; [discriminate|].
    intros Hno. unfold Context_GetString.
    destruct (Context_values c !! "user_id") as [[s|]|] eqn:E; try reflexivity.
    now elim (Hno s).
  - split; [intros H; now elim H|].
    split.
    { intros _.
      destruct (Service_Chat _ _ _ _ w) as [[[resp|] [err|]] w1]; reflexivity. }
    split; [intros E; rewrite E in Hshape; exact Hshape|].
    split.
    { intros _ Hm. rewrite Hm. reflexivity. }
    intros Hno. unfold Context_GetString.
    destruct (Context_values c !! "user_id") as [[s|]|] eqn:E; try reflexivity.
    now elim (Hno s).
Qed.

End HttpFacts.

(** ** Prompts *)

Section PromptFacts.
Context {JS : Json} {TT : TextTemplate} {TP : Templates}.

Lemma fold_left_analyses (steps : list FiveWhyStep) (acc : string) :
  fold_left (fun acc s => acc +:+ "- " +:+ Analysis s +:+ nl) steps acc
  = fold_left (fun acc a => acc +:+ "- " +:+ a +:+ nl) (map Analysis steps) acc.
Proof.
  revert acc. induction steps as [|s steps IH]; intros acc; [reflexivity|].
  simpl. apply IH.
Qed.

(** X25. What the prompts are built from. The solution prompt reads
    the root cause through its text alone and the steps through their
    analyses alone: the evidence, confidence, category and impact scope of
    the root cause play no part, nor do the questions and answers of the
    steps. The reframing prompt, too, reads the text of the root cause
    only. And a template that does not parse is returned as it stands:
    then every prompt is the template text, whatever the data. *)
Theorem prompt_inputs :
  (forall rc rc' steps steps',
     RootCause rc = RootCause rc' ->
     map Analysis steps = map Analysis steps' ->
     BuildSolutionPrompt NewBuilder rc steps
     = BuildSolutionPrompt NewBuilder rc' steps')
  /\ (forall question rc rc',
        RootCause rc = RootCause rc' ->
        BuildReframePrompt NewBuilder question rc
        = BuildReframePrompt NewBuilder question rc')
  /\ (forall tpl data, template_Parse tpl = None -> render tpl data = tpl)
  /\ (template_Parse FiveWhyTemplate = None ->
      forall level question,
        BuildFiveWhyPrompt NewBuilder level question = FiveWhyTemplate)
  /\ (template_Parse RootCauseTemplate = None ->
      forall steps, BuildRootCausePrompt NewBuilder steps = RootCauseTemplate).
Proof.
  cbn [NewBuilder BuildSolutionPrompt BuildReframePrompt BuildFiveWhyPrompt
       BuildRootCausePrompt].
  unfold PromptBuilder_BuildSolutionPrompt, PromptBuilder_BuildReframePrompt,
    PromptBuilder_BuildFiveWhyPrompt, PromptBuilder_BuildRootCausePrompt, render.
  split; [|split; [|split; [|split]]].
  - intros rc rc' steps steps' Hrc Hst.
    now rewrite !fold_left_analyses, Hrc, Hst.
  - intros question rc rc' Hrc. now rewrite Hrc.
  - intros tpl data ->. reflexivity.
  - intros ->. reflexivity.
  - intros ->. reflexivity.
Qed.

End PromptFacts.

(** ** Handlers, continued *)

Section HandlerFacts.
Context {F32 : Float32} {JS : Json} {JM : JsonMarshal} {JD : JsonDecode}
        {RT : Runtime}.

(** X26. The errors of the other endpoints. A body that does not decode
    is answered with status 400 and nothing else happens. A switch that
    is off, a missing memory engine, and an empty recall query are each
    answered with status 500 and the message of the error, the world
    being untouched before the response is written; none of them is
    reported as a bad request. *)
Theorem handler_errors (h : Handler) (c : Context) (w : World) :
  let s := Handler_service h in
  let wrote := fun (status : Z) (msg : string) =>
    Context_JSON c status (response_Error msg) w in
  let failed := fun {A} (bound : A * option error) => snd bound <> None in
  let fiveWhy := Context_Bind json_Decode_FiveWhyRequest c (mkFiveWhyRequest "" "") in
  let rootCause := Context_Bind json_Decode_RootCauseRequest c (mkRootCauseRequest []) in
  let reframe :=
    Context_Bind json_Decode_ReframeRequest c
      (mkReframeRequest "" RootCauseResult_zero) in
  let compress := Context_Bind json_Decode_CompressRequest c (mkCompressRequest "") in
  let recall := Context_Bind json_Decode_RecallRequest c (mkRecallRequest "" 0) in
  ((failed fiveWhy -> Handler_FiveWhy h c w = wrote 400 "invalid request body")
   /\ (failed rootCause -> Handler_RootCause h c w = wrote 400 "invalid request body")
   /\ (failed reframe -> Handler_Reframe h c w = wrote 400 "invalid request body")
   /\ (failed compress ->
       Handler_CompressSession h c w = wrote 400 "invalid request body")
   /\ (failed recall -> Handler_Recall h c w = wrote 400 "invalid request body"))
  /\ (~ failed fiveWhy -> ServiceConfig_FiveWhy (Service_cfg s) = false ->
      Handler_FiveWhy h c w = wrote 500 "five-why engine disabled")
  /\ (~ failed rootCause -> ServiceConfig_RootCause (Service_cfg s) = false ->
      Handler_RootCause h c w = wrote 500 "root-cause engine disabled")
  /\ (~ failed reframe -> ServiceConfig_Reframer (Service_cfg s) = false ->
      Handler_Reframe h c w = wrote 500 "reframing engine disabled")
  /\ (~ failed compress -> Service_memory s = None ->
      Handler_CompressSession h c w = wrote 500 "memory engine not configured")
  /\ (~ failed recall -> Service_memory s = None ->
      Handler_Recall h c w = wrote 500 "memory engine not configured")
  /\ (~ failed recall -> Service_memory s <> None ->
      RecallRequest_Query (fst recall) = "" ->
      Handler_Recall h c w = wrote 500 "empty query")
  /\ (~ failed fiveWhy -> ServiceConfig_FiveWhy (Service_cfg s) = true ->
      Service_memory s = None ->
      FiveWhyRequest_Question (fst fiveWhy) = "" ->
      Handler_FiveWhy h c w = wrote 500 "empty question").
Proof.
  intros s wrote failed fiveWhy rootCause reframe compress recall.
  subst s wrote failed fiveWhy rootCause reframe compress recall. cbv beta.
  unfold Handler_FiveWhy, Handler_RootCause, Handler_Reframe,
    Handler_CompressSession, Handler_Recall, badRequest.
  destruct (Context_Bind json_Decode_FiveWhyRequest c _) as [r1 [e1|]];
  destruct (Context_Bind json_Decode_RootCauseRequest c _) as [r2 [e2|]];
  destruct (Context_Bind json_Decode_ReframeRequest c _) as [r3 [e3|]];
  destruct (Context_Bind json_Decode_CompressRequest c _) as [r4 [e4|]];
  destruct (Context_Bind json_Decode_RecallRequest c _) as [r5 [e5|]];
  cbn [fst snd];
  (split; [repeat split; first [reflexivity | intros H; now elim H]|]);
  repeat split;
  try (intros H; exfalso; apply H; discriminate);
  intros _.
  all: unfold Service_FiveWhy, Service_RootCause, Service_Reframe,
         Service_CompressSession, Service_Recall, bind, ret.
  all: try (intros ->; reflexivity).
  all: try (intros Hm; destruct (Service_memory (Handler_service h)) as [memory|];
            [|now elim Hm]; intros Hq; unfold Recall; rewrite Hq; reflexivity).
  all: intros -> -> Hq; cbn [negb]; unfold RunFiveWhy; rewrite Hq; reflexivity.
Qed.

End HandlerFacts.

(** ** A chat without session *)

Section SessionlessChat.
Context {F32 : Float32} {JS : Json} {JM : JsonMarshal} {RT : Runtime}.

(** X27. A chat without session id leaves no trace. With a memory
    engine and the Postgres repository configured, a message sent under
    the empty session id is answered all the same, but it is neither
    appended to a session nor saved: the append and the save both refuse
    the empty id, their refusals are dropped, and the world after the
    chat is the world after reading the context and generating. *)
Theorem Chat_without_session (s : Service) (memory : MemoryEngine) (db : SqlDB)
    (userID message : string) (w : World) :
  Service_memory s = Some memory ->
  Service_repo s = Some (NewRepository db) ->
  message <> "" ->
  let h := HybridContext memory "" message 5 w in
  let gen :=
    Manager_Generate (Service_llm s) (chatRequest (fst (fst h)) message) (snd h) in
  Service_Chat s "" userID message w =
  (match snd (fst gen) with
   | Some err => (None, Some err)
   | None => (Some (fst (fst gen)), None)
   end, snd gen).
Proof.
  intros Hm Hr Hne h gen. subst h gen.
  unfold Service_Chat, chatRequest, bind, ret. rewrite Hm, Hr.
  destruct (String.eqb_spec message ""); [contradiction|].
  change (AppendSession memory "" "user" message w)
    with (Some (errors_New "missing session id"), w).
  cbn [fst snd].
  destruct (HybridContext memory "" message 5 w) as [[ctxData herr] w2].
  cbn [fst snd].
  destruct (Manager_Generate (Service_llm s) _ w2) as [[resp [gerr|]] w3];
    cbn [fst snd]; [reflexivity|].
  reflexivity.
Qed.

End SessionlessChat.

(** * The model on explicit inputs *)

Module Runs.
Import Sim.
#[local] Existing Instance f32.
#[local] Existing Instance runtime.
#[local] Existing Instance json.
#[local] Existing Instance text_template.
#[local] Existing Instance templates.

(** The greedy slice of prose around an object, of an unbalanced extra
    opening brace, and of a closing brace before the opening one. *)
Example extractJSON_examples :
  extractJSON ("noise {" +:+ quote +:+ "a" +:+ quote +:+ ":1} trailing")
  = ("{" +:+ quote +:+ "a" +:+ quote +:+ ":1}", None)
  /\ extractJSON ("noise { {" +:+ quote +:+ "a" +:+ quote +:+ ":1} trailing")
     = ("", Some (errors_New "invalid json structure"))
  /\ extractJSON "no braces here"
     = ("", Some (errors_New "no json found in llm output"))
  /\ extractJSON "} before {"
     = ("", Some (errors_New "no json found in llm output"))
  /\ extractJSON "only { here"
     = ("", Some (errors_New "no json found in llm output")).
Proof. repeat split; vm_compute; reflexivity. Qed.

(** A full run over the scripted provider and the pgvector store. *)
Example RunFiveWhy_example :
  let r := RunFiveWhy orchestrator "s1" "Deploys fail intermittently" world0 in
  (exists session,
     fst r = (Some session, None)
     /\ map Level (FiveWhySession_Steps session) = [1; 2; 3; 4; 5]
     /\ RootCause (FiveWhySession_RootCause session) = "flaky network config"
     /\ Category (FiveWhySession_RootCause session) = "technical"
     /\ Owner (FiveWhySession_Solution session) = "platform team"
     /\ Original (FiveWhySession_Reframed session) = "Deploys fail intermittently")
  /\ length (calls (snd r)) = 18%nat
  /\ rows (snd r) = [].
Proof. vm_compute. split; [eexists|]; repeat split. Qed.

(** A run whose provider is down returns the provider's error alone. *)
Example RunFiveWhy_provider_down :
  fst (RunFiveWhy
         (NewOrchestrator (mkManager broken_engine None None "" "" "")
            (PgVectorStore_as_Store pg) NewBuilder)
         "s1" "Deploys fail intermittently" world0)
  = (None, Some refused).
Proof. vm_compute. reflexivity. Qed.

(** A text of 1600 bytes scores 0.95, alone and as the answer of a
    generation. *)
Lemma confidence_step_function_witness :
  EstimateConfidence ModeReasoning (filler 1600) = 0.95%Q
  /\ EstimateConfidence ModeReasoning (filler 301) = 0.7%Q
  /\ Response_Confidence
       (fst (fst (Engine_Generate echo_engine
                    (request ModePlanning "Deploys fail intermittently")
                    world0)))
     = 0.95%Q.
Proof.
  destruct confidence_step_function as (Hstep & Hgen & _).
  split; [|split].
  - destruct (Hstep ModeReasoning (filler 1600)) as (Hhigh & _).
    apply Hhigh. vm_compute. reflexivity.
  - destruct (Hstep ModeReasoning (filler 301)) as (_ & _ & Hmid & _).
    apply Hmid. vm_compute. split; [reflexivity|discriminate].
  - set (r := Engine_Generate echo_engine _ world0).
    assert (E : r = ((fst (fst r), None), snd r)) by (vm_compute; reflexivity).
    unfold r in E at 1. rewrite (Hgen _ _ _ _ _ E ModeDefault).
    vm_compute. reflexivity.
Defined.

(** An empty prompt, an engine without providers, and a dispatch with
    neither mode nor token budget. *)
Lemma Generate_validation_and_dispatch_witness :
  Engine_Generate engine (request ModeReasoning "") world0
  = ((Response_zero, Some (errors_New "empty prompt")), snd (time_Now world0))
  /\ Engine_Generate NewEngine (request ModeReasoning "why") world0
     = ((Response_zero,
         Some (errors_New "llm provider not registered: primary")),
        snd (time_Now world0))
  /\ ProviderRequest_MaxTokens (dispatched engine (request "" "why")) = 1024
  /\ ProviderRequest_Model (dispatched engine (request "" "why"))
     = "default-model".
Proof.
  split; [|split].
  - apply (Generate_validation_and_dispatch (RT := runtime) engine
             (request ModeReasoning "") world0). reflexivity.
  - apply (Generate_validation_and_dispatch (RT := runtime) NewEngine
             (request ModeReasoning "why") world0). discriminate.
  - pose proof (proj1 (proj2 (Generate_validation_and_dispatch (RT := runtime)
                                engine (request "" "why") world0))) as Hd.
    cbv zeta in Hd. specialize (Hd ltac:(discriminate)).
    change (Engine_providers engine !! (SelectProvider ModeDefault).1)
      with (Some scripted) in Hd.
    cbv iota beta in Hd. destruct Hd as (_ & _ & Hmax & Hmodel & _).
    split; [exact Hmax|]. rewrite (Hmodel eq_refl). reflexivity.
Defined.

(** The error of a generation on an engine without providers. *)
Lemma SelectProvider_total_constant_witness :
  SelectProvider "no-such-mode" = ("primary", None)
  /\ (Request_Prompt (request ModeReasoning "why") <> ""
      /\ Engine_providers NewEngine !! "primary" = None).
Proof.
  destruct SelectProvider_total_constant as [Hsel Herr].
  split; [apply Hsel|].
  destruct (Herr NewEngine (request ModeReasoning "why") world0
              (errors_New "llm provider not registered: primary") eq_refl)
    as [[He _]|[(Hp & Hnone & _)|(_ & p & Hp & _)]].
  - discriminate He.
  - split; assumption.
  - discriminate Hp.
Defined.

(** No session under the id and two documents recalled; a session under
    the id and the database down. *)
Lemma HybridContext_never_fails_witness :
  fst (HybridContext memory "nosuch" "query" 0 world_docs)
  = (nl +:+ "--- Semantic Memory ---" +:+ nl
     +:+ "first doc" +:+ nl +:+ "second doc" +:+ nl, None)
  /\ fst (HybridContext memory "s1" "query" 0
            (set_kv (kv world_chat) world_db_down))
     = ("user: hello" +:+ nl, None).
Proof.
  split.
  - destruct (HybridContext_never_fails memory "nosuch" "query" 0 world_docs)
      as (Hnil & _ & _ & _ & Hsem & _).
    destruct (Hsem eq_refl eq_refl) as (rm & Hrm & Htext).
    apply injective_projections; [rewrite Htext|exact Hnil].
    vm_compute in Hrm. injection Hrm as <-. reflexivity.
  - destruct (HybridContext_never_fails memory "s1" "query" 0
                (set_kv (kv world_chat) world_db_down))
      as (Hnil & _ & _ & _ & _ & Hs & _).
    apply injective_projections; [|exact Hnil].
    refine (Hs (mkSessionMemory "" [mkMemoryMessage "user" "hello" 0] 0) _ _);
      [vm_compute; reflexivity|vm_compute; discriminate].
Defined.

(** A valid document, a document without embedding, negative limits. *)
Lemma Store_and_Search_validation_witness :
  PgVectorStore_Store pg valid_doc world0
  = DB_ExecContext db
      (upsertQuery "vector_memory" (vectorToSQL (Document_Vector valid_doc)))
      ["a"; "some content"; mapToJSON (Document_Meta valid_doc)] world0
  /\ PgVectorStore_Store pg (mkDocument "s1" "why" [] ∅) world0
     = (Some (errors_New "missing embedding vector"), world0)
  /\ PgVectorStore_Search pg [1] (-3) world_docs
     = PgVectorStore_Search pg [1] 5 world_docs
  /\ Recall memory "query" (-3) world_docs = Recall memory "query" 5 world_docs.
Proof.
  destruct (Store_and_Search_validation pg)
    as (_ & Hvec & Hups & _ & Hclamp & _ & Hrecall & _ & _).
  split; [|split; [|split]].
  - apply Hups; discriminate.
  - apply Hvec; [discriminate|reflexivity].
  - apply Hclamp. lia.
  - apply Hrecall; [reflexivity|lia].
Defined.

(** The claim that [Store] fails only on an empty identifier or an empty
    embedding does not hold: with the database down, a document that has
    both is refused with the error of the database. *)
Lemma Store_fails_on_valid_document :
  Document_ID valid_doc <> ""
  /\ Document_Vector valid_doc <> []
  /\ fst (PgVectorStore_Store pg valid_doc world_db_down) = Some refused.
Proof.
  split; [discriminate|]. split; [discriminate|]. vm_compute. reflexivity.
Qed.

(** An empty session id; a key/value store that is down; an append to an
    existing transcript. *)
Lemma AppendSession_best_effort_witness :
  AppendSession memory "" "user" "hello" world0
  = (Some (errors_New "missing session id"), world0)
  /\ fst (AppendSession memory "s1" "user" "hello" world_kv_down) = None
  /\ kv (snd (AppendSession memory "s1" "assistant" "hi" world_chat))
       !! "session:s1"
     = Some ("user|hello" +:+ nl +:+ "assistant|hi" +:+ nl).
Proof.
  split; [|split].
  - apply (AppendSession_best_effort memory "" "user" "hello" world0).
    reflexivity.
  - destruct (AppendSession_best_effort memory "s1" "user" "hello"
                world_kv_down) as (_ & _ & Hok).
    rewrite (Hok ltac:(discriminate)). reflexivity.
  - destruct (AppendSession_best_effort memory "s1" "assistant" "hi"
                world_chat) as (_ & _ & Hok).
    rewrite (Hok ltac:(discriminate)). vm_compute. reflexivity.
Defined.

(** The calls that leave the process: none on an empty prompt or an
    engine without providers, one with the defaults applied otherwise. *)
Example Generate_calls_example :
  calls (snd (Engine_Generate engine (request ModeReasoning "") world0)) = []
  /\ calls (snd (Engine_Generate NewEngine (request ModeReasoning "why") world0))
     = []
  /\ calls (snd (Engine_Generate engine (request "" "why") world0))
     = [CallGenerate "why" "default-model" 1024]
  /\ calls (snd (Engine_Generate engine
                   (mkRequest "no-such-mode" "why" 0 (-7) ∅) world0))
     = [CallGenerate "why" "default-model" (-7)].
Proof. repeat split; vm_compute; reflexivity. Qed.

(** Over a store that accepts everything, and over one that refuses
    everything, the run hands over the same three documents after its 18
    generations and returns the same session. *)
Example RunFiveWhy_store_calls :
  let run := fun st : Store =>
    RunFiveWhy (NewOrchestrator manager st NewBuilder) "s1"
      "Deploys fail intermittently" world0 in
  drop 18 (calls (snd (run (recording None))))
  = [ CallStore "s1" "Deploys fail intermittently" [("type", "question")];
      CallStore "s1_rca" "flaky network config" [("type", "root_cause")];
      CallStore "s1_solution" ("Plan: " +:+ solutionJSON) [("type", "solution")] ]
  /\ calls (snd (run (recording (Some refused))))
     = calls (snd (run (recording None)))
  /\ fst (run (recording (Some refused))) = fst (run (recording None))
  /\ fst (fst (run (recording None))) <> None.
Proof. vm_compute. repeat split; discriminate. Qed.

(** A run that succeeds: five steps, levels 1 to 5. *)
Lemma RunFiveWhy_all_or_nothing_witness :
  exists session,
    fst (RunFiveWhy orchestrator "s1" "Deploys fail intermittently" world0)
    = (Some session, None)
    /\ length (FiveWhySession_Steps session) = 5%nat
    /\ map Level (FiveWhySession_Steps session) = [1; 2; 3; 4; 5].
Proof.
  pose proof (RunFiveWhy_all_or_nothing orchestrator "s1"
                "Deploys fail intermittently" world0) as T.
  destruct (fst (RunFiveWhy orchestrator "s1" "Deploys fail intermittently"
                   world0)) as [[session|] [err|]] eqn:E;
    try contradiction.
  - exists session. destruct T as (Hlen & Hlv & _). auto.
  - vm_compute in E. discriminate E.
Defined.

(** Prose around an object: the object is what is extracted. *)
Lemma structured_payload_extraction_witness :
  extractJSON ("noise {" +:+ quote +:+ "a" +:+ quote +:+ ":1} trailing " +:+ nl)
  = ("{" +:+ quote +:+ "a" +:+ quote +:+ ":1}", None).
Proof.
  destruct (structured_payload_extraction
              ("noise {" +:+ quote +:+ "a" +:+ quote +:+ ":1} trailing " +:+ nl))
    as (_ & _ & Hvalue & _).
  apply (Hvalue "noise " (quote +:+ "a" +:+ quote +:+ ":1") " trailing").
  - vm_compute. reflexivity.
  - simpl. intuition discriminate.
  - simpl. intuition discriminate.
  - vm_compute. reflexivity.
Defined.


End Runs.

(** * The further model on explicit inputs *)

Module RunsMore.
Import Sim SimService.
#[local] Existing Instance f32.
#[local] Existing Instance runtime.
#[local] Existing Instance json.
#[local] Existing Instance text_template.
#[local] Existing Instance templates.
#[local] Existing Instance marshal.
#[local] Existing Instance decoder.


(** The manager built for [ollama] answers with its banner. *)
Lemma NewManager_Generate_witness :
  exists m,
    NewManager ollama_config = (Some m, None)
    /\ Response_Text
         (fst (fst (Manager_Generate m (request ModeReasoning "why") world0)))
       = "[OLLAMA RESPONSE PLACEHOLDER]" +:+ nl +:+ "why".
Proof.
  eexists. split; [reflexivity|].
  destruct (NewManager_Generate (RT := runtime) ollama_config _
              (request ModeReasoning "why") world0 eq_refl) as (_ & _ & Hok).
  rewrite (Hok ltac:(discriminate)). reflexivity.
Defined.

(** The memory hook over the pgvector store only reads the clock. *)
Lemma storeMemory_never_reaches_pgvector_witness :
  calls (snd (storeMemory hooked_manager (request ModeReasoning "why")
                (mkResponse "because" 128 1 "primary" "reasoning-model" 0.5%Q)
                world0))
  = [].
Proof.
  destruct (storeMemory_never_reaches_pgvector (RT := runtime) hooked_manager pg
              (request ModeReasoning "why")
              (mkResponse "because" 128 1 "primary" "reasoning-model" 0.5%Q)
              world0 eq_refl) as (_ & Hclock & _).
  rewrite (Hclock eq_refl). reflexivity.
Defined.

(** Two rows found: two documents, in order, without embedding. *)
Lemma Search_results_witness :
  fst (PgVectorStore_Search pg [1] 0 world_docs)
  = ([mkDocument "d1" "first doc" [] ∅; mkDocument "d2" "second doc" [] ∅], None).
Proof.
  destruct (Search_results (F32 := f32) (RT := runtime) pg [1] 0 world_docs
              ltac:(discriminate)) as (_ & _ & Hrows & _).
  rewrite Hrows; [reflexivity|reflexivity|].
  vm_compute. repeat constructor.
Defined.

(** The metadata of a root-cause document survives the round trip. *)
Lemma metadata_round_trip_witness :
  jsonToMap (mapToJSON root_meta) = root_meta.
Proof.
  refine (proj1 (metadata_round_trip root_meta _)).
  assert (Hfree : forall cutset s,
             forallb (fun c => negb (in_cutset cutset c)) (list_ascii_of_string s)
             = true ->
             free_of cutset s).
  { intros cutset s. induction s as [|a s IH]; simpl; intros H c Hc; [elim Hc|].
    apply andb_prop in H. destruct H as [Ha Hs]. destruct Hc as [<-|Hc].
    - now destruct (in_cutset cutset a).
    - now apply IH. }
  unfold root_meta.
  apply map_Forall_insert_2; [split; apply Hfree; reflexivity|].
  apply map_Forall_insert_2; [split; apply Hfree; reflexivity|].
  apply map_Forall_empty.
Defined.

(** A value that holds a comma does not survive it. *)
Example metadata_comma_lost :
  jsonToMap (mapToJSON (<["note" := "a,b"]> ∅)) = <["note" := "a"]> ∅.
Proof. vm_compute. reflexivity. Qed.

(** What was extracted from prose is extracted from itself. *)
Lemma extractJSON_idempotent_witness :
  extractJSON ("{" +:+ quote +:+ "a" +:+ quote +:+ ":1}")
  = ("{" +:+ quote +:+ "a" +:+ quote +:+ ":1}", None).
Proof.
  apply (extractJSON_idempotent
           ("noise {" +:+ quote +:+ "a" +:+ quote +:+ ":1} trailing")
           ("{" +:+ quote +:+ "a" +:+ quote +:+ ":1}")).
  vm_compute. reflexivity.
Defined.

(** The root cause of a full run is the one the partial entry point
    extracts from its steps. *)
Lemma RunFiveWhy_agrees_with_partial_witness :
  exists session,
    fst (RunFiveWhy orchestrator "s1" "Deploys fail intermittently" world0)
    = (Some session, None)
    /\ fst (ExtractRootCause orchestrator (FiveWhySession_Steps session)
              (snd (whyLoop orchestrator 5 1 [] "Deploys fail intermittently"
                      (snd (time_Now world0)))))
       = (Some (FiveWhySession_RootCause session), None).
Proof.
  destruct (fst (RunFiveWhy orchestrator "s1" "Deploys fail intermittently"
                   world0)) as [[session|] [err|]] eqn:E;
    try (vm_compute in E; discriminate E).
  exists session. split; [reflexivity|].
  apply (RunFiveWhy_agrees_with_partial orchestrator "s1"
           "Deploys fail intermittently" world0 session E).
Defined.


(** Without session id the chat is answered, and neither the key/value
    store is written nor a statement issued. *)
Lemma Chat_without_session_witness :
  (exists resp,
     fst (Service_Chat (service true) "" "u1" "hello" world_docs)
     = (Some resp, None))
  /\ snd (Service_Chat (service true) "" "u1" "hello" world_docs)
     = snd (Manager_Generate manager
              (chatRequest
                 (fst (fst (HybridContext memory "" "hello" 5 world_docs)))
                 "hello")
              (snd (HybridContext memory "" "hello" 5 world_docs))).
Proof.
  rewrite (Chat_without_session (service true) memory sqldb "u1" "hello"
             world_docs eq_refl eq_refl ltac:(discriminate)).
  split; [|reflexivity]. vm_compute. eexists. reflexivity.
Defined.

(** A chat over the full service: the context recalled, the answer
    appended and the exchange saved; and the statuses of three requests. *)
Example Service_Chat_example :
  let r := Service_Chat (service true) "s1" "u1" "hello" world_docs in
  (exists resp, fst r = (Some resp, None))
  /\ kv (snd r) !! "session:s1" <> None
  /\ last (calls (snd r))
     = Some (CallExec saveMessageQuery
               ["1006"; "s1"; "u1"; "hello";
                "Sure. " +:+ reframeJSON +:+ nl]).
Proof. vm_compute. split; [eexists; reflexivity|]. split; [discriminate|reflexivity]. Qed.

Example Handler_Chat_example :
  Handler_Chat (NewHandler bare_service) (post "not json {") world0
  = Context_JSON (post "not json {") 400 (response_Error "invalid request body")
      world0
  /\ Handler_Chat (NewHandler bare_service)
       (post ("{" +:+ jstr "session_id" "s1" +:+ "," +:+ jstr "message" "" +:+ "}"))
       world0
     = Context_JSON (post "") 500 (response_Error "empty message") world0.
Proof. split; vm_compute; reflexivity. Qed.

(** Two global middlewares and one of a group around a handler. *)
Example middleware_order_example :
  let r := Router_Use (Router_Use Router_New (mark "a")) (mark "b") in
  let g := Group_Use (Router_Group r "/api") (mark "g") in
  let h : HandlerFunc :=
    fun c => ret (Some (errors_New (Context_GetString c "trace"))) in
  map Route_path (Router_mux (Group_POST g r "/chat" h)) = ["/api/chat"]
  /\ map (fun route => fst (Route_handler route (post "") world0))
       (Router_mux (Group_POST g r "/chat" h))
     = [Some (errors_New "ababg")].
Proof. vm_compute. split; reflexivity. Qed.

End RunsMore.
